(** * Leopard-EM manuscript scripts: batch orchestration and particle export

    A shallow embedding of the pipeline scripts

      - [scripts/python_scripts/process_all_micrographs.py]             (match stage)
      - [scripts/python_scripts/process_all_micrographs_refine.py]      (refine stage)
      - [scripts/python_scripts/process_all_micrographs_constrained.py] (constrained search)
      - [scripts/export_relion.py]                                      (particle stacks)

    Python values are modelled as follows.  A [str] is a [string] of
    one-byte characters; an [int] is a [Z]; a [dict] with string keys is
    a [gmap string _]; a text file is the [string] that reading it in
    text mode yields; the file system is a [gmap] from paths to file
    contents.  Exceptions are explicit: a computation returns an
    [outcome], and code that prints, writes files or appends to the log
    threads a state.  The engine managers of [leopard_em], the YAML
    reader and writer, [float] parsing and the CSV reader are external
    to the scripts and enter as section variables. *)

From stdpp Require Import gmap strings list.
From stdpp Require Import sorting.
From Stdlib Require Import ZArith Lia Ascii DecimalString.
From Stdlib Require DecimalPos.

#[local] Set Warnings "-register-all".

(** ** Python [str] operations used by the scripts *)
Module PyStr.

#[local] Open Scope Z_scope.

Definition LF : ascii := Ascii.ascii_of_nat 10.

(** [len(s)] *)
Definition len (s : string) : Z := Z.of_nat (String.length s).

(** [s.rfind(c)]: the highest index holding [c], [-1] when there is none. *)
Fixpoint rfind (c : ascii) (s : string) : Z :=
  match s with
  | EmptyString => -1
  | String a r =>
      let i := rfind c r in
      if 0 <=? i then i + 1 else if Ascii.eqb a c then 0 else -1
  end.

Fixpoint drop_chars (n : nat) (s : string) : string :=
  match n, s with
  | S n', String _ r => drop_chars n' r
  | _, _ => s
  end.

Fixpoint take_chars (n : nat) (s : string) : string :=
  match n, s with
  | S n', String a r => String a (take_chars n' r)
  | _, _ => EmptyString
  end.

(** A slice bound as Python resolves it: negative bounds count from
    the end, and everything is clamped to [0, len]. *)
Definition bound (n i : Z) : Z :=
  if i <? 0 then Z.max (i + n) 0 else Z.min i n.

(** [s[i:]] and [s[:i]] *)
Definition slice_from (s : string) (i : Z) : string :=
  drop_chars (Z.to_nat (bound (len s) i)) s.

Definition slice_to (s : string) (i : Z) : string :=
  take_chars (Z.to_nat (bound (len s) i)) s.

(** [s[i:j]] *)
Definition slice (s : string) (i j : Z) : string :=
  let i' := bound (len s) i in
  let j' := bound (len s) j in
  take_chars (Z.to_nat (j' - i')) (drop_chars (Z.to_nat i') s).

(** [s.startswith(c)] and [s.endswith(c)] for a one-character [c] *)
Definition startswith (c : ascii) (s : string) : bool :=
  match s with
  | String a _ => Ascii.eqb a c
  | EmptyString => false
  end.

Fixpoint endswith (c : ascii) (s : string) : bool :=
  match s with
  | EmptyString => false
  | String a EmptyString => Ascii.eqb a c
  | String _ r => endswith c r
  end.

(** [s == c * len(s)] *)
Fixpoint all_char (c : ascii) (s : string) : bool :=
  match s with
  | EmptyString => true
  | String a r => Ascii.eqb a c && all_char c r
  end.

Definition is_empty (s : string) : bool :=
  match s with EmptyString => true | _ => false end.

(** [s.rstrip(c)] for a one-character [c] *)
Fixpoint rstrip_char (c : ascii) (s : string) : string :=
  match s with
  | EmptyString => EmptyString
  | String a r =>
      match rstrip_char c r with
      | EmptyString => if Ascii.eqb a c then EmptyString else String a EmptyString
      | r' => String a r'
      end
  end.

(** [s.split(c)[0]]: the text before the first [c]. *)
Fixpoint split_first (c : ascii) (s : string) : string :=
  match s with
  | EmptyString => EmptyString
  | String a r => if Ascii.eqb a c then EmptyString else String a (split_first c r)
  end.

(** The one-byte characters for which [str.isspace] holds. *)
Definition is_space (a : ascii) : bool :=
  let n := nat_of_ascii a in
  ((9 <=? n)%nat && (n <=? 13)%nat) || ((28 <=? n)%nat && (n <=? 32)%nat).

Fixpoint lstrip (s : string) : string :=
  match s with
  | String a r => if is_space a then lstrip r else s
  | EmptyString => EmptyString
  end.

Fixpoint rstrip (s : string) : string :=
  match s with
  | EmptyString => EmptyString
  | String a r =>
      match rstrip r with
      | EmptyString => if is_space a then EmptyString else String a EmptyString
      | r' => String a r'
      end
  end.

(** [s.strip()] *)
Definition strip (s : string) : string := rstrip (lstrip s).

(** [s.split()]: the maximal runs of non-space characters.  [cur]
    holds the run being read. *)
Fixpoint split_from (cur : string) (s : string) : list string :=
  match s with
  | EmptyString => if is_empty cur then [] else [cur]
  | String a r =>
      if is_space a
      then (if is_empty cur then split_from EmptyString r
            else cur :: split_from EmptyString r)
      else split_from (cur +:+ String a EmptyString) r
  end.

Definition split (s : string) : list string := split_from EmptyString s.

(** The lines a text file yields when iterated: each keeps its
    terminating newline, the last one may lack it. *)
Fixpoint lines_from (cur : string) (s : string) : list string :=
  match s with
  | EmptyString => if is_empty cur then [] else [cur]
  | String a r =>
      if Ascii.eqb a LF
      then (cur +:+ String a EmptyString) :: lines_from EmptyString r
      else lines_from (cur +:+ String a EmptyString) r
  end.

Definition readlines (text : string) : list string := lines_from EmptyString text.

(** [s.split(c)] for a one-character [c] *)
Fixpoint split_char_from (c : ascii) (cur : string) (s : string) : list string :=
  match s with
  | EmptyString => [cur]
  | String a r =>
      if Ascii.eqb a c then cur :: split_char_from c EmptyString r
      else split_char_from c (cur +:+ String a EmptyString) r
  end.

Definition split_char (c : ascii) (s : string) : list string :=
  split_char_from c EmptyString s.

(** [str(n)] for an [int] *)
Definition str_Z (n : Z) : string := NilZero.string_of_int (Z.to_int n).

Definition is_digit (a : ascii) : bool :=
  let n := nat_of_ascii a in (48 <=? n)%nat && (n <=? 57)%nat.

(** The longest prefix of digits, and what follows it. *)
Fixpoint span_digits (s : string) : string * string :=
  match s with
  | String a r =>
      if is_digit a
      then let '(d, rest) := span_digits r in (String a d, rest)
      else (EmptyString, s)
  | EmptyString => (EmptyString, EmptyString)
  end.

(** [int(d)] for a string of digits *)
Definition int_of_digits (d : string) : Z :=
  fold_left (fun acc a => 10 * acc + (Z.of_nat (nat_of_ascii a) - 48))
            (String.list_ascii_of_string d) 0.

(** [s] with the prefix [p] removed, when [s] starts with [p]. *)
Fixpoint strip_prefix (p s : string) : option string :=
  match p, s with
  | EmptyString, _ => Some s
  | String a p', String b s' => if Ascii.eqb a b then strip_prefix p' s' else None
  | String _ _, EmptyString => None
  end.

(** [repr(s)] for a [str] of ASCII characters: the text between two
    single quotes, or between two double quotes when it holds a
    single quote and no double quote; a backslash, the quote in use,
    tab, line feed and carriage return are written with a backslash,
    and the other control characters as [\xhh]. *)
Definition double_quote : ascii := Ascii.ascii_of_nat 34.
Definition backslash : ascii := Ascii.ascii_of_nat 92.

Definition hex_digit (n : nat) : ascii :=
  Ascii.ascii_of_nat (if (n <? 10)%nat then 48 + n else 87 + n).

Definition repr_char (quote a : ascii) : string :=
  let n := nat_of_ascii a in
  if Ascii.eqb a backslash then String backslash (String backslash EmptyString)
  else if Ascii.eqb a quote then String backslash (String quote EmptyString)
  else if (n =? 9)%nat then String backslash "t"
  else if (n =? 10)%nat then String backslash "n"
  else if (n =? 13)%nat then String backslash "r"
  else if (n <? 32)%nat || (n =? 127)%nat then
    String backslash
      (String "x" (String (hex_digit (n / 16)) (String (hex_digit (n mod 16)) EmptyString)))
  else String a EmptyString.

Definition repr (s : string) : string :=
  let quote :=
    if (0 <=? rfind "'" s) && (rfind double_quote s <? 0) then double_quote else "'"%char in
  String quote
    (String.concat EmptyString (map (repr_char quote) (String.list_ascii_of_string s)))
  +:+ String quote EmptyString.

(** [str(xs)] for a list of [str]: [['a', 'b']] *)
Definition str_list_str (xs : list string) : string :=
  "[" +:+ String.concat ", " (map repr xs) +:+ "]".

End PyStr.

(** ** [os.path] on POSIX *)
Module PosixPath.
Import PyStr.
#[local] Open Scope Z_scope.

Definition sep : ascii := "/"%char.
Definition extsep : ascii := "."%char.

(** [i = p.rfind(sep) + 1; return p[i:]] *)
Definition basename (p : string) : string :=
  let i := rfind sep p + 1 in
  slice_from p i.

(** [i = p.rfind(sep) + 1; head = p[:i];]
    [if head and head != sep*len(head): head = head.rstrip(sep)] *)
Definition dirname (p : string) : string :=
  let i := rfind sep p + 1 in
  let head := slice_to p i in
  if negb (is_empty head) && negb (all_char sep head)
  then rstrip_char sep head
  else head.

(** [os.path.join(a, b)] with two arguments *)
Definition join (a b : string) : string :=
  if startswith sep b then b
  else if is_empty a || endswith sep a then a +:+ b
  else a +:+ String sep EmptyString +:+ b.

(** [os.path.splitext(p)]: the extension starts at the last dot of
    the last component, unless only dots precede it there. *)
Definition splitext (p : string) : string * string :=
  let sepIndex := rfind sep p in
  let dotIndex := rfind extsep p in
  if (sepIndex <? dotIndex)
     && negb (all_char extsep (slice p (sepIndex + 1) dotIndex))
  then (slice_to p dotIndex, slice_from p dotIndex)
  else (p, EmptyString).

End PosixPath.

(** ** Exceptions and effects *)
Module Py.

(** The exception classes the scripts tell apart.  An exception is
    filed under the nearest of these classes it derives from;
    [OtherException] is any other subclass of [Exception]. *)
Inductive exc_class :=
  | FileNotFoundError | ValueError | PermissionError | ImportError
  | KeyError | TypeError | OtherException.

(** [KeyboardInterrupt] derives from [BaseException] only, so that an
    [except Exception] clause lets it through. *)
Inductive exn :=
  | KeyboardInterrupt
  | Exc (cls : exc_class) (msg : string).

Definition is_Exception (e : exn) : bool :=
  match e with KeyboardInterrupt => false | Exc _ _ => true end.

(** The text of the [FileNotFoundError] that [open] raises. *)
Definition no_such_file (p : string) : string :=
  "[Errno 2] No such file or directory: '" +:+ p +:+ "'".

(** [str(e)] *)
Definition str_exn (e : exn) : string :=
  match e with KeyboardInterrupt => "" | Exc _ msg => msg end.

Inductive outcome (A : Type) :=
  | Ok (a : A)
  | Raise (e : exn).
Arguments Ok {A} a.
Arguments Raise {A} e.

(** Sequencing of code that may raise. *)
Definition obind {A B} (o : outcome A) (k : A -> outcome B) : outcome B :=
  match o with Ok a => k a | Raise e => Raise e end.

(** Code that may raise and that reads or writes a state [S]. *)
Definition M (S A : Type) : Type := S -> S * outcome A.

Definition ret {S A} (a : A) : M S A := fun s => (s, Ok a).
Definition raise {S A} (e : exn) : M S A := fun s => (s, Raise e).
Definition lift {S A} (o : outcome A) : M S A := fun s => (s, o).
Definition bind {S A B} (m : M S A) (k : A -> M S B) : M S B :=
  fun s => match m s with
           | (s', Ok a) => k a s'
           | (s', Raise e) => (s', Raise e)
           end.
Definition gets {S A} (f : S -> A) : M S A := fun s => (s, Ok (f s)).
Definition modify {S} (f : S -> S) : M S unit := fun s => (f s, Ok tt).

(** [try: body  except Exception as e: handler(e)] *)
Definition try_except_Exception {S A} (body : M S A) (handler : exn -> M S A) : M S A :=
  fun s => match body s with
           | (s', Raise e) => if is_Exception e then handler e s' else (s', Raise e)
           | r => r
           end.

(** [try: body  finally: cleanup]: the cleanup runs in both cases,
    and an exception of the body is raised again after it. *)
Definition try_finally {S A} (body : M S A) (cleanup : M S unit) : M S A :=
  fun s => match body s with
           | (s', r) =>
               match cleanup s' with
               | (s'', Ok _) => (s'', r)
               | (s'', Raise e) => (s'', Raise e)
               end
           end.

(** [for x in xs: body(x)] *)
Fixpoint for_each {S A} (xs : list A) (body : A -> M S unit) : M S unit :=
  match xs with
  | [] => ret tt
  | x :: rest => bind (body x) (fun _ => for_each rest body)
  end.

(** [xs[start:end]] on a list *)
Definition slice {A} (xs : list A) (start stop : Z) : list A :=
  let n := Z.of_nat (length xs) in
  let i := PyStr.bound n start in
  let j := PyStr.bound n stop in
  take (Z.to_nat (j - i)) (drop (Z.to_nat i) xs).

End Py.

Declare Scope py_scope.
Delimit Scope py_scope with py.
Notation "x <- c ;; k" := (Py.bind c (fun x => k))
  (at level 100, c at next level, right associativity) : py_scope.
Notation "c ;; k" := (Py.bind c (fun _ => k))
  (at level 100, right associativity) : py_scope.
Notation "'let?' x := o 'in' k" := (Py.obind o (fun x => k))
  (at level 100, x pattern, o at next level, right associativity) : py_scope.

(** ** Configuration documents *)
Module Yaml.

(** What [yaml.safe_load] builds: scalars, lists and dicts with
    string keys.  [F] is the type of Python floats.  The document is
    a tree: a template that shares one node between two places
    through a YAML alias is not covered. *)
Inductive yaml (F : Type) : Type :=
  | YNull
  | YBool (b : bool)
  | YInt (z : Z)
  | YFloat (x : F)
  | YStr (s : string)
  | YSeq (l : list (yaml F))
  | YMap (m : gmap string (yaml F)).
Arguments YNull {F}.
Arguments YBool {F} b.
Arguments YInt {F} z.
Arguments YFloat {F} x.
Arguments YStr {F} s.
Arguments YSeq {F} l.
Arguments YMap {F} m.

Import Py.

Section Items.
Context {F : Type}.

(** [d[k]] *)
Definition getitem (d : yaml F) (k : string) : outcome (yaml F) :=
  match d with
  | YMap m =>
      match m !! k with
      | Some v => Ok v
      | None => Raise (Exc KeyError ("'" +:+ k +:+ "'"))
      end
  | _ => Raise (Exc TypeError "object is not subscriptable by a key")
  end.

(** [d[k] = v]; the result is [d] after the assignment. *)
Definition setitem (d : yaml F) (k : string) (v : yaml F) : outcome (yaml F) :=
  match d with
  | YMap m => Ok (YMap (<[k := v]> m))
  | _ => Raise (Exc TypeError "object does not support item assignment")
  end.

(** [d[k1][k2] = v]: the inner dict is looked up, then assigned
    into; the result is [d] holding the updated inner dict. *)
Definition setitem2 (d : yaml F) (k1 k2 : string) (v : yaml F) : outcome (yaml F) :=
  (let? inner := getitem d k1 in
   let? inner' := setitem inner k2 v in
   setitem d k1 inner')%py.

(** The value at a path of keys, when every step is a dict
    holding the key. *)
Fixpoint lookup_path (p : list string) (d : yaml F) : option (yaml F) :=
  match p with
  | [] => Some d
  | k :: p' =>
      match d with
      | YMap m => match m !! k with Some v => lookup_path p' v | None => None end
      | _ => None
      end
  end.

End Items.
End Yaml.

(** ** The world the match and refine orchestrators run in *)
Module World.
Import Py.

(** Files by path, and what was printed so far (oldest first).
    Directories are not modelled: a path exists when a file is
    stored under it, and writing a file always succeeds. *)
Record world := {
  fs : gmap string string;
  stdout : list string;
}.

(** [print(msg)] *)
Definition print (msg : string) : M world unit :=
  modify (fun w => {| fs := fs w; stdout := stdout w ++ [msg] |}).

(** [os.path.exists(p)] *)
Definition path_exists (files : gmap string string) (p : string) : bool :=
  bool_decide (is_Some (files !! p)).

Definition exists_ (p : string) : M world bool :=
  gets (fun w => path_exists (fs w) p).

(** [with open(p, 'r') as file: file.read()] *)
Definition read_file (p : string) : M world string :=
  fun w => match fs w !! p with
           | Some text => (w, Ok text)
           | None => (w, Raise (Exc FileNotFoundError (no_such_file p)))
           end.

(** [with open(p, 'w') as file: file.write(text)] *)
Definition write_file (p text : string) : M world unit :=
  modify (fun w => {| fs := <[p := text]> (fs w); stdout := stdout w |}).

(** A call into the engine: it may change files, and it returns or raises. *)
Definition call {A} (f : gmap string string -> gmap string string * outcome A) : M world A :=
  fun w => let '(files, o) := f (fs w) in ({| fs := files; stdout := stdout w |}, o).

(** [str(xs)] for a list of ints: ["[0, 1]"] *)
Definition str_list_Z (xs : list Z) : string :=
  "[" +:+ String.concat ", " (map PyStr.str_Z xs) +:+ "]".

End World.

(** ** [process_all_micrographs.py]: the match stage *)
Module MatchStage.
Import PyStr PosixPath Py Yaml World.
#[local] Open Scope py_scope.
#[local] Open Scope Z_scope.

(** [match = re.search(r'xenon_(\d+)_(\d+)_', s)] tried at the start
    of [s]: the two groups.  A greedy run of digits is followed by
    an underscore only at its full length. *)
Definition match_xenon_pair (s : string) : option (string * string) :=
  match strip_prefix "xenon_" s with
  | None => None
  | Some r1 =>
      let '(g1, r2) := span_digits r1 in
      if is_empty g1 then None else
      match strip_prefix "_" r2 with
      | None => None
      | Some r3 =>
          let '(g2, r4) := span_digits r3 in
          if is_empty g2 then None else
          match strip_prefix "_" r4 with
          | None => None
          | Some _ => Some (g1, g2)
          end
      end
  end.

(** The leftmost position at which the pattern matches. *)
Fixpoint search_xenon_pair (s : string) : option (string * string) :=
  match match_xenon_pair s with
  | Some g => Some g
  | None =>
      match s with
      | EmptyString => None
      | String _ r => search_xenon_pair r
      end
  end.

Definition extract_micrograph_number (filename : string) : option string :=
  match search_xenon_pair filename with
  | Some (g1, g2) => Some (g1 +:+ "_" +:+ g2)
  | None => None
  end.

Section Stage.
Context {F : Type}.
(** [float(s)]; [None] stands for [ValueError]. *)
Variable float_of_str : string -> option F.
(** [yaml.safe_load] and [yaml.dump(_, default_flow_style=False)] *)
Variable safe_load : string -> outcome (yaml F).
Variable dump : yaml F -> string.
(** [MatchTemplateManager.from_yaml(path)], [run_match_template(batch_size)]
    and [results_to_dataframe()], on the files as they are: the
    files afterwards, and the result table as CSV text. *)
Variable match_template : gmap string string -> string -> Z -> gmap string string * outcome string.
(** [sorted(glob.glob(pattern))] on the files as they are *)
Variable sorted_glob : gmap string string -> string -> list string.

Definition float (s : string) : outcome F :=
  match float_of_str s with
  | Some x => Ok x
  | None => Raise (Exc ValueError ("could not convert string to float: " +:+ repr s))
  end.

(** The loop of [get_ctf_parameters] over the lines of the file. *)
Fixpoint scan_ctf_lines (lines : list string) : outcome (option F * option F * option F) :=
  match lines with
  | [] => Ok (None, None, None)
  | line :: rest =>
      if startswith "#" line then scan_ctf_lines rest
      else
        match split (strip line) with
        | _ :: p1 :: p2 :: p3 :: _ :: _ =>       (* len(parts) >= 5 *)
            let? defocus_1 := float p1 in
            let? defocus_2 := float p2 in
            let? astigmatism_angle := float p3 in
            Ok (Some defocus_1, Some defocus_2, Some astigmatism_angle)
        | _ => scan_ctf_lines rest
        end
  end.

Definition get_ctf_parameters (ctf_file_path : string)
  : M world (option F * option F * option F) :=
  text <- read_file ctf_file_path ;;
  lift (scan_ctf_lines (readlines text)).

Definition yaml_of_float (x : option F) : yaml F :=
  match x with Some v => YFloat v | None => YNull end.

(** The body of the rewriting loop, for one key of the result group. *)
Definition rewrite_path (results_dir micrograph_basename original_path : string) : string :=
  let filename := basename original_path in
  let new_filename := micrograph_basename +:+ "_" +:+ filename in
  join results_dir new_filename.

(** [for key in group: if key != 'allow_file_overwrite': ...] where
    [group] is a dict; [keys] are the keys still to be visited. *)
Fixpoint rewrite_keys (results_dir micrograph_basename : string)
    (keys : list string) (group : gmap string (yaml F))
  : outcome (gmap string (yaml F)) :=
  match keys with
  | [] => Ok group
  | key :: rest =>
      if String.eqb key "allow_file_overwrite"
      then rewrite_keys results_dir micrograph_basename rest group
      else
        match group !! key with
        | Some (YStr original_path) =>
            rewrite_keys results_dir micrograph_basename rest
              (<[key := YStr (rewrite_path results_dir micrograph_basename original_path)]> group)
        | Some _ => Raise (Exc TypeError "expected str, bytes or os.PathLike object")
        | None => Raise (Exc KeyError ("'" +:+ key +:+ "'"))
        end
  end.

(** [xs[i]] for a list and an int index *)
Definition list_index (xs : list (yaml F)) (i : Z) : option nat :=
  let n := Z.of_nat (length xs) in
  if (0 <=? i) && (i <? n) then Some (Z.to_nat i)
  else if (- n <=? i) && (i <? 0) then Some (Z.to_nat (i + n))
  else None.

(** The same loop when the group is a list: the elements are the
    "keys", read from the list as it is when the loop reaches them
    ([pos] is the position of the iterator, [fuel] the number of
    elements left), and each is used as an index into the list. *)
Fixpoint rewrite_elems (results_dir micrograph_basename : string)
    (fuel : nat) (pos : nat) (group : list (yaml F)) : outcome (list (yaml F)) :=
  match fuel with
  | O => Ok group
  | S fuel' =>
      match group !! pos with
      | None => Ok group
      | Some key =>
          let continue_with g :=
            rewrite_elems results_dir micrograph_basename fuel' (S pos) g in
          let assign (i : Z) :=
            match list_index group i with
            | None => Raise (Exc OtherException "list index out of range")
            | Some n =>
                match group !! n with
                | Some (YStr original_path) =>
                    continue_with
                      (<[n := YStr (rewrite_path results_dir micrograph_basename original_path)]> group)
                | _ => Raise (Exc TypeError "expected str, bytes or os.PathLike object")
                end
            end in
          match key with
          | YStr s =>
              if String.eqb s "allow_file_overwrite" then continue_with group
              else Raise (Exc TypeError "list indices must be integers")
          | YInt i => assign i
          | YBool b => assign (if b then 1 else 0)
          | _ => Raise (Exc TypeError "list indices must be integers")
          end
      end
  end.

(** Lines 38 to 55 of [create_yaml_for_micrograph]: the loaded
    template after the updates. *)
Definition update_config (config : yaml F) (micrograph_path : string)
    (defocus_1 defocus_2 astigmatism_angle : option F)
    (output_path : string) (gpu_ids : list Z) : outcome (yaml F) :=
  let? config := setitem config "micrograph_path" (YStr micrograph_path) in
  let? config := setitem2 config "optics_group" "defocus_u" (yaml_of_float defocus_1) in
  let? config := setitem2 config "optics_group" "defocus_v" (yaml_of_float defocus_2) in
  let? config := setitem2 config "optics_group" "astigmatism_angle" (yaml_of_float astigmatism_angle) in
  let? config := setitem2 config "computational_config" "gpu_ids" (YSeq (map YInt gpu_ids)) in
  let micrograph_basename := split_first "." (basename micrograph_path) in
  let results_dir := dirname output_path in
  let? group := getitem config "match_template_result" in
  match group with
  | YMap m =>
      let? m' := rewrite_keys results_dir micrograph_basename (map_to_list m).*1 m in
      setitem config "match_template_result" (YMap m')
  | YSeq l =>
      let? l' := rewrite_elems results_dir micrograph_basename (length l) 0 l in
      setitem config "match_template_result" (YSeq l')
  | YStr EmptyString => Ok config
  | YStr _ => Raise (Exc TypeError "string indices must be integers")
  | _ => Raise (Exc TypeError "object is not iterable")
  end.

Definition create_yaml_for_micrograph (template_yaml_path micrograph_path : string)
    (defocus_1 defocus_2 astigmatism_angle : option F)
    (output_path : string) (gpu_ids : list Z) : M world (yaml F) :=
  text <- read_file template_yaml_path ;;
  config <- lift (safe_load text) ;;
  config <- lift (update_config config micrograph_path defocus_1 defocus_2
                                astigmatism_angle output_path gpu_ids) ;;
  write_file output_path (dump config) ;;
  ret config.


(** The [try] statement of [process_micrograph] *)
Definition run_guarded (micrograph_basename custom_yaml_path output_dir : string)
    (gpu_ids : list Z) (batch_size : Z) : M world bool :=
  try_except_Exception
    (print ("Running match template for " +:+ micrograph_basename
            +:+ " with GPUs " +:+ str_list_Z gpu_ids) ;;
     csv <- call (fun files => match_template files custom_yaml_path batch_size) ;;
     (* Save results to CSV *)
     let csv_path :=
       join output_dir ((splitext micrograph_basename).1 +:+ "_results.csv") in
     write_file csv_path csv ;;
     print ("Successfully processed " +:+ micrograph_basename) ;;
     ret true)
    (fun e =>
     print ("Error processing " +:+ micrograph_basename +:+ ": " +:+ str_exn e) ;;
     ret false).

Definition process_micrograph (micrograph_path template_yaml ctfs_dir output_dir : string)
    (gpu_ids : list Z) (batch_size : Z) : M world bool :=
  let micrograph_basename := basename micrograph_path in
  match extract_micrograph_number micrograph_basename with
  | None =>
      print ("Could not extract micrograph number from " +:+ micrograph_basename) ;;
      ret false
  | Some micrograph_number =>
      (* Find corresponding CTF file *)
      let ctf_filename := "xenon_" +:+ micrograph_number +:+ "_0.0_diagnostic.txt" in
      let ctf_file_path := join ctfs_dir ctf_filename in
      found <- exists_ ctf_file_path ;;
      if negb found then
        print ("CTF file not found: " +:+ ctf_file_path) ;;
        ret false
      else
        (* Extract defocus parameters *)
        ctf <- get_ctf_parameters ctf_file_path ;;
        let '(defocus_1, defocus_2, astigmatism_angle) := ctf in
        match defocus_1 with
        | None =>
            print ("Could not extract defocus parameters from " +:+ ctf_file_path) ;;
            ret false
        | Some _ =>
            (* Create custom YAML file for this micrograph *)
            let custom_yaml_path :=
              join output_dir ((splitext micrograph_basename).1 +:+ "_config.yaml") in
            create_yaml_for_micrograph template_yaml micrograph_path defocus_1 defocus_2
              astigmatism_angle custom_yaml_path gpu_ids ;;
            (* Run match template with the custom config *)
            run_guarded micrograph_basename custom_yaml_path output_dir gpu_ids batch_size
        end
  end.

Definition is_already_processed (files : gmap string string)
    (micrograph_path output_dir : string) : bool :=
  let micrograph_filename := basename micrograph_path in
  let results_filename := (splitext micrograph_filename).1 +:+ "_results.csv" in
  let results_path := join output_dir results_filename in
  path_exists files results_path.

(** The options record [argparse] hands to [main]; [gpu_ids] is
    [--gpus] after [int] was applied to its comma-separated parts. *)
Record args := {
  micrographs_dir : string;
  template_yaml : string;
  ctfs_dir : string;
  output_dir : string;
  gpu_ids : list Z;
  batch_size : Z;
  pattern : string;
  start_idx : option Z;
  end_idx : option Z;
  job_idx : option Z;
  jobs_per_array : option Z;
}.

(** The resume filter of [main]: the files whose results are absent. *)
Definition unprocessed (files : gmap string string) (output_dir : string)
    (micrograph_files : list string) : list string :=
  List.filter (fun micrograph_file =>
                 negb (is_already_processed files micrograph_file output_dir))
              micrograph_files.

(** "Determine which micrographs to process": the bounds that
    [main] computes, when one of the two modes applies. *)
Definition job_range (a : args) (n : Z) : option (Z * Z) :=
  match job_idx a, jobs_per_array a with
  | Some j, Some k =>
      let start_idx := (j - 1) * k in
      let end_idx := Z.min (start_idx + k) n in
      Some (start_idx, end_idx)
  | _, _ =>
      match start_idx a, end_idx a with
      | None, None => None
      | s, e => Some (default 0 s, default n e)
      end
  end.

Definition select (a : args) (micrograph_files : list string) : list string :=
  match job_range a (Z.of_nat (length micrograph_files)) with
  | Some (start_idx, end_idx) => Py.slice micrograph_files start_idx end_idx
  | None => micrograph_files
  end.

(** The per-item loop of [main]: [i] is the index of the next
    item, [n] the number of selected items; the result is the
    final value of [successful]. *)
Fixpoint process_each (a : args) (n i : Z) (micrograph_files : list string)
    (successful : Z) : M world Z :=
  match micrograph_files with
  | [] => ret successful
  | micrograph_file :: rest =>
      print ("Processing " +:+ str_Z (i + 1) +:+ "/" +:+ str_Z n +:+ ": "
             +:+ basename micrograph_file) ;;
      ok <- process_micrograph micrograph_file (template_yaml a) (ctfs_dir a)
              (output_dir a) (gpu_ids a) (batch_size a) ;;
      process_each a n (i + 1) rest (if ok then successful + 1 else successful)
  end.

Definition main (a : args) : M world Z :=
  (* Get list of micrograph files *)
  let micrograph_pattern := join (micrographs_dir a) (pattern a) in
  micrograph_files <- gets (fun w => sorted_glob (fs w) micrograph_pattern) ;;
  if bool_decide (micrograph_files = []) then
    print ("No micrograph files found matching pattern " +:+ micrograph_pattern) ;;
    ret 1
  else
    print ("Found " +:+ str_Z (Z.of_nat (length micrograph_files)) +:+ " micrograph files") ;;
    (* Filter out micrographs that have already been processed *)
    unprocessed_micrographs <-
      gets (fun w => unprocessed (fs w) (output_dir a) micrograph_files) ;;
    print ("Found " +:+ str_Z (Z.of_nat (length unprocessed_micrographs))
           +:+ " unprocessed micrographs out of "
           +:+ str_Z (Z.of_nat (length micrograph_files)) +:+ " total") ;;
    let micrograph_files := unprocessed_micrographs in
    if bool_decide (micrograph_files = []) then
      print "No unprocessed micrographs to process. Exiting." ;;
      ret 0
    else
      (* Determine which micrographs to process *)
      let selected := select a micrograph_files in
      match job_range a (Z.of_nat (length micrograph_files)) with
      | Some (start_idx, end_idx) =>
          print ("Processing micrographs " +:+ str_Z (start_idx + 1) +:+ "-"
                 +:+ str_Z end_idx +:+ " out of "
                 +:+ str_Z (Z.of_nat (length selected)))
      | None => ret tt
      end ;;
      let n := Z.of_nat (length selected) in
      successful <- process_each a n 0 selected 0 ;;
      print ("Successfully processed " +:+ str_Z successful +:+ "/" +:+ str_Z n
             +:+ " micrographs") ;;
      ret 0.

End Stage.
End MatchStage.


(** ** Notions used to state the properties of the match stage *)
Module MatchProps.
Import PyStr PosixPath Py Yaml World MatchStage.


(** The terminal artifact of an item in the match stage: the path
    that [is_already_processed] tests. *)
Definition results_path (micrograph_path output_dir : string) : string :=
  join output_dir ((splitext (basename micrograph_path)).1 +:+ "_results.csv").

(** The item's base name: the file name of the micrograph without
    its extension, as in the names of the derived configuration and
    of the results table. *)
Definition base_name (micrograph_path : string) : string :=
  (splitext (basename micrograph_path)).1.

(** What the derivation puts before the rewritten file names: the
    file name of the micrograph up to its first dot. *)
Definition item_prefix (micrograph_path : string) : string :=
  split_first "." (basename micrograph_path).

(** The key paths of the template that the derivation does not
    assign to: everything but [micrograph_path], the three optics
    fields, [computational_config.gpu_ids], and the result group. *)
Definition untouched (p : list string) : bool :=
  match p with
  | [] => false
  | k :: rest =>
      if String.eqb k "micrograph_path" then false
      else if String.eqb k "match_template_result" then false
      else if String.eqb k "optics_group" then
        match rest with
        | [] => false
        | k2 :: _ =>
            negb (String.eqb k2 "defocus_u" || String.eqb k2 "defocus_v"
                  || String.eqb k2 "astigmatism_angle")
        end
      else if String.eqb k "computational_config" then
        match rest with
        | [] => false
        | k2 :: _ => negb (String.eqb k2 "gpu_ids")
        end
      else true
  end.

(** [body] run on the items of a list in turn, each with its
    position in the list; the result is the number of items for which
    it answered [True].  An exception ends the run at its item. *)
Fixpoint in_turn {St} (body : nat -> string -> M St bool) (position : nat)
    (items : list string) : M St Z :=
  match items with
  | [] => ret 0%Z
  | item :: rest =>
      (ok <- body position item ;;
       count <- in_turn body (S position) rest ;;
       ret ((if ok then 1 else 0) + count)%Z)%py
  end.

Section Turns.
Context {F : Type}.
Variable float_of_str : string -> option F.
Variable safe_load : string -> outcome (yaml F).
Variable dump : yaml F -> string.
Variable match_template : gmap string string -> string -> Z -> gmap string string * outcome string.

(** What is done for the item at a position of the list that [main]
    processes: the progress line, with the position counted from 1
    and the number [n] of items, then the per-item function. *)
Definition turn (a : args) (n : Z) (position : nat) (micrograph_file : string)
  : M world bool :=
  (print ("Processing " +:+ str_Z (Z.of_nat position + 1)%Z +:+ "/" +:+ str_Z n +:+ ": "
          +:+ basename micrograph_file) ;;
   process_micrograph float_of_str safe_load dump match_template
     micrograph_file (template_yaml a) (ctfs_dir a) (output_dir a)
     (gpu_ids a) (batch_size a))%py.

End Turns.

Section Props.
Context {F : Type}.
Variable float_of_str : string -> option F.

(** [group'] is what the rewriting loop makes of the result group [group]. *)
Definition rewritten (results_dir prefix : string) (group group' : yaml F) : Prop :=
  match group with
  | YMap m =>
      exists m', rewrite_keys results_dir prefix (map_to_list m).*1 m = Ok m'
                 /\ group' = YMap m'
  | YSeq l =>
      exists l', rewrite_elems results_dir prefix (length l) 0 l = Ok l'
                 /\ group' = YSeq l'
  | YStr EmptyString => group' = group
  | _ => False
  end.

(** A line that [get_ctf_parameters] reads the parameters from: no
    comment, and at least five fields. *)
Definition eligible (line : string) : bool :=
  negb (startswith "#" line) && (5 <=? length (split (strip line)))%nat.

(** The calibration parser as the interface description words it:
    the fields 1, 2 and 3 of the first line that is not a comment. *)
Fixpoint first_non_comment (lines : list string) : option string :=
  match lines with
  | [] => None
  | line :: rest => if startswith "#" line then first_non_comment rest else Some line
  end.

Definition described_ctf_parameters (lines : list string)
  : outcome (option F * option F * option F) :=
  match first_non_comment lines with
  | None => Ok (None, None, None)
  | Some line =>
      match split line with
      | _ :: p1 :: p2 :: p3 :: _ =>
          (let? defocus_1 := float float_of_str p1 in
           let? defocus_2 := float float_of_str p2 in
           let? astigmatism_angle := float float_of_str p3 in
           Ok (Some defocus_1, Some defocus_2, Some astigmatism_angle))%py
      | _ => Ok (None, None, None)
      end
  end.

End Props.
End MatchProps.

(** ** [process_all_micrographs_refine.py]: the refine stage *)
Module RefineStage.
Import PyStr PosixPath Py Yaml World.
#[local] Open Scope py_scope.
#[local] Open Scope Z_scope.

(** "Simply returns the base filename without extension" *)
Definition extract_micrograph_number (filename : string) : string :=
  let base_name := (splitext filename).1 in
  base_name.

(** [re.search(r'xenon_(\d+)_', s)] tried at the start of [s] *)
Definition match_xenon_id (s : string) : option string :=
  match strip_prefix "xenon_" s with
  | None => None
  | Some r1 =>
      let '(g1, r2) := span_digits r1 in
      if is_empty g1 then None else
      match strip_prefix "_" r2 with
      | None => None
      | Some _ => Some g1
      end
  end.

Fixpoint search_xenon_id (s : string) : option string :=
  match match_xenon_id s with
  | Some g => Some g
  | None =>
      match s with
      | EmptyString => None
      | String _ r => search_xenon_id r
      end
  end.

Definition extract_numeric_micrograph_id (filename : string) : option Z :=
  match search_xenon_id filename with
  | Some g1 => Some (int_of_digits g1)
  | None => None
  end.

(** [time.strftime("%H:%M:%S", time.gmtime(t))] for [t] whole seconds *)
Definition two_digits (n : Z) : string :=
  if n <? 10 then "0" +:+ str_Z n else str_Z n.

Definition strftime_HMS (t : Z) : string :=
  two_digits ((t / 3600) mod 24) +:+ ":" +:+ two_digits ((t / 60) mod 60)
    +:+ ":" +:+ two_digits (t mod 60).

Section Stage.
Context {F : Type}.
Variable safe_load : string -> outcome (yaml F).
Variable dump : yaml F -> string.
(** [len(pd.read_csv(path))] from the text of the file *)
Variable read_csv : string -> outcome Z.
(** [RefineTemplateManager.from_yaml(path)] and
    [run_refine_template(output_csv, batch_size)] on the files as
    they are: the files afterwards, and the whole seconds that
    [time.time()] measured around the run. *)
Variable refine_template :
  gmap string string -> string -> string -> Z -> gmap string string * outcome Z.
Variable sorted_glob : gmap string string -> string -> list string.

(** Lines 35 to 39 of [create_yaml_for_refinement] *)
Definition update_config (config : yaml F)
    (match_results_csv template_volume_path : string) (gpu_ids : list Z)
  : outcome (yaml F) :=
  let? config := setitem config "template_volume_path" (YStr template_volume_path) in
  let? config := setitem2 config "particle_stack" "df_path" (YStr match_results_csv) in
  setitem2 config "computational_config" "gpu_ids" (YSeq (map YInt gpu_ids)).

Definition create_yaml_for_refinement
    (template_yaml_path match_results_csv output_yaml_path template_volume_path : string)
    (gpu_ids : list Z) : M world (yaml F) :=
  text <- read_file template_yaml_path ;;
  config <- lift (safe_load text) ;;
  config <- lift (update_config config match_results_csv template_volume_path gpu_ids) ;;
  write_file output_yaml_path (dump config) ;;
  ret config.

(** The [try] statement of [process_micrograph_refinement] *)
Definition run_guarded (micrograph_basename custom_yaml_path output_dir : string)
    (gpu_ids : list Z) (batch_size : Z) : M world bool :=
  try_except_Exception
    (print ("Running refine template for " +:+ micrograph_basename
            +:+ " results with GPUs " +:+ str_list_Z gpu_ids) ;;
     let refine_output_csv :=
       join output_dir ((splitext micrograph_basename).1 +:+ "_refined_results.csv") in
     elapsed_time <-
       call (fun files => refine_template files custom_yaml_path refine_output_csv batch_size) ;;
     print ("Refinement wall time: " +:+ strftime_HMS elapsed_time) ;;
     print ("Successfully refined matches for " +:+ micrograph_basename) ;;
     ret true)
    (fun e =>
     print ("Error refining matches for " +:+ micrograph_basename +:+ ": " +:+ str_exn e) ;;
     ret false).

Definition process_micrograph_refinement
    (micrograph_path match_results_csv template_yaml output_dir template_volume_path : string)
    (gpu_ids : list Z) (batch_size : Z) : M world bool :=
  let micrograph_basename := basename micrograph_path in
  let micrograph_number := extract_micrograph_number micrograph_basename in
  if is_empty micrograph_number then
    print ("Could not extract micrograph number from " +:+ micrograph_basename) ;;
    ret false
  else
    (* Check if match results CSV exists *)
    found <- exists_ match_results_csv ;;
    if negb found then
      print ("Match template results not found: " +:+ match_results_csv) ;;
      ret false
    else
      (* Check if there are any results to refine *)
      text <- read_file match_results_csv ;;
      rows <- lift (read_csv text) ;;
      if rows =? 0 then
        print ("No matches to refine in " +:+ match_results_csv) ;;
        ret false
      else
        let custom_yaml_path :=
          join output_dir ((splitext micrograph_basename).1 +:+ "_refine_config.yaml") in
        create_yaml_for_refinement template_yaml match_results_csv custom_yaml_path
          template_volume_path gpu_ids ;;
        run_guarded micrograph_basename custom_yaml_path output_dir gpu_ids batch_size.

(** [filter_numbers] is [--filter-numbers] after [int] was applied
    to its comma-separated parts; [None] when the option is absent
    or empty. *)
Record args := {
  micrographs_dir : string;
  template_yaml : string;
  match_results_dir : string;
  template_volume : string;
  output_dir : string;
  results_suffix : string;
  gpu_ids : list Z;
  batch_size : Z;
  pattern : string;
  start_idx : option Z;
  end_idx : option Z;
  job_idx : option Z;
  jobs_per_array : option Z;
  filter_numbers : option (list Z);
}.

(** "Filter by specific micrograph numbers if provided" *)
Definition filter_by_numbers (numbers : list Z) (micrograph_files : list string)
  : list string :=
  List.filter (fun mgraph_file =>
                 match extract_numeric_micrograph_id (basename mgraph_file) with
                 | Some mgraph_id => bool_decide (mgraph_id ∈ numbers)
                 | None => false
                 end)
              micrograph_files.

Definition job_range (a : args) (n : Z) : option (Z * Z) :=
  match job_idx a, jobs_per_array a with
  | Some j, Some k =>
      let start_idx := (j - 1) * k in
      let end_idx := Z.min (start_idx + k) n in
      Some (start_idx, end_idx)
  | _, _ =>
      match start_idx a, end_idx a with
      | None, None => None
      | s, e => Some (default 0 s, default n e)
      end
  end.

Definition select (a : args) (micrograph_files : list string) : list string :=
  match job_range a (Z.of_nat (length micrograph_files)) with
  | Some (start_idx, end_idx) => Py.slice micrograph_files start_idx end_idx
  | None => micrograph_files
  end.

Fixpoint process_each (a : args) (n i : Z) (micrograph_files : list string)
    (successful : Z) : M world Z :=
  match micrograph_files with
  | [] => ret successful
  | micrograph_file :: rest =>
      let micrograph_basename := basename micrograph_file in
      let base_name := (splitext micrograph_basename).1 in
      let match_results_csv :=
        join (match_results_dir a) (base_name +:+ results_suffix a) in
      print ("Processing " +:+ str_Z (i + 1) +:+ "/" +:+ str_Z n +:+ ": "
             +:+ micrograph_basename) ;;
      ok <- process_micrograph_refinement micrograph_file match_results_csv
              (template_yaml a) (output_dir a) (template_volume a)
              (gpu_ids a) (batch_size a) ;;
      process_each a n (i + 1) rest (if ok then successful + 1 else successful)
  end.

Definition main (a : args) : M world Z :=
  let micrograph_pattern := join (micrographs_dir a) (pattern a) in
  micrograph_files <- gets (fun w => sorted_glob (fs w) micrograph_pattern) ;;
  if bool_decide (micrograph_files = []) then
    print ("No micrograph files found matching pattern " +:+ micrograph_pattern) ;;
    ret 1
  else
    print ("Found " +:+ str_Z (Z.of_nat (length micrograph_files)) +:+ " micrograph files") ;;
    micrograph_files <-
      match filter_numbers a with
      | Some numbers =>
          print ("Filtering for micrograph numbers: " +:+ str_list_Z numbers) ;;
          let filtered_files := filter_by_numbers numbers micrograph_files in
          print ("After filtering: " +:+ str_Z (Z.of_nat (length filtered_files))
                 +:+ " micrograph files") ;;
          ret filtered_files
      | None => ret micrograph_files
      end ;;
    let selected := select a micrograph_files in
    match job_range a (Z.of_nat (length micrograph_files)) with
    | Some (start_idx, end_idx) =>
        print ("Processing micrographs " +:+ str_Z (start_idx + 1) +:+ "-"
               +:+ str_Z end_idx +:+ " out of "
               +:+ str_Z (Z.of_nat (length selected)))
    | None => ret tt
    end ;;
    let n := Z.of_nat (length selected) in
    successful <- process_each a n 0 selected 0 ;;
    print ("Successfully refined matches for " +:+ str_Z successful +:+ "/" +:+ str_Z n
           +:+ " micrographs") ;;
    ret 0.

End Stage.
End RefineStage.

(** ** [process_all_micrographs_constrained.py]: constrained search *)
Module ConstrainedStage.
Import PyStr PosixPath Py Yaml.
#[local] Open Scope py_scope.
#[local] Open Scope Z_scope.

(** The file object bound to the global [error_log_file]. *)
Record log_file := {
  log_path : string;
  closed : bool;
}.

(** Files, console output, the global [error_log_file] ([None] is
    Python's [None]) and the number of clock readings made so far. *)
Record world := {
  fs : gmap string string;
  stdout : list string;
  error_log_file : option log_file;
  clock : nat;
}.

Definition print (msg : string) : M world unit :=
  modify (fun w => {| fs := fs w; stdout := stdout w ++ [msg];
                      error_log_file := error_log_file w; clock := clock w |}).

Definition exists_ (p : string) : M world bool :=
  gets (fun w => World.path_exists (fs w) p).

Definition read_file (p : string) : M world string :=
  fun w => match fs w !! p with
           | Some text => (w, Ok text)
           | None => (w, Raise (Exc FileNotFoundError (no_such_file p)))
           end.

Definition write_file (p text : string) : M world unit :=
  modify (fun w => {| fs := <[p := text]> (fs w); stdout := stdout w;
                      error_log_file := error_log_file w; clock := clock w |}).

Definition call {A} (f : gmap string string -> gmap string string * outcome A) : M world A :=
  fun w => let '(files, o) := f (fs w) in
           ({| fs := files; stdout := stdout w;
               error_log_file := error_log_file w; clock := clock w |}, o).

(** [f.write(text); f.flush()]: the text reaches the file at once;
    writing to a closed file raises [ValueError]. *)
Definition file_write (f : log_file) (text : string) : M world unit :=
  if closed f then raise (Exc ValueError "I/O operation on closed file.")
  else
    modify (fun w => {| fs := <[log_path f := default EmptyString (fs w !! log_path f) +:+ text]> (fs w);
                        stdout := stdout w;
                        error_log_file := error_log_file w; clock := clock w |}).

(** [error_log_file.close()] *)
Definition close_log : M world unit :=
  modify (fun w => {| fs := fs w; stdout := stdout w;
                      error_log_file :=
                        match error_log_file w with
                        | Some f => Some {| log_path := log_path f; closed := true |}
                        | None => None
                        end;
                      clock := clock w |}).

Definition NL : string := String LF EmptyString.

Section Stage.
Context {F Manager : Type}.
Variable safe_load : string -> outcome (yaml F).
(** [list(yaml.safe_load(text).keys())]: the keys of the document in
    the order of the text, which the model of a dict does not keep *)
Variable key_order : string -> list string.
Variable dump : yaml F -> string.
(** [str(x)] for a float *)
Variable str_float : F -> string.
(** [datetime.now().strftime("%Y-%m-%d %H:%M:%S")] at the n-th reading of the clock *)
Variable now : nat -> string.
(** [len(pd.read_csv(path))] and [len(pd.read_csv(path, header=None))]
    from the text of the file *)
Variable read_csv : string -> outcome Z.
Variable read_csv_no_header : string -> outcome Z.
(** [import torch], then [torch.cuda.is_available()] and
    [torch.cuda.device_count()]: [Ok None] when CUDA is not available. *)
Variable torch_probe : outcome (option Z).
Variable from_yaml : gmap string string -> string -> outcome Manager.
(** [cs_manager.run_constrained_search(output_csv, false_positives, batch_size)]:
    the files afterwards, and the whole seconds measured around the run. *)
Variable run_constrained_search :
  gmap string string -> Manager -> string -> F -> Z -> gmap string string * outcome Z.
(** [os.access(path, os.W_OK)] and [os.getcwd()]; [type(e).__name__],
    the name of the class of an exception itself, which the model
    does not keep, and [traceback.format_exc()] *)
Variable access_W_OK : gmap string string -> string -> bool.
Variable getcwd : string.
Variable type_name : exn -> string.
Variable format_exc : exn -> string.
(** [open(path, 'w')] succeeds or raises. *)
Variable open_for_writing : gmap string string -> string -> outcome unit.
Variable sorted_glob : gmap string string -> string -> list string.

Definition timestamp : M world string :=
  fun w => ({| fs := fs w; stdout := stdout w; error_log_file := error_log_file w;
               clock := S (clock w) |}, Ok (now (clock w))).

Definition log_error (message : string) (also_print : bool) : M world unit :=
  timestamp <- timestamp ;;
  let log_message := "[" +:+ timestamp +:+ "] " +:+ message in
  (if also_print then print message else ret tt) ;;
  f <- gets error_log_file ;;
  match f with
  | Some f => file_write f (log_message +:+ NL)
  | None => ret tt
  end.

Definition log_info (message : string) (also_print : bool) : M world unit :=
  timestamp <- timestamp ;;
  let log_message := "[" +:+ timestamp +:+ "] INFO: " +:+ message in
  (if also_print then print message else ret tt) ;;
  f <- gets error_log_file ;;
  match f with
  | Some f => file_write f (log_message +:+ NL)
  | None => ret tt
  end.

Definition update_config (config : yaml F)
    (large_results_csv small_results_csv template_volume_path : string)
    (gpu_ids : list Z) : outcome (yaml F) :=
  let? config := setitem config "template_volume_path" (YStr template_volume_path) in
  let? config := setitem2 config "particle_stack_reference" "df_path" (YStr large_results_csv) in
  let? config := setitem2 config "particle_stack_constrained" "df_path" (YStr small_results_csv) in
  setitem2 config "computational_config" "gpu_ids" (YSeq (map YInt gpu_ids)).

Definition create_yaml_for_constrained_search
    (template_yaml_path large_results_csv small_results_csv
     output_yaml_path template_volume_path : string)
    (gpu_ids : list Z) : M world (yaml F) :=
  text <- read_file template_yaml_path ;;
  config <- lift (safe_load text) ;;
  config <- lift (update_config config large_results_csv small_results_csv
                                template_volume_path gpu_ids) ;;
  write_file output_yaml_path (dump config) ;;
  ret config.

(** "Check if input CSV files are readable and have content": an
    inner [try] that turns every exception into a [ValueError]. *)
Definition check_csv (label Label path : string) : M world unit :=
  try_except_Exception
    (text <- read_file path ;;
     rows <- lift (read_csv_no_header text) ;;
     log_info ("DEBUG: " +:+ Label +:+ " results CSV has " +:+ str_Z rows +:+ " rows") false ;;
     if rows =? 0
     then raise (Exc ValueError (Label +:+ " results CSV is empty: " +:+ path))
     else ret tt)
    (fun csv_error =>
       raise (Exc ValueError ("Error reading " +:+ label +:+ " results CSV " +:+ path
                              +:+ ": " +:+ str_exn csv_error))).

Definition check_yaml (custom_yaml_path : string) : M world unit :=
  try_except_Exception
    (text <- read_file custom_yaml_path ;;
     yaml_content <- lift (safe_load text) ;;
     log_info "DEBUG: YAML config loaded successfully" false ;;
     match yaml_content with
     | YMap _ => log_info ("DEBUG: YAML keys: " +:+ str_list_str (key_order text)) false
     | _ => raise (Exc OtherException "object has no attribute 'keys'")
     end)
    (fun yaml_error =>
       raise (Exc ValueError ("Error parsing YAML config " +:+ custom_yaml_path
                              +:+ ": " +:+ str_exn yaml_error))).

(** "Check GPU availability (if possible)": only [ImportError] is caught. *)
Definition check_gpus (gpu_ids : list Z) : M world unit :=
  match torch_probe with
  | Ok (Some available_gpus) =>
      log_info ("DEBUG: CUDA available, " +:+ str_Z available_gpus +:+ " GPUs detected") false ;;
      for_each gpu_ids (fun gpu_id =>
        if available_gpus <=? gpu_id
        then log_info ("WARNING: GPU " +:+ str_Z gpu_id +:+ " not available (only "
                       +:+ str_Z available_gpus +:+ " GPUs detected)") true
        else ret tt)
  | Ok None =>
      log_info ("WARNING: CUDA not available, but GPU IDs specified: "
                +:+ World.str_list_Z gpu_ids) true
  | Raise (Exc ImportError _) =>
      log_info "DEBUG: torch not available for GPU check" false
  | Raise e => raise e
  end.

Definition require_file (what path : string) : M world unit :=
  found <- exists_ path ;;
  if negb found then raise (Exc FileNotFoundError (what +:+ " not found: " +:+ path))
  else ret tt.

(** The [try] body up to the creation of the manager (lines 117 to 178). *)
Definition preflight (micrograph_basename large_results_csv small_results_csv
                      template_volume_path custom_yaml_path : string)
    (gpu_ids : list Z) : M world Manager :=
  log_info ("Running constrained search for " +:+ micrograph_basename +:+ " with GPUs "
            +:+ World.str_list_Z gpu_ids) true ;;
  log_info "DEBUG: Checking file existence and validity..." false ;;
  require_file "Large results CSV" large_results_csv ;;
  require_file "Small results CSV" small_results_csv ;;
  require_file "Template volume" template_volume_path ;;
  require_file "Custom YAML config" custom_yaml_path ;;
  check_csv "large" "Large" large_results_csv ;;
  check_csv "small" "Small" small_results_csv ;;
  check_yaml custom_yaml_path ;;
  check_gpus gpu_ids ;;
  log_info "DEBUG: Creating ConstrainedSearchManager from YAML..." false ;;
  cs_manager <- call (fun files => (files, from_yaml files custom_yaml_path)) ;;
  log_info "DEBUG: ConstrainedSearchManager created successfully" false ;;
  ret cs_manager.

(** The rest of the [try] body, from the binding of
    [constrained_output_csv] on (lines 181 to 212). *)
Definition search_and_report (cs_manager : Manager)
    (micrograph_basename output_dir constrained_output_csv : string)
    (batch_size : Z) (false_positives : F) : M world bool :=
  log_info ("DEBUG: Output CSV path: " +:+ constrained_output_csv) false ;;
  writable <- gets (fun w => access_W_OK (fs w) output_dir) ;;
  (if negb writable
   then raise (Exc PermissionError ("Output directory not writable: " +:+ output_dir))
   else ret tt) ;;
  log_info ("DEBUG: Starting constrained search with batch_size=" +:+ str_Z batch_size
            +:+ ", false_positives=" +:+ str_float false_positives) false ;;
  elapsed_time <-
    call (fun files => run_constrained_search files cs_manager constrained_output_csv
                         false_positives batch_size) ;;
  log_info ("Constrained search wall time: " +:+ RefineStage.strftime_HMS elapsed_time) true ;;
  found <- exists_ constrained_output_csv ;;
  (if found then
     try_except_Exception
       (text <- read_file constrained_output_csv ;;
        rows <- lift (read_csv_no_header text) ;;
        log_info ("DEBUG: Output CSV created with " +:+ str_Z rows +:+ " rows") false)
       (fun output_error =>
          log_info ("WARNING: Output CSV exists but cannot be read: "
                    +:+ str_exn output_error) true)
   else
     log_info ("WARNING: Output CSV was not created: " +:+ constrained_output_csv) true) ;;
  log_info ("Successfully completed constrained search for " +:+ micrograph_basename) false ;;
  ret true.

(** The [except] clauses of [process_micrograph_constrained_search].
    [constrained_output_csv] is [None] while the local variable is
    not bound yet: the last clause reads it. *)
Definition on_exception
    (micrograph_basename micrograph_path large_results_csv small_results_csv
     template_yaml custom_yaml_path template_volume_path output_dir : string)
    (gpu_ids : list Z) (batch_size : Z) (false_positives : F)
    (constrained_output_csv : option string) (e : exn) : M world bool :=
  match e with
  | KeyboardInterrupt => raise e
  | Exc FileNotFoundError msg =>
      log_error ("FILE NOT FOUND ERROR for " +:+ micrograph_basename +:+ ":") true ;;
      log_error ("  " +:+ msg) true ;;
      log_error ("  Current working directory: " +:+ getcwd) true ;;
      ret false
  | Exc ValueError msg =>
      log_error ("VALUE ERROR for " +:+ micrograph_basename +:+ ":") true ;;
      log_error ("  " +:+ msg) true ;;
      ret false
  | Exc PermissionError msg =>
      log_error ("PERMISSION ERROR for " +:+ micrograph_basename +:+ ":") true ;;
      log_error ("  " +:+ msg) true ;;
      ret false
  | Exc ImportError msg =>
      log_error ("IMPORT ERROR for " +:+ micrograph_basename +:+ ":") true ;;
      log_error ("  " +:+ msg) true ;;
      log_error "  This might indicate missing dependencies" true ;;
      ret false
  | Exc _ msg =>
      log_error ("UNEXPECTED ERROR for " +:+ micrograph_basename +:+ ":") true ;;
      log_error ("  Error type: " +:+ type_name e) true ;;
      log_error ("  Error message: " +:+ msg) true ;;
      log_error "  Full traceback:" true ;;
      for_each (split_char LF (format_exc e)) (fun line =>
        if is_empty (strip line) then ret tt else log_error ("    " +:+ line) true) ;;
      log_error "  Debug information:" true ;;
      log_error ("    - Micrograph path: " +:+ micrograph_path) true ;;
      log_error ("    - Large results CSV: " +:+ large_results_csv) true ;;
      log_error ("    - Small results CSV: " +:+ small_results_csv) true ;;
      log_error ("    - Template YAML: " +:+ template_yaml) true ;;
      log_error ("    - Custom YAML: " +:+ custom_yaml_path) true ;;
      log_error ("    - Template volume: " +:+ template_volume_path) true ;;
      log_error ("    - Output directory: " +:+ output_dir) true ;;
      log_error ("    - GPU IDs: " +:+ World.str_list_Z gpu_ids) true ;;
      log_error ("    - Batch size: " +:+ str_Z batch_size) true ;;
      log_error ("    - False positives: " +:+ str_float false_positives) true ;;
      match constrained_output_csv with
      | None =>
          raise (Exc OtherException
                   "cannot access local variable 'constrained_output_csv' where it is not associated with a value")
      | Some path =>
          log_error ("    - Output CSV path: " +:+ path) true ;;
          log_error ("  " +:+ "==================================================") true ;;
          ret false
      end
  end.


(** The [try] statement of [process_micrograph_constrained_search] *)
Definition run_guarded
    (micrograph_basename micrograph_path large_results_csv small_results_csv
     template_yaml custom_yaml_path template_volume_path output_dir : string)
    (gpu_ids : list Z) (batch_size : Z) (false_positives : F) : M world bool :=
  let handler :=
    on_exception micrograph_basename micrograph_path large_results_csv small_results_csv
      template_yaml custom_yaml_path template_volume_path output_dir
      gpu_ids batch_size false_positives in
  fun w =>
    match preflight micrograph_basename large_results_csv small_results_csv
            template_volume_path custom_yaml_path gpu_ids w with
    | (w1, Raise e) => handler None e w1
    | (w1, Ok cs_manager) =>
        let constrained_output_csv :=
          join output_dir ((splitext micrograph_basename).1 +:+ "_constrained_results.csv") in
        match search_and_report cs_manager micrograph_basename output_dir
                constrained_output_csv batch_size false_positives w1 with
        | (w2, Raise e) => handler (Some constrained_output_csv) e w2
        | (w2, Ok b) => (w2, Ok b)
        end
    end.

Definition process_micrograph_constrained_search
    (micrograph_path large_results_csv small_results_csv template_yaml
     output_dir template_volume_path : string)
    (gpu_ids : list Z) (batch_size : Z) (false_positives : F) : M world bool :=
  let micrograph_basename := basename micrograph_path in
  match MatchStage.extract_micrograph_number micrograph_basename with
  | None =>
      print ("Could not extract micrograph number from " +:+ micrograph_basename) ;;
      ret false
  | Some _ =>
      found <- exists_ large_results_csv ;;
      if negb found then
        print ("Large particle results not found: " +:+ large_results_csv) ;;
        ret false
      else
        found <- exists_ small_results_csv ;;
        if negb found then
          print ("Small particle results not found: " +:+ small_results_csv) ;;
          ret false
        else
          text <- read_file large_results_csv ;;
          rows <- lift (read_csv text) ;;
          if rows =? 0 then
            print ("No large particle matches in " +:+ large_results_csv) ;;
            ret false
          else
            let custom_yaml_path :=
              join output_dir
                   ((splitext micrograph_basename).1 +:+ "_constrained_config.yaml") in
            create_yaml_for_constrained_search template_yaml large_results_csv
              small_results_csv custom_yaml_path template_volume_path gpu_ids ;;
            run_guarded micrograph_basename micrograph_path large_results_csv
              small_results_csv template_yaml custom_yaml_path template_volume_path
              output_dir gpu_ids batch_size false_positives
  end.

(** [gpus] is the text of [--gpus], [gpu_ids] the list parsed from it. *)
Record args := {
  micrographs_dir : string;
  template_yaml : string;
  large_results_dir : string;
  small_results_dir : string;
  template_volume : string;
  output_dir : string;
  large_suffix : string;
  small_suffix : string;
  gpus : string;
  gpu_ids : list Z;
  batch_size : Z;
  false_positives : F;
  pattern : string;
  start_idx : option Z;
  end_idx : option Z;
  job_idx : option Z;
  jobs_per_array : option Z;
  error_log : option string;
  filter_numbers : option (list Z);
}.

Definition job_range (a : args) (n : Z) : option (Z * Z) :=
  match job_idx a, jobs_per_array a with
  | Some j, Some k =>
      let start_idx := (j - 1) * k in
      let end_idx := Z.min (start_idx + k) n in
      Some (start_idx, end_idx)
  | _, _ =>
      match start_idx a, end_idx a with
      | None, None => None
      | s, e => Some (default 0 s, default n e)
      end
  end.

Definition select (a : args) (micrograph_files : list string) : list string :=
  match job_range a (Z.of_nat (length micrograph_files)) with
  | Some (start_idx, end_idx) => Py.slice micrograph_files start_idx end_idx
  | None => micrograph_files
  end.

(** One turn of the loop of [main], up to the answer of the per-item function. *)
Definition item_head (a : args) (n i : Z) (micrograph_file : string) : M world bool :=
  let micrograph_basename := basename micrograph_file in
  let base_name := (splitext micrograph_basename).1 in
  let large_results_csv := join (large_results_dir a) (base_name +:+ large_suffix a) in
  let small_results_csv := join (small_results_dir a) (base_name +:+ small_suffix a) in
  let progress :=
    "Processing " +:+ str_Z (i + 1) +:+ "/" +:+ str_Z n +:+ ": " +:+ micrograph_basename in
  print progress ;;
  log_info progress true ;;
  log_info ("  Large results CSV: " +:+ large_results_csv) true ;;
  log_info ("  Small results CSV: " +:+ small_results_csv) true ;;
  process_micrograph_constrained_search micrograph_file large_results_csv small_results_csv
    (template_yaml a) (output_dir a) (template_volume a)
    (gpu_ids a) (batch_size a) (false_positives a).

(** The rest of the turn, after [successful] was updated. *)
Definition item_tail (micrograph_file : string) (ok : bool) : M world unit :=
  let micrograph_basename := basename micrograph_file in
  (if ok then log_info ("SUCCESS: " +:+ micrograph_basename +:+ " processed successfully") true
   else log_info ("FAILED: " +:+ micrograph_basename +:+ " failed to process") true) ;;
  log_info "----------------------------------------" true.

(** The [for] loop of [main].  It ends with the value of
    [successful] reached so far and, when a turn raised, with the
    exception that left the loop. *)
Fixpoint process_each (a : args) (n i : Z) (micrograph_files : list string)
    (successful : Z) (w : world) : world * (Z * option exn) :=
  match micrograph_files with
  | [] => (w, (successful, None))
  | micrograph_file :: rest =>
      match item_head a n i micrograph_file w with
      | (w1, Raise e) => (w1, (successful, Some e))
      | (w1, Ok ok) =>
          let successful := if ok then successful + 1 else successful in
          match item_tail micrograph_file ok w1 with
          | (w2, Raise e) => (w2, (successful, Some e))
          | (w2, Ok _) => process_each a n (i + 1) rest successful w2
          end
      end
  end.

(** [error_log_file = open(error_log_path, 'w')]: the file is created empty. *)
Definition open_log (error_log_path : string) : M world unit :=
  fun w =>
    match open_for_writing (fs w) error_log_path with
    | Raise e => (w, Raise e)
    | Ok _ =>
        ({| fs := <[error_log_path := EmptyString]> (fs w); stdout := stdout w;
            error_log_file := Some {| log_path := error_log_path; closed := false |};
            clock := clock w |}, Ok tt)
    end.

(** The statements of [main] after the loop and its handlers:
    the summary for the log, guarded by "only if log file is still
    open", and the two closing prints. *)
Definition final_summary (error_log_path : string) (successful n : Z) : M world Z :=
  f <- gets error_log_file ;;
  (match f with
   | Some f =>
       if negb (closed f) then
         log_info "Processing complete!" true ;;
         log_info ("Successfully completed constrained search for " +:+ str_Z successful
                   +:+ "/" +:+ str_Z n +:+ " micrographs") true ;;
         log_info ("Failed: " +:+ str_Z (n - successful) +:+ "/" +:+ str_Z n
                   +:+ " micrographs") true ;;
         t <- timestamp ;;
         log_info ("Finished at " +:+ t) true
       else ret tt
   | None => ret tt
   end) ;;
  print ("Successfully completed constrained search for " +:+ str_Z successful
         +:+ "/" +:+ str_Z n +:+ " micrographs") ;;
  print ("Detailed error log saved to: " +:+ error_log_path) ;;
  ret 0.

(** The [try] / [except] / [finally] around the loop, then the summary. *)
Definition run_loop (a : args) (error_log_path : string) (selected : list string)
  : M world Z :=
  let n := Z.of_nat (length selected) in
  fun w =>
    let '(w1, (successful, escaped)) := process_each a n 0 selected 0 w in
    let handled : M world unit :=
      match escaped with
      | None => ret tt
      | Some KeyboardInterrupt =>
          log_error "Processing interrupted by user (Ctrl+C)" true ;;
          print "Processing interrupted by user (Ctrl+C)"
      | Some e =>
          log_error ("Unexpected error during processing: " +:+ str_exn e) true ;;
          print ("Unexpected error during processing: " +:+ str_exn e)
      end in
    (try_finally handled close_log ;;
     final_summary error_log_path successful n) w1.

(** "Initialize error log file": the path given with [--error-log],
    or the default one in the output directory. *)
Definition error_log_path (a : args) : string :=
  match error_log a with
  | Some p => if is_empty p then join (output_dir a) "constrained_search_errors.log" else p
  | None => join (output_dir a) "constrained_search_errors.log"
  end.

Definition main (a : args) : M world Z :=
  let error_log_path := error_log_path a in
  opened <-
    try_except_Exception
      (open_log error_log_path ;;
       t <- timestamp ;;
       log_info ("Starting constrained search processing at " +:+ t) true ;;
       log_info ("Error log file: " +:+ error_log_path) true ;;
       log_info ("Output directory: " +:+ output_dir a) true ;;
       log_info ("GPU IDs: " +:+ gpus a) true ;;
       log_info ("Batch size: " +:+ str_Z (batch_size a)) true ;;
       log_info ("False positives: " +:+ str_float (false_positives a)) true ;;
       log_info "============================================================" true ;;
       ret true)
      (fun e =>
         print ("ERROR: Could not create error log file " +:+ error_log_path +:+ ": "
                +:+ str_exn e) ;;
         ret false) ;;
  if negb opened then ret 1
  else
    (* Get list of micrograph files *)
    let micrograph_pattern := join (micrographs_dir a) (pattern a) in
    micrograph_files <- gets (fun w => sorted_glob (fs w) micrograph_pattern) ;;
    if bool_decide (micrograph_files = []) then
      print ("No micrograph files found matching pattern " +:+ micrograph_pattern) ;;
      ret 1
    else
      print ("Found " +:+ str_Z (Z.of_nat (length micrograph_files)) +:+ " micrograph files") ;;
      micrograph_files <-
        match filter_numbers a with
        | Some numbers =>
            print ("Filtering for micrograph numbers: " +:+ World.str_list_Z numbers) ;;
            log_info ("Filtering for micrograph numbers: " +:+ World.str_list_Z numbers) true ;;
            let filtered_files := RefineStage.filter_by_numbers numbers micrograph_files in
            print ("After filtering: " +:+ str_Z (Z.of_nat (length filtered_files))
                   +:+ " micrograph files") ;;
            log_info ("After filtering: " +:+ str_Z (Z.of_nat (length filtered_files))
                      +:+ " micrograph files") true ;;
            ret filtered_files
        | None => ret micrograph_files
        end ;;
      let selected := select a micrograph_files in
      match job_range a (Z.of_nat (length micrograph_files)) with
      | Some (start_idx, end_idx) =>
          print ("Processing micrographs " +:+ str_Z (start_idx + 1) +:+ "-"
                 +:+ str_Z end_idx +:+ " out of "
                 +:+ str_Z (Z.of_nat (length selected)))
      | None => ret tt
      end ;;
      run_loop a error_log_path selected.

End Stage.
End ConstrainedStage.

(** ** Notions used to state the properties of the constrained search *)
Module ConstrainedProps.
Import PyStr Py ConstrainedStage.

(** The log can be written to: no file is bound, or the file is open. *)
Definition log_writable (w : world) : Prop :=
  match error_log_file w with
  | Some f => closed f = false
  | None => True
  end.

(** [m] returns from every state in which the log can be written to,
    with a result in [P]; it leaves [error_log_file] as it is and only
    adds to what was printed. *)
Definition safe {A} (m : M world A) (P : A -> Prop) : Prop :=
  forall w, log_writable w ->
    exists w' x, m w = (w', Ok x) /\ P x
      /\ error_log_file w' = error_log_file w
      /\ stdout w `prefix_of` stdout w'.

(** The first line that the [except] clause for a class logs. *)
Definition failure_header (cls : exc_class) (micrograph_basename : string) : string :=
  match cls with
  | FileNotFoundError => "FILE NOT FOUND ERROR for " +:+ micrograph_basename +:+ ":"
  | ValueError => "VALUE ERROR for " +:+ micrograph_basename +:+ ":"
  | PermissionError => "PERMISSION ERROR for " +:+ micrograph_basename +:+ ":"
  | ImportError => "IMPORT ERROR for " +:+ micrograph_basename +:+ ":"
  | _ => "UNEXPECTED ERROR for " +:+ micrograph_basename +:+ ":"
  end.

(** [needle in hay] *)
Fixpoint contains (needle hay : string) : bool :=
  match strip_prefix needle hay with
  | Some _ => true
  | None =>
      match hay with
      | EmptyString => false
      | String _ rest => contains needle rest
      end
  end.

End ConstrainedProps.

(** ** [export_relion.py]: cropping particles out of a micrograph *)
Module ExportRelion.
Import PyStr.
#[local] Open Scope Z_scope.

Section Crop.
(** The pixel type of the micrograph, and its zero. *)
Context {Px : Type}.
Variable zero : Px.

(** A 2-D array as its list of rows: [a[y][x]]. *)
Definition array := list (list Px).

(** [a.shape[-2]] and [a.shape[-1]] *)
Definition height (a : array) : Z := Z.of_nat (length a).
Definition width (a : array) : Z :=
  match a with
  | row :: _ => Z.of_nat (length row)
  | [] => 0
  end.

(** [a[..., y0:y1, x0:x1]] *)
Definition slice2 (a : array) (y0 y1 x0 x1 : Z) : array :=
  map (fun row => Py.slice row x0 x1) (Py.slice a y0 y1).

(** [np.zeros((h, w))] *)
Definition zeros (h w : Z) : array :=
  replicate (Z.to_nat h) (replicate (Z.to_nat w) zero).

(** [dst[:h, :w] = src[..., :h, :w]], where [src] has at least [h]
    rows of at least [w] pixels and [dst] too. *)
Fixpoint assign_rows (dst src : array) (h : nat) (w : Z) : array :=
  match h, dst, src with
  | S h', drow :: dst', srow :: src' =>
      (Py.slice srow 0 w ++ drop (Z.to_nat w) drow) :: assign_rows dst' src' h' w
  | _, _, _ => dst
  end.

(** The body of the loop over the particles of one micrograph
    (lines 118 to 146): the warning that is printed when the
    particle is skipped, or the padded image that joins the stack. *)
Definition crop_particle (micrograph : array) (box_size center_x center_y : Z)
  : string + array :=
  (* Calculate box boundaries *)
  let half_box := box_size / 2 in
  let x_start := Z.max 0 (center_x - half_box) in
  let y_start := Z.max 0 (center_y - half_box) in
  let x_end := Z.min (width micrograph) (center_x + half_box) in
  let y_end := Z.min (height micrograph) (center_y + half_box) in
  (* Skip if the box is empty or invalid *)
  if (x_end <=? x_start) || (y_end <=? y_start) then
    inl ("Warning: Invalid box coordinates for particle at (" +:+ str_Z center_x
         +:+ ", " +:+ str_Z center_y +:+ ")")
  else
    (* Extract particle *)
    let particle_img := slice2 micrograph y_start y_end x_start x_end in
    (* Create padded image *)
    let padded_img := zeros box_size box_size in
    (* Calculate the region to copy *)
    let copy_height := Z.min (height particle_img) box_size in
    let copy_width := Z.min (width particle_img) box_size in
    (* Copy the valid region *)
    inr (assign_rows padded_img particle_img (Z.to_nat copy_height) copy_width).

(** The loop itself: the stack of padded images and the warnings
    printed, both in the order of the rows. *)
Fixpoint crop_particles (micrograph : array) (box_size : Z) (centers : list (Z * Z))
  : list array * list string :=
  match centers with
  | [] => ([], [])
  | (center_x, center_y) :: rest =>
      let '(particle_stack, printed) := crop_particles micrograph box_size rest in
      match crop_particle micrograph box_size center_x center_y with
      | inl warning => (particle_stack, warning :: printed)
      | inr padded_img => (padded_img :: particle_stack, printed)
      end
  end.

(** What the export is described to produce: the box centred on
    the particle, [box_size] rows of [box_size] pixels that start
    [box_size // 2] pixels before the centre, with the pixels of the
    micrograph where the box lies inside it and zeros where it lies
    outside. *)
Definition pixel_at (micrograph : array) (y x : Z) : Px :=
  if (0 <=? y) && (0 <=? x) then
    match micrograph !! Z.to_nat y with
    | Some row => default zero (row !! Z.to_nat x)
    | None => zero
    end
  else zero.

Definition centred_box (micrograph : array) (box_size center_x center_y : Z) : array :=
  let half_box := box_size / 2 in
  map (fun r =>
         map (fun c =>
                pixel_at micrograph (center_y - half_box + r) (center_x - half_box + c))
             (map Z.of_nat (seq 0 (Z.to_nat box_size))))
      (map Z.of_nat (seq 0 (Z.to_nat box_size))).

End Crop.
End ExportRelion.

(** ** A small concrete environment for running the model

    The scripts are run below on a few concrete inputs.  The external
    functions are replaced by stand-ins that agree with the real ones
    on the inputs that occur: floats are the integers their decimal
    digits denote, and YAML texts are looked up in a table. *)
Module TestEnv.
Import PyStr Py Yaml.
#[local] Open Scope Z_scope.

Definition float_of_str (s : string) : option Z :=
  if negb (is_empty s) && forallb is_digit (String.list_ascii_of_string s)
  then Some (int_of_digits s) else None.

Definition safe_load (table : list (string * yaml Z)) (text : string) : outcome (yaml Z) :=
  match List.find (fun entry => String.eqb entry.1 text) table with
  | Some entry => Ok entry.2
  | None => Raise (Exc OtherException "YAMLError")
  end.

(** One scalar or flow sequence, as it stands after a key. *)
Definition dump_scalar (d : yaml Z) : string :=
  match d with
  | YNull => "null"
  | YBool b => if b then "true" else "false"
  | YInt z => str_Z z
  | YFloat x => str_Z x +:+ ".0"
  | YStr s => s
  | YSeq l =>
      "[" +:+ String.concat ", "
                (map (fun e => match e with YInt z => str_Z z | YStr s => s | _ => "?" end) l)
          +:+ "]"
  | YMap _ => "{}"
  end.

(** A block-style dump of a document that nests dicts two levels deep. *)
Definition dump (d : yaml Z) : string :=
  match d with
  | YMap m =>
      String.concat ""
        (map (fun entry : string * yaml Z =>
                match entry.2 with
                | YMap inner =>
                    entry.1 +:+ ":" +:+ String LF ""
                    +:+ String.concat ""
                          (map (fun e : string * yaml Z =>
                                  "  " +:+ e.1 +:+ ": " +:+ dump_scalar e.2 +:+ String LF "")
                               (map_to_list inner))
                | v => entry.1 +:+ ": " +:+ dump_scalar v +:+ String LF ""
                end)
             (map_to_list m))
  | v => dump_scalar v +:+ String LF ""
  end.

Definition sorted_glob (catalog : list string)
    (files : gmap string string) (pattern : string) : list string :=
  catalog.

(** The keys of a document of the table, sorted as [yaml.dump]
    writes them. *)
Definition key_order (table : list (string * yaml Z)) (text : string) : list string :=
  match safe_load table text with
  | Ok (YMap m) =>
      @merge_sort string (fun s t => String.leb s t = true)
        (fun s t => decide (String.leb s t = true)) (map_to_list m).*1
  | _ => []
  end.

(** The class names of the exceptions of the runs: one that falls
    under no class with a name of its own is a [RuntimeError]. *)
Definition type_name (e : exn) : string :=
  match e with
  | KeyboardInterrupt => "KeyboardInterrupt"
  | Exc FileNotFoundError _ => "FileNotFoundError"
  | Exc ValueError _ => "ValueError"
  | Exc PermissionError _ => "PermissionError"
  | Exc ImportError _ => "ImportError"
  | Exc KeyError _ => "KeyError"
  | Exc TypeError _ => "TypeError"
  | Exc OtherException _ => "RuntimeError"
  end.

Definition dict (entries : list (string * yaml Z)) : yaml Z := YMap (list_to_map entries).

End TestEnv.

(** ** Concrete runs *)
Module Scenarios.
Import PyStr PosixPath Py Yaml.
#[local] Open Scope Z_scope.

(** *** A constrained search that is interrupted at its third item

    Three micrographs are found.  The first one is searched; the small
    particle results of the second one are missing; the operator
    interrupts the search of the third one. *)
Module Interrupted.
Import ConstrainedStage.

Definition catalog : list string :=
  [ "/mg/xenon_1_1_DWS.mrc"; "/mg/xenon_2_1_DWS.mrc"; "/mg/xenon_3_1_DWS.mrc" ].

Definition template : yaml Z :=
  TestEnv.dict
    [ ("template_volume_path", YStr "/vol/other.mrc");
      ("particle_stack_reference", TestEnv.dict [("df_path", YStr "none.csv")]);
      ("particle_stack_constrained", TestEnv.dict [("df_path", YStr "none.csv")]);
      ("computational_config", TestEnv.dict [("gpu_ids", YSeq [YInt 0])]) ].

Definition derived (stem : string) : yaml Z :=
  TestEnv.dict
    [ ("template_volume_path", YStr "/vol/small.mrc");
      ("particle_stack_reference",
       TestEnv.dict [("df_path", YStr ("/large/" +:+ stem +:+ "_refined_results.csv"))]);
      ("particle_stack_constrained",
       TestEnv.dict [("df_path", YStr ("/small/" +:+ stem +:+ "_results.csv"))]);
      ("computational_config", TestEnv.dict [("gpu_ids", YSeq [YInt 0])]) ].

Definition documents : list (string * yaml Z) :=
  [ ("template", template);
    (TestEnv.dump (derived "xenon_1_1_DWS"), derived "xenon_1_1_DWS");
    (TestEnv.dump (derived "xenon_3_1_DWS"), derived "xenon_3_1_DWS") ].

Definition safe_load : string -> outcome (yaml Z) := TestEnv.safe_load documents.

Definition key_order : string -> list string := TestEnv.key_order documents.

Definition files : gmap string string :=
  list_to_map
    [ ("/cfg/constrained.yaml", "template");
      ("/vol/small.mrc", "volume");
      ("/large/xenon_1_1_DWS_refined_results.csv", "rows");
      ("/small/xenon_1_1_DWS_results.csv", "rows");
      ("/large/xenon_2_1_DWS_refined_results.csv", "rows");
      ("/large/xenon_3_1_DWS_refined_results.csv", "rows");
      ("/small/xenon_3_1_DWS_results.csv", "rows") ].

(** The search of the third micrograph is interrupted; any other
    search writes its table and takes five seconds. *)
Definition run_constrained_search (files : gmap string string) (manager : string)
    (output_csv : string) (false_positives : Z) (batch_size : Z)
  : gmap string string * outcome Z :=
  if String.eqb output_csv "/out/xenon_3_1_DWS_constrained_results.csv"
  then (files, Raise KeyboardInterrupt)
  else (<[output_csv := "rows"]> files, Ok 5).

Definition run : args -> M world Z :=
  main safe_load key_order TestEnv.dump str_Z
    (fun n => "t" +:+ str_Z (Z.of_nat n))
    (fun _ => Ok 3) (fun _ => Ok 4)
    (Raise (Exc ImportError "No module named 'torch'"))
    (fun _ path => Ok path)
    run_constrained_search
    (fun _ _ => true) "/work" TestEnv.type_name (fun _ => "Traceback")
    (fun _ _ => Ok tt)
    (TestEnv.sorted_glob catalog).

Definition arguments : args :=
  {| micrographs_dir := "/mg"; template_yaml := "/cfg/constrained.yaml";
     large_results_dir := "/large"; small_results_dir := "/small";
     template_volume := "/vol/small.mrc"; output_dir := "/out";
     large_suffix := "_refined_results.csv"; small_suffix := "_results.csv";
     gpus := "0"; gpu_ids := [0]; batch_size := 80; false_positives := 0;
     pattern := "*DWS.mrc";
     start_idx := None; end_idx := None; job_idx := None; jobs_per_array := None;
     error_log := None; filter_numbers := None |}.

Definition start : world :=
  {| fs := files; stdout := []; error_log_file := None; clock := 0 |}.

End Interrupted.

(** *** A constrained search whose template configuration is missing

    The three micrographs of the interrupted run, without the file
    that is given as the template configuration. *)
Module UnexpectedError.
Import ConstrainedStage.

Definition files : gmap string string :=
  delete "/cfg/constrained.yaml" Interrupted.files.

Definition start : world :=
  {| fs := files; stdout := []; error_log_file := None; clock := 0 |}.

End UnexpectedError.

(** *** A match run whose template configuration is missing

    Two unprocessed micrographs with their calibration files; the
    path given as the template configuration holds no file. *)
Module MissingTemplate.
Import World MatchStage.

Definition catalog : list string :=
  [ "/mg/xenon_1_1_DWS.mrc"; "/mg/xenon_2_1_DWS.mrc" ].

Definition calibration : string :=
  "# Columns: #1 - micrograph number; #2 - defocus 1; #3 - defocus 2; #4 - azimuth
1 10 20 30 5
".

Definition files : gmap string string :=
  list_to_map
    [ ("/ctf/xenon_1_1_0.0_diagnostic.txt", calibration);
      ("/ctf/xenon_2_1_0.0_diagnostic.txt", calibration) ].

Definition run : args -> M world Z :=
  main TestEnv.float_of_str (TestEnv.safe_load []) TestEnv.dump
    (fun files _ _ => (files, Ok "rows"))
    (TestEnv.sorted_glob catalog).

Definition arguments : args :=
  {| micrographs_dir := "/mg"; template_yaml := "/cfg/match.yaml";
     ctfs_dir := "/ctf"; output_dir := "/out"; gpu_ids := [0]; batch_size := 8;
     pattern := "*DWS.mrc";
     start_idx := None; end_idx := None; job_idx := None; jobs_per_array := None |}.

Definition start : world := {| fs := files; stdout := [] |}.

End MissingTemplate.

(** *** A match run in which the engine fails on the first item

    The same two micrographs, now with a template; the engine raises
    on the first one and returns a table for the second one. *)
Module EngineFailure.
Import World MatchStage.

Definition template : yaml Z :=
  TestEnv.dict
    [ ("optics_group", TestEnv.dict [("defocus_u", YNull); ("voltage", YInt 300)]);
      ("computational_config", TestEnv.dict [("gpu_ids", YSeq [YInt 0])]);
      ("match_template_result",
       TestEnv.dict [("allow_file_overwrite", YBool true);
                     ("mip_path", YStr "/scratch/results/mip.mrc")]) ].

Definition files : gmap string string :=
  <["/cfg/match.yaml" := "template"]> MissingTemplate.files.

Definition match_template (files : gmap string string) (custom_yaml_path : string)
    (batch_size : Z) : gmap string string * outcome string :=
  if String.eqb custom_yaml_path "/out/xenon_1_1_DWS_config.yaml"
  then (files, Raise (Exc OtherException "CUDA out of memory"))
  else (files, Ok "rows").

Definition run : args -> M world Z :=
  main TestEnv.float_of_str (TestEnv.safe_load [("template", template)]) TestEnv.dump
    match_template (TestEnv.sorted_glob MissingTemplate.catalog).

Definition start : world := {| fs := files; stdout := [] |}.

End EngineFailure.

(** *** A refine run over an item that was refined before

    One micrograph with its match results; its refined results are
    in the output directory already. *)
Module RefinedBefore.
Import World RefineStage.

Definition catalog : list string := [ "/mg/a_DWS.mrc" ].

Definition template : yaml Z :=
  TestEnv.dict
    [ ("template_volume_path", YStr "/vol/other.mrc");
      ("particle_stack", TestEnv.dict [("df_path", YStr "none.csv")]);
      ("computational_config", TestEnv.dict [("gpu_ids", YSeq [YInt 0])]) ].

Definition files : gmap string string :=
  list_to_map
    [ ("/cfg/refine.yaml", "template");
      ("/match/a_DWS_results.csv", "rows");
      ("/out/a_DWS_refined_results.csv", "rows of the earlier run") ].

Definition run : args -> M world Z :=
  main (TestEnv.safe_load [("template", template)]) TestEnv.dump
    (fun _ => Ok 3)
    (fun files _ output_csv _ => (<[output_csv := "rows"]> files, Ok 7))
    (TestEnv.sorted_glob catalog).

Definition arguments : args :=
  {| micrographs_dir := "/mg"; template_yaml := "/cfg/refine.yaml";
     match_results_dir := "/match"; template_volume := "/vol/large.mrc";
     output_dir := "/out"; results_suffix := "_results.csv";
     gpu_ids := [0]; batch_size := 64; pattern := "*DWS.mrc";
     start_idx := None; end_idx := None; job_idx := None; jobs_per_array := None;
     filter_numbers := None |}.

Definition start : world := {| fs := files; stdout := [] |}.

End RefinedBefore.

(** *** The fourth array job over ten files, three files per job *)
Module ArrayJob.
Import MatchStage.

Definition files : list string :=
  ["m0"; "m1"; "m2"; "m3"; "m4"; "m5"; "m6"; "m7"; "m8"; "m9"].

Definition arguments : args :=
  {| micrographs_dir := "/mg"; template_yaml := "/cfg/match.yaml";
     ctfs_dir := "/ctf"; output_dir := "/out"; gpu_ids := [0]; batch_size := 8;
     pattern := "*DWS.mrc";
     start_idx := Some 0; end_idx := Some 2;
     job_idx := Some 4; jobs_per_array := Some 3 |}.

End ArrayJob.

(** *** Two micrographs whose names agree up to the first dot *)
Module SharedPrefix.
Import MatchStage.

Definition first_micrograph : string := "/mg/xenon_1_2_0.0_DWS.mrc".
Definition second_micrograph : string := "/mg/xenon_1_2_0.5_DWS.mrc".

(** The derived configuration of a micrograph, as [process_micrograph]
    asks for it with the output directory [/out]. *)
Definition derive (micrograph_path : string) : outcome (yaml Z) :=
  update_config EngineFailure.template micrograph_path (Some 10) (Some 20) (Some 30)
    (PosixPath.join "/out"
       ((PosixPath.splitext (PosixPath.basename micrograph_path)).1 +:+ "_config.yaml"))
    [0].

(** The value at [match_template_result.mip_path] of a derived configuration. *)
Definition mip_path (derived : outcome (yaml Z)) : option (yaml Z) :=
  match derived with
  | Ok config => lookup_path ["match_template_result"; "mip_path"] config
  | Raise _ => None
  end.

End SharedPrefix.

(** *** A micrograph of four by four pixels *)
Module SmallImage.

Definition micrograph : list (list Z) :=
  [ [ 1;  2;  3;  4];
    [ 5;  6;  7;  8];
    [ 9; 10; 11; 12];
    [13; 14; 15; 16] ].

End SmallImage.

End Scenarios.

(** ** Notions used to state the properties of the file names *)
Module NameProps.
Import PyStr.

(** A non-empty run of decimal digits: what [\d+] matches in full. *)
Definition is_number (d : string) : bool :=
  negb (is_empty d) && forallb is_digit (String.list_ascii_of_string d).

End NameProps.

(** ** Notions used to state further properties of the match stage *)
Module MatchGroups.

(** The groups of the template that [create_yaml_for_micrograph]
    looks up, in the order in which it does. *)
Definition required_groups : list string :=
  ["optics_group"; "computational_config"; "match_template_result"].

End MatchGroups.

(** ** Notions used to state the properties of the refine stage *)
Module RefineProps.

(** The key paths of the template that [create_yaml_for_refinement]
    does not assign to: everything but [template_volume_path],
    [particle_stack.df_path] and [computational_config.gpu_ids]. *)
Definition untouched (p : list string) : bool :=
  match p with
  | [] => false
  | k :: rest =>
      if String.eqb k "template_volume_path" then false
      else if String.eqb k "particle_stack" then
        match rest with
        | [] => false
        | k2 :: _ => negb (String.eqb k2 "df_path")
        end
      else if String.eqb k "computational_config" then
        match rest with
        | [] => false
        | k2 :: _ => negb (String.eqb k2 "gpu_ids")
        end
      else true
  end.

End RefineProps.

(** ** Notions used to state the properties of the derived
       configuration of the constrained search *)
Module ConstrainedConfigProps.

(** The key paths that [create_yaml_for_constrained_search] does not
    assign to: everything but [template_volume_path], the [df_path]
    of the two particle stacks and [computational_config.gpu_ids]. *)
Definition untouched (p : list string) : bool :=
  match p with
  | [] => false
  | k :: rest =>
      if String.eqb k "template_volume_path" then false
      else if String.eqb k "particle_stack_reference"
              || String.eqb k "particle_stack_constrained" then
        match rest with
        | [] => false
        | k2 :: _ => negb (String.eqb k2 "df_path")
        end
      else if String.eqb k "computational_config" then
        match rest with
        | [] => false
        | k2 :: _ => negb (String.eqb k2 "gpu_ids")
        end
      else true
  end.

End ConstrainedConfigProps.

(** ** Notions used to state the invariants of the constrained search *)
Module ConstrainedInvariants.
Import PyStr Py ConstrainedStage ConstrainedProps.

(** [m] leaves the global [error_log_file] bound as it is, and it
    only adds to what was printed, whether it returns or raises. *)
Definition steady {A} (m : M world A) : Prop :=
  forall w, error_log_file (m w).1 = error_log_file w
            /\ stdout w `prefix_of` stdout (m w).1.

(** The log file is bound and open. *)
Definition log_open (w : world) (f : log_file) : Prop :=
  error_log_file w = Some f /\ closed f = false.

(** [m] raises from every state in which the log can be written to,
    with an exception in [P]. *)
Definition fails {A} (m : M world A) (P : exn -> Prop) : Prop :=
  forall w, ConstrainedProps.log_writable w ->
    exists w' e, m w = (w', Raise e) /\ P e.

(** What the handlers around the loop of [main] report for the
    exception that left the loop. *)
Definition escape_message (e : exn) : string :=
  match e with
  | KeyboardInterrupt => "Processing interrupted by user (Ctrl+C)"
  | Exc _ _ => "Unexpected error during processing: " +:+ str_exn e
  end.

(** The classes that have an [except] clause of their own in
    [process_micrograph_constrained_search]. *)
Definition named_class (cls : exc_class) : bool :=
  match cls with
  | FileNotFoundError | ValueError | PermissionError | ImportError => true
  | _ => false
  end.







End ConstrainedInvariants.

(** ** Notions used to state the properties of the particle export *)
Module ExportProps.
Import ExportRelion.

(** Every row of the image has the width of the image. *)
Definition rectangular {Px} (a : list (list Px)) : Prop :=
  Forall (fun row => Z.of_nat (length row) = width a) a.

(** An image of [n] rows of [n] pixels. *)
Definition square {Px} (n : nat) (a : list (list Px)) : Prop :=
  length a = n /\ Forall (fun row => length row = n) a.

End ExportProps.

(** ** [replace_paths.py]: rewriting the paths in the result tables *)
Module ReplacePaths.
Import PyStr PosixPath Py World.
#[local] Open Scope py_scope.
#[local] Open Scope Z_scope.

(** [s.replace(old, new)] for a non-empty [old]: the occurrences of
    [old] are found from the left and do not overlap.  [skip] counts
    the characters of an occurrence that are still to be passed over. *)
Fixpoint replace_from (old new : string) (skip : nat) (s : string) : string :=
  match s with
  | EmptyString => EmptyString
  | String a r =>
      match skip with
      | S k => replace_from old new k r
      | O =>
          match strip_prefix old s with
          | Some _ => new +:+ replace_from old new (String.length old - 1) r
          | None => String a (replace_from old new 0 r)
          end
      end
  end.

Definition str_replace (s old new : string) : string := replace_from old new 0 s.

Definition old_path : string := "/global/scratch/users/jdickerson/2dtm_test_data/".
Definition new_path : string := "/data/papers/Leopard-EM_paper_data/".
Definition old_string1 : string := "_nan_rerun".
Definition new_string1 : string := "".
Definition old_string2 : string := "temp_nan".
Definition new_string2 : string := "all".

(** A column of the table: one of dtype [object], whose cells are
    strings or the missing value ([None]), or one of another dtype,
    whose cells the script does not look at. *)
Inductive column (Other : Type) :=
  | ObjectColumn (cells : list (option string))
  | OtherColumn (cells : Other).
Arguments ObjectColumn {Other} cells.
Arguments OtherColumn {Other} cells.

(** [str(x)] of a cell, as [astype(str)] applies it: the missing
    value becomes the text [nan]. *)
Definition astype_str (cell : option string) : string :=
  match cell with
  | Some s => s
  | None => "nan"
  end.

(** The three replacements of lines 44 to 46, on one cell. *)
Definition replace_cell (cell : option string) : string :=
  let s := str_replace (astype_str cell) old_path new_path in
  let s := str_replace s old_string1 new_string1 in
  str_replace s old_string2 new_string2.

(** "Replace path strings in all columns": only the string columns. *)
Definition replace_column {Other} (col : column Other) : column Other :=
  match col with
  | ObjectColumn cells => ObjectColumn (map (fun cell => Some (replace_cell cell)) cells)
  | OtherColumn cells => OtherColumn cells
  end.

Section Script.
Context {Other : Type}.
(** [pd.read_csv] from the text of the file: the columns of the
    table; [df.to_csv(_, index=False)]: the text that is written;
    [glob.glob(pattern, recursive=True)] on the files as they are;
    [os.path.isdir]. *)
Variable read_csv : string -> outcome (list (column Other)).
Variable to_csv : list (column Other) -> string.
Variable glob : gmap string string -> string -> list string.
Variable isdir : gmap string string -> string -> bool.

(** The body of the loop over the files. *)
Definition replace_in_file (csv_file : string) : M world unit :=
  print ("Processing: " +:+ csv_file) ;;
  try_except_Exception
    (text <- read_file csv_file ;;
     df <- lift (read_csv text) ;;
     let df := map replace_column df in
     write_file csv_file (to_csv df) ;;
     print ("  Successfully updated paths in " +:+ csv_file))
    (fun e => print ("  Error processing " +:+ csv_file +:+ ": " +:+ str_exn e)).

Definition replace_paths_in_csv (input_dir : string) : M world unit :=
  csv_files <- gets (fun w => glob (fs w) (join input_dir "**/*_results.csv")) ;;
  if bool_decide (csv_files = []) then
    print ("No _results.csv files found in " +:+ input_dir)
  else
    print ("Found " +:+ str_Z (Z.of_nat (length csv_files)) +:+ " _results.csv files") ;;
    for_each csv_files replace_in_file ;;
    print "Path replacement completed!".

(** The script as a program: [argv] is [sys.argv], the result is
    the exit status. *)
Definition main (argv : list string) : M world Z :=
  match argv with
  | [_; input_dir] =>
      is_dir <- gets (fun w => isdir (fs w) input_dir) ;;
      if negb is_dir then
        print ("Error: " +:+ input_dir +:+ " is not a valid directory") ;;
        ret 1
      else
        replace_paths_in_csv input_dir ;;
        ret 0
  | _ =>
      print "Usage: python replace_paths.py <directory_path>" ;;
      ret 1
  end.

End Script.
End ReplacePaths.

(** ** [export_relion.py]: the particle stacks and the star file *)
Module ExportScript.
Import PyStr PosixPath Py World ExportRelion.
#[local] Open Scope py_scope.
#[local] Open Scope Z_scope.

(** [Path(p).name]: the last component of the path; empty components
    and components [.] do not count. *)
Definition path_name (p : string) : string :=
  default EmptyString
    (last (List.filter (fun part => negb (is_empty part) && negb (String.eqb part "."))
                       (split_char sep p))).

(** [Path(p).stem]: the name without its last suffix; a dot at the
    start or at the end of the name starts no suffix. *)
Definition stem (p : string) : string :=
  let name := path_name p in
  let i := rfind extsep name in
  if (0 <? i) && (i <? len name - 1) then slice_to name i else name.

(** [f"{n:06d}"]: at least six characters, filled with zeros after the sign. *)
Definition format_06d (n : Z) : string :=
  let digits := str_Z (Z.abs n) in
  let sign := if n <? 0 then "-" else EmptyString in
  let width := (String.length sign + String.length digits)%nat in
  sign +:+ String.concat EmptyString (replicate (6 - width)%nat "0") +:+ digits.

(** The order of [str]: by code points, which is the order of the
    bytes of the text. *)
Definition str_le (s t : string) : Prop := String.leb s t = true.

Section Script.
(** The type of the numbers of a table, and the pixels of an image. *)
Context {F Px : Type}.
Variable zero : Px.

(** A row of a results table, with the columns that the script reads.
    Every row has a micrograph path. *)
Record particle := {
  micrograph_path : string;
  pos_x_img : F;
  pos_y_img : F;
  refined_pixel_size : F;
  defocus_u : F;
  defocus_v : F;
  refined_relative_defocus : F;
  astigmatism_angle : F;
  refined_phi : F;
  refined_theta : F;
  refined_psi : F;
  spherical_aberration : F;
  voltage : F;
  amplitude_contrast_ratio : F;
}.

(** A row of the [particles] block of the star file. *)
Record star_particle := {
  rlnCoordinateX : F;
  rlnCoordinateY : F;
  rlnImageName : string;
  rlnMicrographName : string;
  rlnOpticsGroup : Z;
  rlnDefocusU : F;
  rlnDefocusV : F;
  rlnDefocusAngle : F;
  rlnAngleRot : F;
  rlnAngleTilt : F;
  rlnAnglePsi : F;
}.

(** The one row of the [optics] block. *)
Record star_optics := {
  optics_group : Z;
  optics_group_name : string;
  micrograph_original_pixel_size : F;
  optics_spherical_aberration : F;
  optics_voltage : F;
  optics_amplitude_contrast : F;
  image_pixel_size : F;
  image_size : Z;
}.

(** [x + y] and [int(x)] on the numbers of a table; [pd.read_csv]
    from the text of a file; [mrcfile.open(path).data] from the bytes
    of a file; the bytes that [mrcfile.new] writes for a stack and a
    voxel size; the text that [starfile.write] writes;
    [glob.glob(pattern)] on the files as they are. *)
Variable add : F -> F -> F.
Variable int : F -> outcome Z.
Variable read_csv : string -> outcome (list particle).
Variable read_mrc : string -> outcome (list (list Px)).
Variable write_mrcs : list (list (list Px)) -> F -> string.
Variable write_star : star_optics -> list star_particle -> string.
Variable glob : gmap string string -> string -> list string.

(** [df.groupby('micrograph_path')]: one group for each micrograph
    path, the paths sorted, the rows of a group in the order of the table. *)
Definition group_keys (df : list particle) : list string :=
  @merge_sort string str_le (fun s t => decide (String.leb s t = true))
    (remove_dups (map micrograph_path df)).

Definition groupby (df : list particle) : list (string * list particle) :=
  map (fun key => (key, List.filter (fun row => String.eqb (micrograph_path row) key) df))
      (group_keys df).

(** The path of the stack of a micrograph: the same expression in
    both functions of the script. *)
Definition stack_path (output_dir micrograph_path : string) : string :=
  join output_dir (stem micrograph_path +:+ ".mrcs").

(** The rows that the inner loop of [create_star_file] adds for one group. *)
Definition star_rows (output_dir : string) (group : string * list particle)
  : list star_particle :=
  let mrcs_rel_path := stack_path output_dir group.1 in
  imap (fun position (row : particle) =>
          let particle_idx := Z.of_nat position + 1 in
          {| rlnCoordinateX := pos_x_img row;
             rlnCoordinateY := pos_y_img row;
             rlnImageName := format_06d particle_idx +:+ "@" +:+ mrcs_rel_path;
             rlnMicrographName := group.1;
             rlnOpticsGroup := 1;
             rlnDefocusU := add (defocus_u row) (refined_relative_defocus row);
             rlnDefocusV := add (defocus_v row) (refined_relative_defocus row);
             rlnDefocusAngle := astigmatism_angle row;
             rlnAngleRot := refined_phi row;
             rlnAngleTilt := refined_theta row;
             rlnAnglePsi := refined_psi row |})
       group.2.

Definition create_star_file (df : list particle)
    (output_dir output_star_path : string) (box_size : Z) : M world unit :=
  let particle_df := concat (map (star_rows output_dir) (groupby df)) in
  match df with
  | [] => raise (Exc OtherException "single positional indexer is out-of-bounds")
  | first :: _ =>
      let optics :=
        {| optics_group := 1;
           optics_group_name := "OpticsGroup1";
           micrograph_original_pixel_size := refined_pixel_size first;
           optics_spherical_aberration := spherical_aberration first;
           optics_voltage := voltage first;
           optics_amplitude_contrast := amplitude_contrast_ratio first;
           image_pixel_size := refined_pixel_size first;
           image_size := box_size |} in
      write_file output_star_path (write_star optics particle_df) ;;
      print ("Created star file: " +:+ output_star_path)
  end.

(** The loop over the particles of one micrograph: the stack so far
    goes in, the stack at the end comes out; a warning is printed
    for every particle that is skipped. *)
Fixpoint crop_loop (micrograph : list (list Px)) (box_size : Z)
    (particles : list particle) (particle_stack : list (list (list Px)))
  : M world (list (list (list Px))) :=
  match particles with
  | [] => ret particle_stack
  | row :: rest =>
      center_x <- lift (int (pos_x_img row)) ;;
      center_y <- lift (int (pos_y_img row)) ;;
      match crop_particle zero micrograph box_size center_x center_y with
      | inl warning =>
          print warning ;;
          crop_loop micrograph box_size rest particle_stack
      | inr padded_img =>
          crop_loop micrograph box_size rest (particle_stack ++ [padded_img])
      end
  end.

(** The body of the loop over the micrographs of one table. *)
Definition process_group (output_dir : string) (box_size : Z)
    (group : string * list particle) : M world unit :=
  print ("Processing micrograph: " +:+ group.1) ;;
  match group.2 with
  | [] => raise (Exc OtherException "single positional indexer is out-of-bounds")
  | first :: _ =>
      let pixel_size := refined_pixel_size first in
      bytes <- read_file group.1 ;;
      micrograph <- lift (read_mrc bytes) ;;
      particle_stack <- crop_loop micrograph box_size group.2 [] ;;
      if bool_decide (particle_stack = []) then
        print ("Warning: No valid particles found in " +:+ group.1)
      else
        write_file (stack_path output_dir group.1) (write_mrcs particle_stack pixel_size)
  end.

(** The body of the loop over the tables: the table that was read. *)
Definition process_csv (output_dir : string) (box_size : Z) (csv_path : string)
  : M world (list particle) :=
  print (String LF EmptyString +:+ "Processing CSV file: " +:+ csv_path) ;;
  text <- read_file csv_path ;;
  df <- lift (read_csv text) ;;
  for_each (groupby df) (process_group output_dir box_size) ;;
  ret df.

(** The loop over the tables: the tables read, in order. *)
Fixpoint process_tables (output_dir : string) (box_size : Z) (csv_files : list string)
  : M world (list (list particle)) :=
  match csv_files with
  | [] => ret []
  | csv_path :: rest =>
      df <- process_csv output_dir box_size csv_path ;;
      all_particles <- process_tables output_dir box_size rest ;;
      ret (df :: all_particles)
  end.

(** The directories are not part of the world, so that
    [os.makedirs(output_dir, exist_ok=True)] changes nothing in it. *)
Definition create_particle_stacks (input_dir output_dir : string) (box_size : Z)
    (csv_suffix : string) : M world unit :=
  let csv_pattern := join input_dir ("*" +:+ csv_suffix) in
  csv_files <- gets (fun w => glob (fs w) csv_pattern) ;;
  if bool_decide (csv_files = []) then
    print ("No CSV files found matching pattern: " +:+ csv_pattern)
  else
    print ("Found " +:+ str_Z (Z.of_nat (length csv_files)) +:+ " CSV files to process") ;;
    all_particles <- process_tables output_dir box_size csv_files ;;
    let all_particles_df := concat all_particles in
    let star_file_path := join output_dir "particles.star" in
    create_star_file all_particles_df output_dir star_file_path box_size.

End Script.
End ExportScript.

(** ** What the facts about the export script speak of *)
Module ExportScriptProps.
Import PyStr PosixPath Py World ExportScript.


(** Running [m] leaves every path as it was, or the path is one of
    [P] and a file is stored under it afterwards. *)
Definition writes_only {A} (P : string -> Prop) (m : M world A) : Prop :=
  forall (w : world) (p : string),
    fs (m w).1 !! p = fs w !! p \/ (P p /\ is_Some (fs (m w).1 !! p)).

(** The star file of an output directory, or the stack of some
    micrograph in it. *)
Definition export_output (output_dir p : string) : Prop :=
  p = join output_dir "particles.star"
  \/ exists micrograph_path : string, p = join output_dir (stem micrograph_path +:+ ".mrcs").

End ExportScriptProps.

(** ** Further concrete inputs *)
Module Examples.
Import PyStr PosixPath Py Yaml Scenarios.
#[local] Open Scope Z_scope.

(** *** A match template without the group [computational_config] *)
Module IncompleteTemplate.
Import World.

Definition top : gmap string (yaml Z) :=
  list_to_map
    [ ("optics_group", TestEnv.dict [("defocus_u", YNull)]);
      ("match_template_result", TestEnv.dict [("mip_path", YStr "/scratch/results/mip.mrc")]) ].

Definition safe_load : string -> outcome (yaml Z) :=
  TestEnv.safe_load [("template", YMap top)].

Definition start : world :=
  {| fs := list_to_map [("/cfg/match.yaml", "template")]; stdout := [] |}.

End IncompleteTemplate.

(** *** A calibration file whose first defocus is no number *)
Module BadCalibration.
Import World.

Definition calibration : string :=
  "1 n/a 20 30 5
".

Definition start : world :=
  {| fs := list_to_map [("/ctf/xenon_1_1_0.0_diagnostic.txt", calibration)];
     stdout := [] |}.

End BadCalibration.

(** *** The array jobs of a refine run, three files per job *)
Module Jobs.
Import RefineStage.

Definition arguments (j : Z) : args :=
  {| micrographs_dir := "/mg"; template_yaml := "/cfg/refine.yaml";
     match_results_dir := "/match"; template_volume := "/vol/large.mrc";
     output_dir := "/out"; results_suffix := "_results.csv";
     gpu_ids := [0]; batch_size := 64; pattern := "*DWS.mrc";
     start_idx := None; end_idx := None;
     job_idx := Some j; jobs_per_array := Some 3;
     filter_numbers := None |}.

End Jobs.

(** *** A constrained search whose manager cannot be built

    The first micrograph of the interrupted run, with its derived
    configuration in place and the log open; building the manager
    from the configuration raises [KeyError]. *)
Module BrokenManager.
Import ConstrainedStage.

Definition custom_yaml_path : string := "/out/xenon_1_1_DWS_constrained_config.yaml".

Definition log : log_file :=
  {| log_path := "/out/constrained_search_errors.log"; closed := false |}.

Definition start : world :=
  {| fs := <[custom_yaml_path := TestEnv.dump (Interrupted.derived "xenon_1_1_DWS")]>
             Interrupted.files;
     stdout := []; error_log_file := Some log; clock := 0 |}.

Definition from_yaml (files : gmap string string) (path : string) : outcome string :=
  Raise (Exc KeyError "'preload_mrc_files'").

End BrokenManager.

(** *** A constrained search whose engine fails on its first item

    The files of the interrupted run, with the log file open. *)
Module SearchFailure.
Import ConstrainedStage.

(** The search of the first micrograph runs out of memory; any other
    search writes its table and takes five seconds. *)
Definition run_constrained_search (files : gmap string string) (manager : string)
    (output_csv : string) (false_positives : Z) (batch_size : Z)
  : gmap string string * outcome Z :=
  if String.eqb output_csv "/out/xenon_1_1_DWS_constrained_results.csv"
  then (files, Raise (Exc OtherException "CUDA out of memory"))
  else (<[output_csv := "rows"]> files, Ok 5).

Definition now (n : nat) : string := "t" +:+ str_Z (Z.of_nat n).

Definition start : world :=
  {| fs := Interrupted.files; stdout := []; error_log_file := Some BrokenManager.log;
     clock := 0 |}.




End SearchFailure.

(** *** The last two files of a list, by a negative start index *)
Module LastTwo.
Import ConstrainedStage.

Definition arguments : args :=
  {| micrographs_dir := "/mg"; template_yaml := "/cfg/constrained.yaml";
     large_results_dir := "/large"; small_results_dir := "/small";
     template_volume := "/vol/small.mrc"; output_dir := "/out";
     large_suffix := "_refined_results.csv"; small_suffix := "_results.csv";
     gpus := "0"; gpu_ids := [0]; batch_size := 80; false_positives := 0;
     pattern := "*DWS.mrc";
     start_idx := Some (-2); end_idx := None; job_idx := None; jobs_per_array := None;
     error_log := None; filter_numbers := None |}.

End LastTwo.

(** *** Two result tables, the first of which cannot be read *)
Module Tables.
Import World ReplacePaths.

Definition read_csv (text : string) : outcome (list (column unit)) :=
  if String.eqb text "broken" then Raise (Exc ValueError "No columns to parse from file")
  else Ok [ ObjectColumn [Some (old_path +:+ "mg/a_DWS.mrc"); None];
            OtherColumn tt ].

Definition to_csv (df : list (column unit)) : string :=
  String.concat ";"
    (map (fun col : column unit =>
            match col with
            | ObjectColumn cells => String.concat "," (map astype_str cells)
            | OtherColumn _ => "1.5,2.5"
            end) df).

Definition glob (files : gmap string string) (pattern : string) : list string :=
  ["/r/a_results.csv"; "/r/b_results.csv"].

Definition start : world :=
  {| fs := list_to_map [("/r/a_results.csv", "broken"); ("/r/b_results.csv", "table")];
     stdout := [] |}.

End Tables.

(** *** A table of three particles on the small micrograph

    The first two lie on the micrograph; the box of the third one
    lies outside it. *)
Module Stacks.
Import World ExportScript.

Definition row (x y : Z) : @particle Z :=
  {| micrograph_path := "/mg/small_DWS.mrc";
     pos_x_img := x; pos_y_img := y; refined_pixel_size := 1;
     defocus_u := 5000; defocus_v := 4800; refined_relative_defocus := 25;
     astigmatism_angle := 30; refined_phi := 10; refined_theta := 20; refined_psi := 40;
     spherical_aberration := 3; voltage := 300; amplitude_contrast_ratio := 0 |}.

Definition table : list (@particle Z) := [row 0 0; row 3 3; row 9 9].

Definition int (x : Z) : outcome Z := Ok x.

Definition read_mrc (bytes : string) : outcome (list (list Z)) :=
  Ok SmallImage.micrograph.

Definition write_mrcs (stack : list (list (list Z))) (voxel_size : Z) : string :=
  str_Z (Z.of_nat (length stack)) +:+ " images".

Definition start : world :=
  {| fs := list_to_map [("/mg/small_DWS.mrc", "pixels")]; stdout := [] |}.

(** A directory whose one table has a header and no rows. *)
Definition read_csv (text : string) : outcome (list (@particle Z)) := Ok [].

Definition write_star (optics : @star_optics Z) (rows : list (@star_particle Z)) : string :=
  "star".

Definition glob (files : gmap string string) (pattern : string) : list string :=
  ["/in/empty_results.csv"].

Definition empty_start : world :=
  {| fs := list_to_map [("/in/empty_results.csv", "header")]; stdout := [] |}.

End Stacks.

End Examples.
(** * Sanity checks of the string and path functions *)

Example basename_ex : PosixPath.basename "/data/mg/xenon_219_000_0.0_DWS.mrc" = "xenon_219_000_0.0_DWS.mrc".
Proof. reflexivity. Qed.

Example dirname_ex : PosixPath.dirname "/out/all/x_config.yaml" = "/out/all"
  /\ PosixPath.dirname "/x.yaml" = "/" /\ PosixPath.dirname "x.yaml" = ""
  /\ PosixPath.dirname "a//b" = "a".
Proof. repeat split; reflexivity. Qed.

Example join_ex : PosixPath.join "/out" "a.csv" = "/out/a.csv"
  /\ PosixPath.join "/out/" "a.csv" = "/out/a.csv" /\ PosixPath.join "" "a.csv" = "a.csv"
  /\ PosixPath.join "/out" "/abs" = "/abs".
Proof. repeat split; reflexivity. Qed.

Example splitext_ex : PosixPath.splitext "xenon_219_000_0.0_DWS.mrc" = ("xenon_219_000_0.0_DWS", ".mrc")
  /\ PosixPath.splitext ".bashrc" = (".bashrc", "") /\ PosixPath.splitext "a.b/c" = ("a.b/c", "").
Proof. repeat split; reflexivity. Qed.

Example split_ex : PyStr.split (PyStr.strip "  a 1.5	2.5 30  x
") = ["a"; "1.5"; "2.5"; "30"; "x"].
Proof. reflexivity. Qed.

Example readlines_ex : PyStr.readlines "# c
a b
c" = ["# c
"; "a b
"; "c"].
Proof. reflexivity. Qed.

Example str_Z_ex : PyStr.str_Z 12 = "12" /\ PyStr.str_Z 0 = "0" /\ PyStr.str_Z (-3) = "-3".
Proof. repeat split; reflexivity. Qed.

(** * Facts about paths *)
Module PathFacts.
Import PyStr PosixPath.
#[local] Open Scope Z_scope.

Lemma append_nil (t : string) : EmptyString +:+ t = t.
Proof. reflexivity. Qed.

Lemma append_cons (a : ascii) (x t : string) : String a x +:+ t = String a (x +:+ t).
Proof. reflexivity. Qed.



Lemma rfind_range (c : ascii) (s : string) : -1 <= rfind c s < len s.
Proof.
  unfold len. induction s as [|a r IH]; simpl rfind; simpl String.length.
  - lia.
  - rewrite Nat2Z.inj_succ.
    destruct (0 <=? rfind c r) eqn:E; [apply Z.leb_le in E; lia |].
    destruct (Ascii.eqb a c); lia.
Qed.

(** A suffix without [c] does not move the last [c]. *)
Lemma rfind_append_free (c : ascii) (x t : string) :
  rfind c t = -1 -> rfind c (x +:+ t) = rfind c x.
Proof.
  intros Ht. induction x as [|a x IH]; rewrite ?append_nil, ?append_cons.
  - exact Ht.
  - simpl. now rewrite IH.
Qed.









(** The last component of a path holds no separator. *)
Lemma rfind_drop_last (c : ascii) (s : string) :
  rfind c (drop_chars (Z.to_nat (rfind c s + 1)) s) = -1.
Proof.
  induction s as [|a r IH]; [reflexivity |].
  pose proof (rfind_range c r) as Hr. simpl rfind.
  destruct (0 <=? rfind c r) eqn:E.
  - apply Z.leb_le in E.
    replace (Z.to_nat (rfind c r + 1 + 1)) with (S (Z.to_nat (rfind c r + 1))) by lia.
    exact IH.
  - apply Z.leb_gt in E. assert (rfind c r = -1) as Hm by lia.
    destruct (Ascii.eqb a c) eqn:Ea.
    + simpl. exact Hm.
    + simpl. rewrite Hm. simpl. now rewrite Ea.
Qed.

Lemma basename_free (p : string) : rfind sep (basename p) = -1.
Proof.
  unfold basename, slice_from, bound. pose proof (rfind_range sep p) as H.
  destruct (rfind sep p + 1 <? 0) eqn:E; [apply Z.ltb_lt in E; lia |].
  rewrite Z.min_l by lia. apply rfind_drop_last.
Qed.


Lemma append_free (c : ascii) (x t : string) :
  rfind c x = -1 -> rfind c t = -1 -> rfind c (x +:+ t) = -1.
Proof. intros Hx Ht. now rewrite rfind_append_free. Qed.

Lemma rfind_free_inv (c a : ascii) (r : string) :
  rfind c (String a r) = -1 -> Ascii.eqb a c = false /\ rfind c r = -1.
Proof.
  simpl. pose proof (rfind_range c r) as Hr.
  destruct (0 <=? rfind c r) eqn:E; [apply Z.leb_le in E; lia |].
  apply Z.leb_gt in E. destruct (Ascii.eqb a c); [discriminate |].
  intros _. split; [reflexivity | lia].
Qed.




Lemma free_startswith (c : ascii) (s : string) : rfind c s = -1 -> startswith c s = false.
Proof.
  destruct s as [|a r]; [reflexivity |]. simpl.
  pose proof (rfind_range c r). destruct (0 <=? rfind c r) eqn:E; [apply Z.leb_le in E; lia |].
  now destruct (Ascii.eqb a c).
Qed.

Lemma append_assoc (x y z : string) : (x +:+ y) +:+ z = x +:+ (y +:+ z).
Proof.
  induction x as [|a x IH]; rewrite ?append_nil, ?append_cons; [reflexivity |].
  now rewrite IH.
Qed.

Lemma append_empty (s : string) : s +:+ EmptyString = s.
Proof. induction s as [|a s IH]; [reflexivity |]. now rewrite append_cons, IH. Qed.

Lemma is_empty_true (s : string) : is_empty s = true -> s = EmptyString.
Proof. now destruct s. Qed.









End PathFacts.

(** * Facts about Python slices of lists *)
Module SliceFacts.
#[local] Open Scope Z_scope.

(** With non-negative bounds, [xs[lo:hi]] holds the elements of
    [xs] at the indices from [lo] up to, not including, [hi], in order. *)
Lemma slice_lookup {A} (xs : list A) (lo hi : Z) (i : nat) (x : A) :
  0 <= lo -> 0 <= hi ->
  Py.slice xs lo hi !! i = Some x <->
  xs !! (Z.to_nat lo + i)%nat = Some x /\ lo + Z.of_nat i < hi.
Proof.
  intros Hlo Hhi. unfold Py.slice, PyStr.bound.
  destruct (lo <? 0) eqn:E1; [apply Z.ltb_lt in E1; lia |].
  destruct (hi <? 0) eqn:E2; [apply Z.ltb_lt in E2; lia |].
  rewrite lookup_take_Some, lookup_drop. split.
  - intros [Hx Hi]. apply lookup_lt_Some in Hx as Hlt.
    assert (Z.to_nat (Z.min lo (Z.of_nat (length xs))) = Z.to_nat lo) as Heq by lia.
    rewrite Heq in Hx. split; [exact Hx | lia].
  - intros [Hx Hi]. apply lookup_lt_Some in Hx as Hlt.
    assert (Z.to_nat (Z.min lo (Z.of_nat (length xs))) = Z.to_nat lo) as Heq by lia.
    rewrite Heq. split; [exact Hx | lia].
Qed.

Lemma slice_past_end {A} (xs : list A) (lo hi : Z) :
  Z.of_nat (length xs) <= lo -> 0 <= hi -> Py.slice xs lo hi = [].
Proof.
  intros Hlo Hhi. unfold Py.slice, PyStr.bound.
  destruct (lo <? 0) eqn:E1; [apply Z.ltb_lt in E1; lia |].
  destruct (hi <? 0) eqn:E2; [apply Z.ltb_lt in E2; lia |].
  rewrite (Z.min_r lo (Z.of_nat (length xs))) by lia.
  rewrite Nat2Z.id, drop_all. apply take_nil.
Qed.

End SliceFacts.

(** * Ranges of a list *)
Module RangeFacts.
#[local] Open Scope Z_scope.

(** [xs[lo : min(lo + k, len(xs))]] is the block of at most [k]
    elements that starts at [lo]. *)
Lemma slice_block {A} (xs : list A) (lo k : Z) :
  0 <= lo -> 0 <= k ->
  Py.slice xs lo (Z.min (lo + k) (Z.of_nat (length xs)))
  = take (Z.to_nat k) (drop (Z.to_nat lo) xs).
Proof.
  intros Hlo Hk. unfold Py.slice, PyStr.bound.
  destruct (lo <? 0) eqn:E1; [apply Z.ltb_lt in E1; lia |].
  destruct (Z.min (lo + k) (Z.of_nat (length xs)) <? 0) eqn:E2; [apply Z.ltb_lt in E2; lia |].
  destruct (Z.le_gt_cases lo (Z.of_nat (length xs))) as [Hin | Hout].
  - rewrite (Z.min_l lo) by lia.
    rewrite (Z.min_l (Z.min (lo + k) _)) by lia.
    destruct (Z.le_gt_cases (lo + k) (Z.of_nat (length xs))) as [Hfit | Hcut].
    + rewrite Z.min_l by lia. f_equal. lia.
    + rewrite Z.min_r by lia.
      rewrite !take_ge; [reflexivity | |]; rewrite length_drop; lia.
  - rewrite (Z.min_r lo) by lia. rewrite Nat2Z.id, drop_all, take_nil.
    rewrite drop_ge by lia. now rewrite take_nil.
Qed.

(** The first [m] blocks of [k] elements make up the first [m * k] elements. *)
Lemma blocks_take {A} (xs : list A) (k m : nat) :
  concat (map (fun j => take k (drop ((j - 1) * k) xs)) (seq 1 m)) = take (m * k) xs.
Proof.
  induction m as [|m IH]; [reflexivity |].
  rewrite seq_S, map_app, concat_app, IH. simpl.
  rewrite app_nil_r. replace (m - 0)%nat with m by lia.
  replace (k + m * k)%nat with (m * k + k)%nat by lia.
  apply take_take_drop.
Qed.

End RangeFacts.

(** * Facts about configuration documents *)
Module YamlFacts.
Import Py Yaml.

Section Facts.
Context {F : Type}.

Lemma getitem_inv (d v : yaml F) (k : string) :
  getitem d k = Ok v -> exists m, d = YMap m /\ m !! k = Some v.
Proof.
  destruct d; try discriminate. simpl.
  destruct (m !! k) as [v'|] eqn:E; [|discriminate].
  intros [= ->]. eauto.
Qed.

Lemma setitem_inv (d d' v : yaml F) (k : string) :
  setitem d k v = Ok d' -> exists m, d = YMap m /\ d' = YMap (<[k := v]> m).
Proof. destruct d; try discriminate. simpl. intros [= <-]. eauto. Qed.

Lemma setitem2_inv (m : gmap string (yaml F)) (d' v : yaml F) (k1 k2 : string) :
  setitem2 (YMap m) k1 k2 v = Ok d' ->
  exists inner, m !! k1 = Some (YMap inner)
    /\ d' = YMap (<[k1 := YMap (<[k2 := v]> inner)]> m).
Proof.
  unfold setitem2, obind. simpl.
  destruct (m !! k1) as [inner|] eqn:E; [|discriminate].
  destruct inner; try discriminate. simpl. intros [= <-]. eauto.
Qed.

End Facts.
End YamlFacts.

(** * The match stage *)
Module MatchFacts.
Import PyStr PosixPath Py Yaml World MatchStage MatchProps.
#[local] Open Scope py_scope.
#[local] Open Scope Z_scope.

Ltac run := unfold bind, gets, print, modify, ret, lift, exists_; simpl.

Section Facts.
Context {F : Type}.
Variable float_of_str : string -> option F.
Variable safe_load : string -> outcome (yaml F).
Variable dump : yaml F -> string.
Variable match_template : gmap string string -> string -> Z -> gmap string string * outcome string.
Variable sorted_glob : gmap string string -> string -> list string.

Abbreviation main := (main float_of_str safe_load dump match_template sorted_glob).
Abbreviation process_each := (process_each float_of_str safe_load dump match_template).
Abbreviation process_micrograph := (process_micrograph float_of_str safe_load dump match_template).
Abbreviation run_guarded := (run_guarded match_template).
Abbreviation create_yaml_for_micrograph := (create_yaml_for_micrograph safe_load dump).
Abbreviation get_ctf_parameters := (get_ctf_parameters float_of_str).
Abbreviation turn := (turn float_of_str safe_load dump match_template).

Lemma job_range_array (a : args) (n j k : Z) :
  job_idx a = Some j -> jobs_per_array a = Some k ->
  job_range a n = Some ((j - 1) * k, Z.min ((j - 1) * k + k) n).
Proof. intros Hj Hk. unfold job_range. now rewrite Hj, Hk. Qed.

Lemma job_range_none (a : args) (n : Z) :
  job_idx a = None \/ jobs_per_array a = None ->
  start_idx a = None -> end_idx a = None ->
  job_range a n = None.
Proof.
  intros Hmode Hs He. unfold job_range. rewrite Hs, He.
  destruct Hmode as [-> | ->]; [reflexivity | now destruct (job_idx a)].
Qed.

(** What [main] does once the files are found and some of them
    are unprocessed, when the selection turns out empty. *)
Lemma main_empty_selection (a : args) (w : world) (lo hi : Z) :
  let found := sorted_glob (fs w) (join (micrographs_dir a) (pattern a)) in
  let todo := unprocessed (fs w) (output_dir a) found in
  found <> [] -> todo <> [] ->
  job_range a (Z.of_nat (length todo)) = Some (lo, hi) ->
  select a todo = [] ->
  main a w =
    ({| fs := fs w;
        stdout := stdout w ++
          [ "Found " +:+ str_Z (Z.of_nat (length found)) +:+ " micrograph files";
            "Found " +:+ str_Z (Z.of_nat (length todo))
              +:+ " unprocessed micrographs out of "
              +:+ str_Z (Z.of_nat (length found)) +:+ " total";
            "Processing micrographs " +:+ str_Z (lo + 1) +:+ "-" +:+ str_Z hi
              +:+ " out of 0";
            "Successfully processed 0/0 micrographs" ] |}, Ok 0).
Proof.
  intros found todo Hfound Htodo Hrange Hsel. unfold main. run.
  fold found. rewrite (bool_decide_eq_false_2 _ Hfound). run.
  fold todo. rewrite (bool_decide_eq_false_2 _ Htodo). run.
  rewrite Hrange, Hsel. run.
  rewrite <- !app_assoc. reflexivity.
Qed.


(** What [main] does when every file found has its results already. *)
Lemma main_nothing_left (a : args) (w : world) :
  let found := sorted_glob (fs w) (join (micrographs_dir a) (pattern a)) in
  found <> [] -> unprocessed (fs w) (output_dir a) found = [] ->
  main a w =
    ({| fs := fs w;
        stdout := stdout w ++
          [ "Found " +:+ str_Z (Z.of_nat (length found)) +:+ " micrograph files";
            "Found 0 unprocessed micrographs out of "
              +:+ str_Z (Z.of_nat (length found)) +:+ " total";
            "No unprocessed micrographs to process. Exiting." ] |}, Ok 0).
Proof.
  intros found Hfound Hnone. unfold MatchStage.main. run.
  fold found. rewrite (bool_decide_eq_false_2 _ Hfound). run.
  rewrite Hnone. run. rewrite <- !app_assoc. reflexivity.
Qed.

(** What [main] does when the pattern matches no file. *)
Lemma main_nothing_found (a : args) (w : world) :
  sorted_glob (fs w) (join (micrographs_dir a) (pattern a)) = [] ->
  main a w =
    ({| fs := fs w;
        stdout := stdout w ++
          [ "No micrograph files found matching pattern "
              +:+ join (micrographs_dir a) (pattern a) ] |}, Ok 1).
Proof.
  intros Hnone. unfold MatchStage.main, bind at 1, gets at 1.
  now rewrite (bool_decide_eq_true_2 _ Hnone).
Qed.

(** The loop of [main] hands the items of its list to the per-item
    function in turn and counts the answers [True]. *)
Lemma process_each_in_turn (a : args) (n : Z) (items : list string) (position : nat)
    (successful : Z) (w : world) :
  process_each a n (Z.of_nat position) items successful w
  = (count <- in_turn (turn a n) position items ;; ret (successful + count)) w.
Proof.
  revert position successful w. induction items as [|item rest IH]; intros position successful w.
  - cbn [MatchStage.process_each in_turn]. unfold bind, ret. now rewrite Z.add_0_r.
  - cbn [MatchStage.process_each in_turn].
    set (later := in_turn (turn a n) (S position) rest).
    unfold turn, bind, print, modify, ret.
    destruct (process_micrograph _ _ _ _ _ _ _) as [w1 [ok|e]]; [| reflexivity].
    replace (Z.of_nat position + 1) with (Z.of_nat (S position)) by lia.
    rewrite IH. fold later. unfold bind, ret.
    destruct (later w1) as [w2 [count|e]]; [| reflexivity].
    do 2 f_equal. destruct ok; lia.
Qed.

(** [main] from the point where the files are found and some of
    them are unprocessed. *)
Lemma main_run (a : args) (w : world) :
  let found := sorted_glob (fs w) (join (micrographs_dir a) (pattern a)) in
  let todo := unprocessed (fs w) (output_dir a) found in
  found <> [] -> todo <> [] ->
  main a w =
    (print ("Found " +:+ str_Z (Z.of_nat (length found)) +:+ " micrograph files") ;;
     print ("Found " +:+ str_Z (Z.of_nat (length todo)) +:+ " unprocessed micrographs out of "
            +:+ str_Z (Z.of_nat (length found)) +:+ " total") ;;
     match job_range a (Z.of_nat (length todo)) with
     | Some (start_idx, end_idx) =>
         print ("Processing micrographs " +:+ str_Z (start_idx + 1) +:+ "-"
                +:+ str_Z end_idx +:+ " out of "
                +:+ str_Z (Z.of_nat (length (select a todo))))
     | None => ret tt
     end ;;
     successful <- in_turn (turn a (Z.of_nat (length (select a todo)))) 0 (select a todo) ;;
     print ("Successfully processed " +:+ str_Z successful +:+ "/"
            +:+ str_Z (Z.of_nat (length (select a todo))) +:+ " micrographs") ;;
     ret 0) w.
Proof.
  intros found todo Hfound Htodo. unfold MatchStage.main.
  unfold bind at 1, gets at 1. fold found.
  rewrite (bool_decide_eq_false_2 _ Hfound).
  unfold bind, gets, print, modify, ret. cbn [fs stdout]. fold todo.
  rewrite (bool_decide_eq_false_2 _ Htodo).
  destruct (job_range a (Z.of_nat (length todo))) as [[start_idx end_idx]|];
    (change 0 with (Z.of_nat 0) at 1; rewrite process_each_in_turn; unfold bind, ret;
     match goal with
     | |- context [in_turn ?b 0%nat ?xs ?w0] =>
         destruct (in_turn b 0%nat xs w0) as [w2 [count|e]]
     end; [now rewrite Z.add_0_l | reflexivity]).
Qed.

Lemma job_mode_select (a : args) (files : list string) (j k : Z) :
  job_idx a = Some j -> jobs_per_array a = Some k -> 1 <= j -> 0 <= k ->
  job_range a (Z.of_nat (length files))
  = Some ((j - 1) * k, Z.min (j * k) (Z.of_nat (length files)))
  /\ select a files = take (Z.to_nat k) (drop (Z.to_nat ((j - 1) * k)) files).
Proof.
  intros Hj Hk Hj1 Hk0.
  assert (job_range a (Z.of_nat (length files))
          = Some ((j - 1) * k, Z.min (j * k) (Z.of_nat (length files)))) as Hrange.
  { rewrite (job_range_array a _ j k Hj Hk). do 2 f_equal. f_equal. ring. }
  split; [exact Hrange |].
  unfold select. rewrite Hrange.
  replace (j * k) with ((j - 1) * k + k) by ring.
  apply RangeFacts.slice_block; nia.
Qed.

(** C2.  In array-job mode, with a 1-based job index [j] and a count
    [k] of items per job, [main] processes exactly the items whose
    indices lie in the half-open range from [(j-1)*k] to
    [min(j*k, n)]: the selection is this part of the list, in order,
    and [main] hands its items, and no others, to the per-item
    function in turn, each once, and reports how many of them
    succeeded.  A range that starts past the end of the list selects
    nothing, and [main] then ends with exit status 0 without
    processing an item.  The explicit start and end indices play no
    part in this mode, and with neither mode given the whole list is
    processed. *)
Theorem job_partition (a : args) (files : list string) (j k : Z) :
  job_idx a = Some j -> jobs_per_array a = Some k -> 1 <= j -> 0 <= k ->
  let n := Z.of_nat (length files) in
  let lo := (j - 1) * k in
  let hi := Z.min (j * k) n in
  let items := take (Z.to_nat k) (drop (Z.to_nat lo) files) in
  (forall (i : nat) (x : string),
     select a files !! i = Some x <->
     files !! (Z.to_nat lo + i)%nat = Some x /\ lo + Z.of_nat i < hi)
  /\ (n <= lo ->
      select a files = [] /\
      forall w : world,
        let found := sorted_glob (fs w) (join (micrographs_dir a) (pattern a)) in
        found <> [] -> unprocessed (fs w) (output_dir a) found = files -> files <> [] ->
        main a w =
          ({| fs := fs w;
              stdout := stdout w ++
                [ "Found " +:+ str_Z (Z.of_nat (length found)) +:+ " micrograph files";
                  "Found " +:+ str_Z n +:+ " unprocessed micrographs out of "
                    +:+ str_Z (Z.of_nat (length found)) +:+ " total";
                  "Processing micrographs " +:+ str_Z (lo + 1) +:+ "-" +:+ str_Z n
                    +:+ " out of 0";
                  "Successfully processed 0/0 micrographs" ] |}, Ok 0))
  /\ (forall s e : option Z,
      select {| micrographs_dir := micrographs_dir a; template_yaml := template_yaml a;
                ctfs_dir := ctfs_dir a; output_dir := output_dir a; gpu_ids := gpu_ids a;
                batch_size := batch_size a; pattern := pattern a;
                start_idx := s; end_idx := e;
                job_idx := job_idx a; jobs_per_array := jobs_per_array a |} files
      = select a files)
  /\ (forall a' : args,
      job_idx a' = None \/ jobs_per_array a' = None ->
      start_idx a' = None -> end_idx a' = None ->
      select a' files = files)
  /\ select a files = items
  /\ (forall w : world,
        let found := sorted_glob (fs w) (join (micrographs_dir a) (pattern a)) in
        found <> [] -> unprocessed (fs w) (output_dir a) found = files -> files <> [] ->
        main a w =
          (print ("Found " +:+ str_Z (Z.of_nat (length found)) +:+ " micrograph files") ;;
           print ("Found " +:+ str_Z n +:+ " unprocessed micrographs out of "
                  +:+ str_Z (Z.of_nat (length found)) +:+ " total") ;;
           print ("Processing micrographs " +:+ str_Z (lo + 1) +:+ "-" +:+ str_Z hi
                  +:+ " out of " +:+ str_Z (Z.of_nat (length items))) ;;
           successful <- in_turn (turn a (Z.of_nat (length items))) 0 items ;;
           print ("Successfully processed " +:+ str_Z successful +:+ "/"
                  +:+ str_Z (Z.of_nat (length items)) +:+ " micrographs") ;;
           ret 0) w)
  /\ (forall (s e : option Z) (w : world),
        main {| micrographs_dir := micrographs_dir a; template_yaml := template_yaml a;
                ctfs_dir := ctfs_dir a; output_dir := output_dir a; gpu_ids := gpu_ids a;
                batch_size := batch_size a; pattern := pattern a;
                start_idx := s; end_idx := e;
                job_idx := job_idx a; jobs_per_array := jobs_per_array a |} w
        = main a w)
  /\ (forall (a' : args) (w : world),
        job_idx a' = None \/ jobs_per_array a' = None ->
        start_idx a' = None -> end_idx a' = None ->
        let found := sorted_glob (fs w) (join (micrographs_dir a') (pattern a')) in
        found <> [] -> unprocessed (fs w) (output_dir a') found = files -> files <> [] ->
        main a' w =
          (print ("Found " +:+ str_Z (Z.of_nat (length found)) +:+ " micrograph files") ;;
           print ("Found " +:+ str_Z n +:+ " unprocessed micrographs out of "
                  +:+ str_Z (Z.of_nat (length found)) +:+ " total") ;;
           successful <- in_turn (turn a' n) 0 files ;;
           print ("Successfully processed " +:+ str_Z successful +:+ "/" +:+ str_Z n
                  +:+ " micrographs") ;;
           ret 0) w).
Proof.
  intros Hj Hk Hj1 Hk0 n lo hi items.
  assert (0 <= lo) as Hlo by (unfold lo; nia).
  assert (0 <= hi) as Hhi by (unfold hi, n; nia).
  destruct (job_mode_select a files j k Hj Hk Hj1 Hk0) as [Hrange Hitems].
  fold n lo hi in Hrange. fold lo items in Hitems.
  assert (select a files = Py.slice files lo hi) as Hsel
    by (unfold select; fold n; now rewrite Hrange).
  split; [| split; [| split; [| split; [| split; [| split; [| split]]]]]].
  - intros i x. rewrite Hsel. now apply SliceFacts.slice_lookup.
  - intros Hpast.
    assert (select a files = []) as Hnil
      by (rewrite Hsel; now apply SliceFacts.slice_past_end).
    split; [exact Hnil |].
    intros w found Hfound Htodo Hfiles.
    assert (hi = n) as Hhin by (unfold hi, lo in *; nia).
    subst found. rewrite (main_empty_selection a w lo n);
      rewrite ?Htodo; try assumption.
    + reflexivity.
    + fold n. rewrite Hrange. now rewrite Hhin.
  - intros s e. unfold select, job_range. simpl. now rewrite Hj, Hk.
  - intros a' Hmode Hs He. unfold select.
    now rewrite (job_range_none a' _ Hmode Hs He).
  - exact Hitems.
  - intros w found Hfound Htodo Hfiles. subst found.
    rewrite main_run by (rewrite ?Htodo; assumption).
    rewrite !Htodo. fold n. rewrite Hrange, Hitems. reflexivity.
  - intros s e w.
    set (a' := {| micrographs_dir := micrographs_dir a; template_yaml := template_yaml a;
                  ctfs_dir := ctfs_dir a; output_dir := output_dir a; gpu_ids := gpu_ids a;
                  batch_size := batch_size a; pattern := pattern a;
                  start_idx := s; end_idx := e;
                  job_idx := job_idx a; jobs_per_array := jobs_per_array a |}).
    set (found := sorted_glob (fs w) (join (micrographs_dir a) (pattern a))).
    set (todo := unprocessed (fs w) (output_dir a) found).
    assert (forall m : Z, job_range a' m = job_range a m) as Hsame_range
      by (intros m; unfold job_range; simpl; now rewrite Hj, Hk).
    assert (forall xs : list string, select a' xs = select a xs) as Hsame_select
      by (intros xs; unfold select; now rewrite Hsame_range).
    destruct (decide (found = [])) as [Hnone | Hfound].
    { rewrite (main_nothing_found a' w Hnone). now rewrite (main_nothing_found a w Hnone). }
    destruct (decide (todo = [])) as [Hdone | Htodo].
    { rewrite (main_nothing_left a' w Hfound Hdone).
      now rewrite (main_nothing_left a w Hfound Hdone). }
    rewrite (main_run a' w Hfound Htodo), (main_run a w Hfound Htodo).
    cbn [micrographs_dir pattern output_dir a']. fold found todo.
    rewrite Hsame_range, Hsame_select. reflexivity.
  - intros a' w Hmode Hs He found Hfound Htodo Hfiles. subst found.
    rewrite main_run by (rewrite ?Htodo; assumption).
    rewrite !Htodo. fold n.
    rewrite (job_range_none a' _ Hmode Hs He).
    assert (select a' files = files) as ->.
    { unfold select. now rewrite (job_range_none a' _ Hmode Hs He). }
    fold n. unfold bind at 3. unfold ret at 1. reflexivity.
Qed.


(** ** The rewriting of the result paths *)




(** ** The derived configuration *)

(** When the derivation succeeds, the template is a dict holding the
    two groups that are assigned into and the result group, and the
    derived document is the template with these five assignments. *)
Lemma update_config_inv (config config' : yaml F) (micrograph_path output_path : string)
    (defocus_1 defocus_2 astigmatism_angle : option F) (gpus : list Z) :
  update_config config micrograph_path defocus_1 defocus_2 astigmatism_angle
    output_path gpus = Ok config' ->
  exists (top og cc : gmap string (yaml F)) (group group' : yaml F),
    config = YMap top
    /\ top !! "optics_group" = Some (YMap og)
    /\ top !! "computational_config" = Some (YMap cc)
    /\ top !! "match_template_result" = Some group
    /\ rewritten (dirname output_path) (item_prefix micrograph_path) group group'
    /\ config' =
         YMap (<["match_template_result" := group']>
              (<["computational_config" := YMap (<["gpu_ids" := YSeq (map YInt gpus)]> cc)]>
              (<["optics_group" :=
                   YMap (<["astigmatism_angle" := yaml_of_float astigmatism_angle]>
                        (<["defocus_v" := yaml_of_float defocus_2]>
                        (<["defocus_u" := yaml_of_float defocus_1]> og)))]>
              (<["micrograph_path" := YStr micrograph_path]> top)))).
Proof.
  unfold update_config. intros H.
  destruct (setitem config _ _) as [c1|] eqn:E1; [| discriminate].
  apply YamlFacts.setitem_inv in E1 as (top & -> & ->). unfold obind at 1 in H.
  destruct (setitem2 _ "optics_group" "defocus_u" _) as [c2|] eqn:E2; [| discriminate].
  apply YamlFacts.setitem2_inv in E2 as (og & Hog & ->). unfold obind at 1 in H.
  rewrite lookup_insert_ne in Hog by done.
  destruct (setitem2 _ "optics_group" "defocus_v" _) as [c3|] eqn:E3; [| discriminate].
  apply YamlFacts.setitem2_inv in E3 as (og2 & Hog2 & ->). unfold obind at 1 in H.
  rewrite lookup_insert_eq in Hog2. injection Hog2 as <-. rewrite insert_insert_eq in H.
  destruct (setitem2 _ "optics_group" "astigmatism_angle" _) as [c4|] eqn:E4; [| discriminate].
  apply YamlFacts.setitem2_inv in E4 as (og3 & Hog3 & ->). unfold obind at 1 in H.
  rewrite lookup_insert_eq in Hog3. injection Hog3 as <-. rewrite insert_insert_eq in H.
  destruct (setitem2 _ "computational_config" "gpu_ids" _) as [c5|] eqn:E5; [| discriminate].
  apply YamlFacts.setitem2_inv in E5 as (cc & Hcc & ->). unfold obind at 1 in H.
  rewrite !lookup_insert_ne in Hcc by done.
  destruct (getitem _ "match_template_result") as [group|] eqn:E6; [| discriminate].
  apply YamlFacts.getitem_inv in E6 as (top' & [= <-] & Hgroup). unfold obind at 1 in H.
  rewrite !lookup_insert_ne in Hgroup by done.
  fold (item_prefix micrograph_path) in H.
  exists top, og, cc, group.
  destruct group as [| | | |s|l|m].
  - discriminate.
  - discriminate.
  - discriminate.
  - discriminate.
  - destruct s; [| discriminate]. injection H as <-.
    exists (YStr EmptyString). repeat (split; [assumption || reflexivity |]).
    f_equal. symmetry. apply insert_id. now rewrite !lookup_insert_ne by done.
  - destruct (rewrite_elems _ _ _ _ l) as [l'|] eqn:El; [| discriminate].
    unfold obind in H. simpl in H. injection H as <-.
    exists (YSeq l'). repeat (split; [assumption || reflexivity |]).
    split; [| reflexivity]. simpl. eauto.
  - destruct (rewrite_keys _ _ _ m) as [m'|] eqn:Em; [| discriminate].
    unfold obind in H. simpl in H. injection H as <-.
    exists (YMap m'). repeat (split; [assumption || reflexivity |]).
    split; [| reflexivity]. simpl. eauto.
Qed.


(** The run of [create_yaml_for_micrograph], step by step: the
    template is read and loaded, the updates are made, and only then
    is the output file written. *)
Lemma create_yaml_run (template_yaml_path micrograph_path output_path : string)
    (defocus_1 defocus_2 astigmatism_angle : option F) (gpus : list Z) (w : world) :
  create_yaml_for_micrograph template_yaml_path micrograph_path defocus_1 defocus_2
    astigmatism_angle output_path gpus w =
  match fs w !! template_yaml_path with
  | None => (w, Raise (Exc FileNotFoundError (no_such_file template_yaml_path)))
  | Some text =>
      match safe_load text with
      | Raise e => (w, Raise e)
      | Ok config =>
          match update_config config micrograph_path defocus_1 defocus_2
                  astigmatism_angle output_path gpus with
          | Raise e => (w, Raise e)
          | Ok config' =>
              ({| fs := <[output_path := dump config']> (fs w); stdout := stdout w |},
               Ok config')
          end
      end
  end.
Proof.
  unfold MatchStage.create_yaml_for_micrograph, bind, read_file, lift, write_file, modify, ret.
  destruct (fs w !! template_yaml_path) as [text|]; [| reflexivity].
  destruct (safe_load text) as [config|e]; [| reflexivity].
  now destruct (update_config config _ _ _ _ _ _).
Qed.







(** C6.  Deriving twice from the same template text and the same
    item inputs gives the same result and writes the same bytes to
    the output path, whatever else differs between the two runs; in
    particular a second run right after the first one leaves the
    files as the first one left them. *)
Theorem derivation_idempotent (template_yaml_path micrograph_path output_path : string)
    (defocus_1 defocus_2 astigmatism_angle : option F) (gpus : list Z) :
  let derive := create_yaml_for_micrograph template_yaml_path micrograph_path
                  defocus_1 defocus_2 astigmatism_angle output_path gpus in
  (forall w1 w2 : world,
     fs w1 !! template_yaml_path = fs w2 !! template_yaml_path ->
     (derive w1).2 = (derive w2).2
     /\ forall config', (derive w1).2 = Ok config' ->
          fs (derive w1).1 !! output_path = Some (dump config')
          /\ fs (derive w2).1 !! output_path = Some (dump config'))
  /\ (forall w : world,
       template_yaml_path <> output_path ->
       (derive (derive w).1).2 = (derive w).2
       /\ fs (derive (derive w).1).1 = fs (derive w).1).
Proof.
  intros derive.
  assert (forall w1 w2 : world,
             fs w1 !! template_yaml_path = fs w2 !! template_yaml_path ->
             (derive w1).2 = (derive w2).2
             /\ forall config', (derive w1).2 = Ok config' ->
                  fs (derive w1).1 = <[output_path := dump config']> (fs w1)
                  /\ fs (derive w2).1 = <[output_path := dump config']> (fs w2)) as Hsame.
  { intros w1 w2 Heq. unfold derive. rewrite !create_yaml_run, <- Heq.
    destruct (fs w1 !! template_yaml_path) as [text|]; [| split; [reflexivity | discriminate]].
    destruct (safe_load text) as [config|e]; [| split; [reflexivity | discriminate]].
    destruct (update_config config _ _ _ _ _ _) as [c|e];
      [| split; [reflexivity | discriminate]].
    split; [reflexivity |]. intros config' [= <-]. split; reflexivity. }
  split.
  - intros w1 w2 Heq. destruct (Hsame w1 w2 Heq) as [Hres Hfiles].
    split; [exact Hres |]. intros config' Hok.
    destruct (Hfiles config' Hok) as [-> ->]. now rewrite !lookup_insert_eq.
  - intros w Hne.
    assert (fs (derive w).1 !! template_yaml_path = fs w !! template_yaml_path) as Htpl.
    { unfold derive. rewrite create_yaml_run.
      destruct (fs w !! template_yaml_path) as [text|] eqn:Et; [| exact Et].
      destruct (safe_load text) as [config|e]; [| exact Et].
      destruct (update_config config _ _ _ _ _ _) as [c|e]; [| exact Et].
      simpl. rewrite lookup_insert_ne by (now apply not_eq_sym). exact Et. }
    destruct (Hsame (derive w).1 w Htpl) as [Hres Hfiles].
    split; [exact Hres |].
    destruct ((derive (derive w).1).2) as [c|e] eqn:Hsecond.
    + destruct (Hfiles c eq_refl) as [H1 H2]. rewrite H1, H2. apply insert_insert_eq.
    + clear Hfiles. unfold derive in Hsecond |- *. rewrite create_yaml_run in Hsecond |- *.
      fold derive in Hsecond |- *.
      destruct (fs (derive w).1 !! template_yaml_path) as [text|]; [| reflexivity].
      destruct (safe_load text) as [config|e']; [| reflexivity].
      now destruct (update_config config _ _ _ _ _ _).
Qed.


(** ** The resume filter *)

Lemma is_already_processed_spec (files : gmap string string)
    (micrograph_path output_dir : string) :
  is_already_processed files micrograph_path output_dir = false
  <-> files !! results_path micrograph_path output_dir = None.
Proof.
  unfold is_already_processed, path_exists. fold (results_path micrograph_path output_dir).
  rewrite bool_decide_eq_false, <- eq_None_not_Some. reflexivity.
Qed.

(** C3, for the match stage.  The resume filter keeps exactly the
    files whose results file is absent from the output directory, in
    their order; when every file found has its results, nothing is
    left and [main] ends with exit status 0 without processing an item. *)
Theorem resume_filter (files : gmap string string) (output_dir : string)
    (micrograph_files : list string) :
  unprocessed files output_dir micrograph_files =
    List.filter (fun x => bool_decide (files !! results_path x output_dir = None))
                micrograph_files
  /\ (forall x, x ∈ unprocessed files output_dir micrograph_files <->
                x ∈ micrograph_files /\ files !! results_path x output_dir = None)
  /\ ((forall x, x ∈ micrograph_files -> is_Some (files !! results_path x output_dir)) ->
      unprocessed files output_dir micrograph_files = []
      /\ forall (a : args) (w : world),
           fs w = files -> MatchStage.output_dir a = output_dir ->
           sorted_glob (fs w) (join (micrographs_dir a) (pattern a)) = micrograph_files ->
           micrograph_files <> [] ->
           main a w =
             ({| fs := fs w;
                 stdout := stdout w ++
                   [ "Found " +:+ str_Z (Z.of_nat (length micrograph_files))
                       +:+ " micrograph files";
                     "Found 0 unprocessed micrographs out of "
                       +:+ str_Z (Z.of_nat (length micrograph_files)) +:+ " total";
                     "No unprocessed micrographs to process. Exiting." ] |}, Ok 0)).
Proof.
  assert (unprocessed files output_dir micrograph_files =
          List.filter (fun x => bool_decide (files !! results_path x output_dir = None))
                      micrograph_files) as Heq.
  { unfold unprocessed. induction micrograph_files as [|x xs IH]; [reflexivity |].
    simpl. rewrite IH.
    destruct (is_already_processed files x output_dir) eqn:E; simpl.
    - rewrite bool_decide_eq_false_2; [reflexivity |].
      intros Hn. apply is_already_processed_spec in Hn. congruence.
    - apply is_already_processed_spec in E. now rewrite bool_decide_eq_true_2. }
  assert (forall x, x ∈ unprocessed files output_dir micrograph_files <->
                    x ∈ micrograph_files /\ files !! results_path x output_dir = None) as Hin.
  { intros x. rewrite Heq, !list_elem_of_In, filter_In, bool_decide_eq_true. reflexivity. }
  split; [exact Heq |]. split; [exact Hin |].
  intros Hall.
  assert (unprocessed files output_dir micrograph_files = []) as Hnil.
  { destruct (unprocessed files output_dir micrograph_files) as [|x xs] eqn:E; [reflexivity |].
    assert (x ∈ x :: xs) as Hx by (now left).
    apply Hin in Hx as [Hx Hnone]. apply Hall in Hx as [v Hv]. congruence. }
  split; [exact Hnil |].
  intros a w <- <- <- Hne. now apply main_nothing_left.
Qed.

(** ** The calibration file *)

Lemma scan_skip (line : string) (rest : list string) :
  eligible line = false ->
  scan_ctf_lines float_of_str (line :: rest) = scan_ctf_lines float_of_str rest.
Proof.
  unfold eligible. simpl. destruct (startswith "#" line); [reflexivity |]. simpl.
  destruct (split (strip line)) as [|p0 [|p1 [|p2 [|p3 [|p4 tail]]]]]; try reflexivity.
  discriminate.
Qed.

Lemma scan_skip_all (skipped rest : list string) :
  Forall (fun line => eligible line = false) skipped ->
  scan_ctf_lines float_of_str (skipped ++ rest) = scan_ctf_lines float_of_str rest.
Proof.
  induction 1 as [|line skipped Hline _ IH]; [reflexivity |].
  simpl app. now rewrite scan_skip.
Qed.


Lemma scan_none (lines : list string) :
  Forall (fun line => eligible line = false) lines ->
  scan_ctf_lines float_of_str lines = Ok (None, None, None).
Proof.
  intros H. rewrite <- (app_nil_r lines). now rewrite scan_skip_all.
Qed.

(** The per-item function up to the answer of [get_ctf_parameters]. *)
Lemma process_micrograph_run (micrograph_path template_yaml ctfs_dir output_dir : string)
    (gpus : list Z) (batch : Z) (w : world) (number text : string) :
  extract_micrograph_number (basename micrograph_path) = Some number ->
  let ctf_file_path := join ctfs_dir ("xenon_" +:+ number +:+ "_0.0_diagnostic.txt") in
  fs w !! ctf_file_path = Some text ->
  process_micrograph micrograph_path template_yaml ctfs_dir output_dir gpus batch w =
  match scan_ctf_lines float_of_str (readlines text) with
  | Raise e => (w, Raise e)
  | Ok (None, _, _) =>
      ({| fs := fs w;
          stdout := stdout w ++
            ["Could not extract defocus parameters from " +:+ ctf_file_path] |}, Ok false)
  | Ok (Some d1, defocus_2, astigmatism_angle) =>
      let micrograph_basename := basename micrograph_path in
      let custom_yaml_path :=
        join output_dir ((splitext micrograph_basename).1 +:+ "_config.yaml") in
      match create_yaml_for_micrograph template_yaml micrograph_path (Some d1) defocus_2
              astigmatism_angle custom_yaml_path gpus w with
      | (w1, Raise e) => (w1, Raise e)
      | (w1, Ok _) => run_guarded micrograph_basename custom_yaml_path output_dir gpus batch w1
      end
  end.
Proof.
  intros Hnum ctf_file_path Hctf. subst ctf_file_path.
  unfold MatchStage.process_micrograph. rewrite Hnum.
  unfold MatchStage.get_ctf_parameters, bind, exists_, gets, path_exists, read_file, lift.
  rewrite bool_decide_eq_true_2 by (rewrite Hctf; eauto).
  change (negb true) with false. cbv beta iota. rewrite Hctf.
  destruct (scan_ctf_lines float_of_str (readlines text)) as [[[d1 d2] ang]|e];
    [| reflexivity].
  destruct d1 as [d1|]; reflexivity.
Qed.

(** C7, as the code has it.  Parsing skips the lines that start with
    [#] and the lines with fewer than five fields, and returns the
    fields 1, 2 and 3 of the first line that is left, converted to
    floats.  When no line is left, the item fails without an
    exception: a message is printed, the item is not counted, and the
    loop goes on with the next item. *)
Theorem ctf_parameters_parsed :
  (forall (skipped rest : list string) (line p0 p1 p2 p3 p4 : string) (tail : list string)
          (defocus_1 defocus_2 astigmatism_angle : F),
     Forall (fun l => eligible l = false) skipped ->
     startswith "#" line = false ->
     split (strip line) = p0 :: p1 :: p2 :: p3 :: p4 :: tail ->
     float_of_str p1 = Some defocus_1 ->
     float_of_str p2 = Some defocus_2 ->
     float_of_str p3 = Some astigmatism_angle ->
     scan_ctf_lines float_of_str (skipped ++ line :: rest)
     = Ok (Some defocus_1, Some defocus_2, Some astigmatism_angle))
  /\ (forall (a : args) (n i successful : Z) (micrograph_file : string)
             (rest : list string) (w : world) (number text : string),
        extract_micrograph_number (basename micrograph_file) = Some number ->
        let ctf_file_path :=
          join (ctfs_dir a) ("xenon_" +:+ number +:+ "_0.0_diagnostic.txt") in
        fs w !! ctf_file_path = Some text ->
        Forall (fun l => eligible l = false) (readlines text) ->
        process_each a n i (micrograph_file :: rest) successful w =
        process_each a n (i + 1) rest successful
          {| fs := fs w;
             stdout := stdout w ++
               [ "Processing " +:+ str_Z (i + 1) +:+ "/" +:+ str_Z n +:+ ": "
                   +:+ basename micrograph_file;
                 "Could not extract defocus parameters from " +:+ ctf_file_path ] |}).
Proof.
  split.
  - intros skipped rest line p0 p1 p2 p3 p4 tail d1 d2 ang Hskip Hline Hparts H1 H2 H3.
    rewrite scan_skip_all by exact Hskip. simpl. rewrite Hline, Hparts.
    unfold float. now rewrite H1, H2, H3.
  - intros a n i successful micrograph_file rest w number text Hnum ctf_file_path Hctf Hnone.
    simpl. unfold bind at 1. unfold print at 1, modify.
    unfold bind at 1.
    rewrite (process_micrograph_run _ _ _ _ _ _ _ number text Hnum) by exact Hctf.
    rewrite (scan_none _ Hnone). simpl. fold ctf_file_path.
    now rewrite <- app_assoc.
Qed.


(** ** Failures of the engine *)




End Facts.
End MatchFacts.

(** * The refine stage *)
Module RefineFacts.
Import PyStr PosixPath Py Yaml World RefineStage.
#[local] Open Scope Z_scope.

Section Facts.
Context {F : Type}.
Variable safe_load : string -> outcome (yaml F).
Variable dump : yaml F -> string.
Variable read_csv : string -> outcome Z.
Variable refine_template :
  gmap string string -> string -> string -> Z -> gmap string string * outcome Z.
Variable sorted_glob : gmap string string -> string -> list string.

Abbreviation process_each := (process_each safe_load dump read_csv refine_template).
Abbreviation process_micrograph_refinement :=
  (process_micrograph_refinement safe_load dump read_csv refine_template).
Abbreviation run_guarded := (run_guarded refine_template).
Abbreviation create_yaml_for_refinement := (create_yaml_for_refinement safe_load dump).





End Facts.
End RefineFacts.

(** * The constrained search *)
Module ConstrainedFacts.
Import PyStr PosixPath Py Yaml ConstrainedStage ConstrainedProps.
#[local] Open Scope Z_scope.

Section Facts.
Context {F Manager : Type}.
Variable safe_load : string -> outcome (yaml F).
Variable key_order : string -> list string.
Variable dump : yaml F -> string.
Variable str_float : F -> string.
Variable now : nat -> string.
Variable read_csv : string -> outcome Z.
Variable read_csv_no_header : string -> outcome Z.
Variable torch_probe : outcome (option Z).
Variable from_yaml : gmap string string -> string -> outcome Manager.
Variable run_constrained_search :
  gmap string string -> Manager -> string -> F -> Z -> gmap string string * outcome Z.
Variable access_W_OK : gmap string string -> string -> bool.
Variable getcwd : string.
Variable type_name : exn -> string.
Variable format_exc : exn -> string.
Variable open_for_writing : gmap string string -> string -> outcome unit.
Variable sorted_glob : gmap string string -> string -> list string.

Abbreviation log_error := (log_error now).
Abbreviation log_info := (log_info now).

Lemma safe_ret {A} (x : A) (P : A -> Prop) : P x -> safe (ret x) P.
Proof. intros HP w Hw. exists w, x. repeat split; [exact HP | reflexivity]. Qed.

Lemma safe_bind {A B} (m : M world A) (k : A -> M world B)
    (Q : A -> Prop) (P : B -> Prop) :
  safe m Q -> (forall x, Q x -> safe (k x) P) -> safe (bind m k) P.
Proof.
  intros Hm Hk w Hw. destruct (Hm w Hw) as (w1 & x & Em & HQ & Hlog & Hout).
  assert (log_writable w1) as Hw1 by (unfold log_writable; now rewrite Hlog).
  destruct (Hk x HQ w1 Hw1) as (w2 & y & Ek & HP & Hlog2 & Hout2).
  exists w2, y. unfold bind. rewrite Em, Ek.
  repeat split; [exact HP | congruence | now transitivity (stdout w1)].
Qed.

Lemma safe_print (msg : string) : safe (print msg) (fun _ => True).
Proof.
  intros w Hw. eexists _, tt. unfold print, modify. simpl.
  repeat split. now apply prefix_app_r.
Qed.

(** A log call from a state in which the log can be written to. *)
Lemma log_line_run (label message : string) (also_print : bool) (w : world) :
  log_writable w ->
  let log_message := "[" +:+ now (clock w) +:+ "] " +:+ label +:+ message in
  exists w',
    (timestamp <- timestamp now ;;
     let log_message := "[" +:+ timestamp +:+ "] " +:+ label +:+ message in
     (if also_print then print message else ret tt) ;;
     f <- gets error_log_file ;;
     match f with
     | Some f => file_write f (log_message +:+ NL)
     | None => ret tt
     end)%py w = (w', Ok tt)
    /\ error_log_file w' = error_log_file w
    /\ stdout w' = stdout w ++ (if also_print then [message] else [])
    /\ clock w' = S (clock w).
Proof.
  intros Hw log_message. unfold log_writable in Hw.
  unfold bind, timestamp, gets, print, modify, ret.
  destruct also_print; simpl; destruct (error_log_file w) as [f|] eqn:Ef; simpl;
    unfold file_write; try rewrite Hw; unfold modify; simpl;
    eexists; repeat split; simpl; try exact Ef; try now rewrite app_nil_r.
Qed.

Lemma log_error_run (message : string) (also_print : bool) (w : world) :
  log_writable w ->
  exists w', log_error message also_print w = (w', Ok tt)
    /\ error_log_file w' = error_log_file w
    /\ stdout w' = stdout w ++ (if also_print then [message] else []).
Proof.
  intros Hw. destruct (log_line_run "" message also_print w Hw) as (w' & E & Hlog & Hout & _).
  exists w'. repeat split; assumption.
Qed.

Lemma log_info_run (message : string) (also_print : bool) (w : world) :
  log_writable w ->
  exists w', log_info message also_print w = (w', Ok tt)
    /\ error_log_file w' = error_log_file w
    /\ stdout w' = stdout w ++ (if also_print then [message] else []).
Proof.
  intros Hw.
  destruct (log_line_run "INFO: " message also_print w Hw) as (w' & E & Hlog & Hout & _).
  exists w'. repeat split; assumption.
Qed.

Lemma safe_log_error (message : string) (also_print : bool) :
  safe (log_error message also_print) (fun _ => True).
Proof.
  intros w Hw. destruct (log_error_run message also_print w Hw) as (w' & E & Hlog & Hout).
  exists w', tt. repeat split; [exact E | exact Hlog |]. rewrite Hout. now apply prefix_app_r.
Qed.

Lemma safe_log_info (message : string) (also_print : bool) :
  safe (log_info message also_print) (fun _ => True).
Proof.
  intros w Hw. destruct (log_info_run message also_print w Hw) as (w' & E & Hlog & Hout).
  exists w', tt. repeat split; [exact E | exact Hlog |]. rewrite Hout. now apply prefix_app_r.
Qed.

Lemma safe_for_each {A} (xs : list A) (body : A -> M world unit) :
  (forall x, safe (body x) (fun _ => True)) -> safe (for_each xs body) (fun _ => True).
Proof.
  intros Hbody. induction xs as [|x xs IH]; simpl.
  - now apply safe_ret.
  - apply safe_bind with (Q := fun _ => True); [apply Hbody | intros _ _; exact IH].
Qed.


Abbreviation on_exception := (on_exception str_float now getcwd type_name format_exc).
Abbreviation preflight :=
  (preflight safe_load key_order now read_csv_no_header torch_probe from_yaml).
Abbreviation run_guarded :=
  (run_guarded safe_load key_order str_float now read_csv_no_header torch_probe from_yaml
               run_constrained_search access_W_OK getcwd type_name format_exc).
Abbreviation item_head :=
  (item_head safe_load key_order dump str_float now read_csv read_csv_no_header torch_probe from_yaml
             run_constrained_search access_W_OK getcwd type_name format_exc).
Abbreviation process_each :=
  (process_each safe_load key_order dump str_float now read_csv read_csv_no_header torch_probe
                from_yaml run_constrained_search access_W_OK getcwd type_name format_exc).

(** ** After the loop *)

Lemma close_log_closed (w : world) :
  match error_log_file (close_log w).1 with
  | Some f => closed f = true
  | None => True
  end.
Proof. unfold close_log, modify. simpl. now destruct (error_log_file w). Qed.

(** With the log closed, the statements after the loop only print:
    the summary for the log is skipped. *)
Lemma final_summary_silent (error_log_path : string) (successful n : Z) (w : world) :
  match error_log_file w with
  | Some f => closed f = true
  | None => True
  end ->
  final_summary now error_log_path successful n w =
    ({| fs := fs w;
        stdout := stdout w ++
          [ "Successfully completed constrained search for " +:+ str_Z successful
              +:+ "/" +:+ str_Z n +:+ " micrographs";
            "Detailed error log saved to: " +:+ error_log_path ];
        error_log_file := error_log_file w;
        clock := clock w |}, Ok 0).
Proof.
  intros Hclosed. unfold final_summary, bind, gets, print, modify, ret. cbv beta iota.
  destruct (error_log_file w) as [f|] eqn:Ef; [rewrite Hclosed |]; simpl;
    rewrite ?Ef, <- app_assoc; reflexivity.
Qed.


End Facts.
End ConstrainedFacts.

(** * The particle export *)
Module ExportFacts.
Import PyStr ExportRelion.
#[local] Open Scope Z_scope.

(** A clamped region without width or without height makes the
    particle a warning, not an entry of the stack. *)
Lemma crop_degenerate {Px} (zero : Px) (micrograph : array) (box_size center_x center_y : Z) :
  let half_box := box_size / 2 in
  Z.min (width micrograph) (center_x + half_box) <= Z.max 0 (center_x - half_box)
  \/ Z.min (height micrograph) (center_y + half_box) <= Z.max 0 (center_y - half_box) ->
  crop_particle zero micrograph box_size center_x center_y =
    inl ("Warning: Invalid box coordinates for particle at (" +:+ str_Z center_x
         +:+ ", " +:+ str_Z center_y +:+ ")").
Proof.
  intros half_box H. unfold crop_particle. fold half_box.
  destruct H as [H | H]; apply Z.leb_le in H; rewrite H; [reflexivity |].
  now rewrite orb_true_r.
Qed.

Lemma crop_particles_skip {Px} (zero : Px) (micrograph : array) (box_size : Z)
    (center_x center_y : Z) (rest : list (Z * Z)) (warning : string) :
  crop_particle zero micrograph box_size center_x center_y = inl warning ->
  crop_particles zero micrograph box_size ((center_x, center_y) :: rest) =
    ((crop_particles zero micrograph box_size rest).1,
     warning :: (crop_particles zero micrograph box_size rest).2).
Proof.
  intros H. simpl. rewrite H.
  now destruct (crop_particles zero micrograph box_size rest).
Qed.

End ExportFacts.

(** * Further facts about strings *)
Module StringFacts.
Import PyStr NameProps.
#[local] Open Scope Z_scope.

Lemma strip_prefix_append (p s : string) : strip_prefix p (p +:+ s) = Some s.
Proof.
  induction p as [|a p IH]; [now destruct s |].
  rewrite PathFacts.append_cons. simpl. now rewrite Ascii.eqb_refl.
Qed.

Lemma span_digits_append (d rest : string) :
  forallb is_digit (String.list_ascii_of_string d) = true ->
  match rest with String a _ => is_digit a = false | EmptyString => True end ->
  span_digits (d +:+ rest) = (d, rest).
Proof.
  intros Hd Hrest. induction d as [|a d IH].
  - rewrite PathFacts.append_nil. destruct rest as [|b r]; [reflexivity |].
    simpl. now rewrite Hrest.
  - simpl in Hd. apply andb_true_iff in Hd as [Ha Hd].
    rewrite PathFacts.append_cons. simpl. rewrite Ha, (IH Hd). reflexivity.
Qed.

Lemma is_number_inv (d : string) :
  is_number d = true ->
  is_empty d = false /\ forallb is_digit (String.list_ascii_of_string d) = true.
Proof.
  unfold is_number. intros H. apply andb_true_iff in H as [H1 H2].
  now apply negb_true_iff in H1.
Qed.

Lemma append_inj_l (a x y : string) : a +:+ x = a +:+ y -> x = y.
Proof.
  induction a as [|c a IH]; [now rewrite !PathFacts.append_nil |].
  rewrite !PathFacts.append_cons. intros [= H]. now apply IH.
Qed.

Lemma length_append (x t : string) :
  String.length (x +:+ t) = (String.length x + String.length t)%nat.
Proof.
  induction x as [|c x IH]; [now rewrite PathFacts.append_nil |].
  rewrite PathFacts.append_cons. simpl. now rewrite IH.
Qed.

Lemma append_inj_r (x y t : string) : x +:+ t = y +:+ t -> x = y.
Proof.
  revert y. induction x as [|c x IH]; intros [|d y] H.
  - reflexivity.
  - apply (f_equal String.length) in H. rewrite !length_append in H. simpl in H. lia.
  - apply (f_equal String.length) in H. rewrite !length_append in H. simpl in H. lia.
  - rewrite !PathFacts.append_cons in H. injection H as -> H. f_equal. now apply IH.
Qed.

End StringFacts.

(** * More about the match stage *)
Module MatchStageFacts.
Import PyStr PosixPath Py Yaml World MatchStage MatchProps NameProps.
#[local] Open Scope Z_scope.

Lemma search_xenon_pair_hit (s : string) (g : string * string) :
  match_xenon_pair s = Some g -> search_xenon_pair s = Some g.
Proof. intros H. destruct s; [discriminate H |]. cbn [search_xenon_pair]. now rewrite H. Qed.

(** X7.  A file name that starts with [xenon_], a number, an underscore,
    a second number and an underscore has the two numbers, joined by
    an underscore, as its micrograph number. *)
Theorem micrograph_number_of_name (a b rest : string) :
  is_number a = true -> is_number b = true ->
  extract_micrograph_number ("xenon_" +:+ a +:+ "_" +:+ b +:+ "_" +:+ rest)
  = Some (a +:+ "_" +:+ b).
Proof.
  intros Ha Hb.
  apply StringFacts.is_number_inv in Ha as [Ha1 Ha2].
  apply StringFacts.is_number_inv in Hb as [Hb1 Hb2].
  unfold extract_micrograph_number.
  rewrite (search_xenon_pair_hit _ (a, b)); [reflexivity |].
  unfold match_xenon_pair.
  rewrite StringFacts.strip_prefix_append.
  rewrite (StringFacts.span_digits_append a) by (exact Ha2 || reflexivity).
  rewrite Ha1, StringFacts.strip_prefix_append.
  rewrite (StringFacts.span_digits_append b) by (exact Hb2 || reflexivity).
  now rewrite Hb1, StringFacts.strip_prefix_append.
Qed.


Section Facts.
Context {F : Type}.
Variable float_of_str : string -> option F.
Variable safe_load : string -> outcome (yaml F).
Variable dump : yaml F -> string.
Variable match_template : gmap string string -> string -> Z -> gmap string string * outcome string.
Variable sorted_glob : gmap string string -> string -> list string.

Abbreviation main := (main float_of_str safe_load dump match_template sorted_glob).
Abbreviation process_each := (process_each float_of_str safe_load dump match_template).
Abbreviation process_micrograph := (process_micrograph float_of_str safe_load dump match_template).
Abbreviation run_guarded := (run_guarded match_template).
Abbreviation create_yaml_for_micrograph := (create_yaml_for_micrograph safe_load dump).

(** The [try] statement answers [True] only after it wrote the table. *)
Lemma run_guarded_true (micrograph_basename custom_yaml_path output_dir : string)
    (gpus : list Z) (batch : Z) (w w' : world) :
  run_guarded micrograph_basename custom_yaml_path output_dir gpus batch w = (w', Ok true) ->
  exists csv : string,
    fs w' !! join output_dir ((splitext micrograph_basename).1 +:+ "_results.csv") = Some csv.
Proof.
  unfold MatchStage.run_guarded, try_except_Exception, bind, print, modify, call, write_file, ret.
  simpl. destruct (match_template (fs w) custom_yaml_path batch) as [files' [csv|e]].
  - intros [= <-]. exists csv. simpl. apply lookup_insert_eq.
  - destruct e; simpl; discriminate.
Qed.

(** X1.  When the per-item function of the match stage answers
    [True], the results table of the item is in the output directory,
    under the very path that the resume filter tests: the item counts
    as processed from then on. *)
Theorem success_leaves_results (micrograph_path template_yaml ctfs_dir output_dir : string)
    (gpus : list Z) (batch : Z) (w w' : world) :
  process_micrograph micrograph_path template_yaml ctfs_dir output_dir gpus batch w
  = (w', Ok true) ->
  exists csv : string,
    fs w' !! results_path micrograph_path output_dir = Some csv
    /\ is_already_processed (fs w') micrograph_path output_dir = true.
Proof.
  intros H.
  assert (exists csv, fs w' !! results_path micrograph_path output_dir = Some csv) as [csv Hcsv].
  { destruct (extract_micrograph_number (basename micrograph_path)) as [number|] eqn:Hnum.
    - destruct (fs w !! join ctfs_dir ("xenon_" +:+ number +:+ "_0.0_diagnostic.txt"))
        as [text|] eqn:Hctf.
      + rewrite (MatchFacts.process_micrograph_run float_of_str safe_load dump match_template
                   _ _ _ _ _ _ _ number text Hnum)
          in H by exact Hctf.
        destruct (scan_ctf_lines float_of_str (readlines text)) as [[[[d1|] d2] ang]|e];
          try discriminate.
        cbv zeta in H.
        destruct (MatchStage.create_yaml_for_micrograph _ _ _ _ _ _ _ _ _ w) as [w1 [c|e]];
          [| discriminate].
        now apply run_guarded_true in H.
      + unfold MatchStage.process_micrograph in H. rewrite Hnum in H.
        unfold bind, exists_, gets, path_exists, print, modify, ret in H.
        rewrite bool_decide_eq_false_2 in H by (rewrite Hctf; now intros [? ?]).
        discriminate.
    - unfold MatchStage.process_micrograph in H. rewrite Hnum in H. discriminate. }
  exists csv. split; [exact Hcsv |].
  unfold is_already_processed, path_exists. fold (results_path micrograph_path output_dir).
  apply bool_decide_eq_true_2. rewrite Hcsv. eauto.
Qed.


(** X2.  The exit status of the match stage tells only whether the
    pattern matched a file: [main] returns 1 when no micrograph file
    is found, and nothing was written then; whenever it returns
    otherwise, the status is 0, however many items failed. *)
Theorem exit_status_of_main (a : args) (w w' : world) (status : Z) :
  main a w = (w', Ok status) ->
  let found := sorted_glob (fs w) (join (micrographs_dir a) (pattern a)) in
  (status = 1 /\ found = [] /\ fs w' = fs w)
  \/ (status = 0 /\ found <> []).
Proof.
  intros H found. unfold MatchStage.main in H.
  unfold bind at 1, gets at 1 in H. fold found in H.
  destruct (bool_decide (found = [])) eqn:E.
  - left. apply bool_decide_eq_true in E.
    unfold bind, print, modify, ret in H. injection H as <- <-. now repeat split.
  - right. apply bool_decide_eq_false in E. split; [| exact E].
    unfold bind at 1, print at 1, modify in H.
    unfold bind at 1, gets at 1 in H. cbn [fs] in H.
    unfold bind at 1, print at 1, modify in H.
    destruct (bool_decide (unprocessed (fs w) (output_dir a) found = [])).
    + unfold bind, print, modify, ret in H. now injection H as _ <-.
    + unfold bind at 1 in H.
      destruct (job_range a _) as [[lo hi]|];
        unfold print at 1, modify, ret at 1 in H;
        unfold bind at 1 in H;
        match type of H with
        | context [MatchStage.process_each ?f ?l ?d ?m ?a ?n ?i ?xs ?s ?w0] =>
            destruct (MatchStage.process_each f l d m a n i xs s w0) as [w2 [count|e]]
        end;
        try discriminate;
        unfold bind, print, modify, ret in H; now injection H as _ <-.
Qed.

(** X3.  The derived configuration of the match stage holds the
    item's inputs: the micrograph path, the three calibration values
    in [optics_group], and the GPU ids in [computational_config]. *)
Theorem derived_config_assigned (template_yaml_path micrograph_path output_path : string)
    (defocus_1 defocus_2 astigmatism_angle : option F) (gpus : list Z)
    (w w' : world) (config' : yaml F) :
  create_yaml_for_micrograph template_yaml_path micrograph_path defocus_1 defocus_2
    astigmatism_angle output_path gpus w = (w', Ok config') ->
  lookup_path ["micrograph_path"] config' = Some (YStr micrograph_path)
  /\ lookup_path ["optics_group"; "defocus_u"] config' = Some (yaml_of_float defocus_1)
  /\ lookup_path ["optics_group"; "defocus_v"] config' = Some (yaml_of_float defocus_2)
  /\ lookup_path ["optics_group"; "astigmatism_angle"] config'
     = Some (yaml_of_float astigmatism_angle)
  /\ lookup_path ["computational_config"; "gpu_ids"] config' = Some (YSeq (map YInt gpus)).
Proof.
  rewrite MatchFacts.create_yaml_run. intros H.
  destruct (fs w !! template_yaml_path) as [text|]; [| discriminate].
  destruct (safe_load text) as [config|e]; [| discriminate].
  destruct (update_config config _ _ _ _ _ _) as [c|e] eqn:Hup; [| discriminate].
  injection H as _ <-.
  apply MatchFacts.update_config_inv in Hup
    as (top & og & cc & group & group' & -> & Hog & Hcc & Hgroup & _ & ->).
  simpl. repeat (rewrite lookup_insert_eq || rewrite lookup_insert_ne by done).
  now repeat split.
Qed.


(** X4.  A template that lacks one of the three groups makes the
    derivation raise [KeyError] for that group, and no derived
    configuration is written: the files stay as they were. *)
Theorem template_missing_group (template_yaml_path micrograph_path output_path : string)
    (defocus_1 defocus_2 astigmatism_angle : option F) (gpus : list Z)
    (w : world) (text : string) (top : gmap string (yaml F)) (key : string) :
  fs w !! template_yaml_path = Some text ->
  safe_load text = Ok (YMap top) ->
  key ∈ MatchGroups.required_groups ->
  top !! key = None ->
  (forall k, k ∈ MatchGroups.required_groups -> k <> key ->
             exists m, top !! k = Some (YMap m)) ->
  create_yaml_for_micrograph template_yaml_path micrograph_path defocus_1 defocus_2
    astigmatism_angle output_path gpus w
  = (w, Raise (Exc KeyError ("'" +:+ key +:+ "'"))).
Proof.
  intros Hfile Hload Hkey Hnone Hothers.
  rewrite MatchFacts.create_yaml_run, Hfile, Hload.
  assert (update_config (YMap top) micrograph_path defocus_1 defocus_2 astigmatism_angle
            output_path gpus = Raise (Exc KeyError ("'" +:+ key +:+ "'"))) as ->;
    [| reflexivity].
  unfold MatchGroups.required_groups in Hkey, Hothers.
  assert (forall k, k ∈ ["optics_group"; "computational_config"; "match_template_result"]
                    -> k = key \/ exists m, top !! k = Some (YMap m)) as Hgroups.
  { intros k Hk. destruct (decide (k = key)) as [-> | Hne]; [now left | right].
    now apply Hothers. }
  unfold update_config, setitem2, getitem, setitem, obind. simpl.
  rewrite lookup_insert_ne by done.
  destruct (Hgroups "optics_group") as [<- | [og Hog]]; [now repeat constructor | now rewrite Hnone |].
  rewrite Hog. simpl. rewrite lookup_insert_eq. simpl. rewrite lookup_insert_eq. simpl.
  repeat (rewrite lookup_insert_eq || rewrite lookup_insert_ne by done).
  destruct (Hgroups "computational_config") as [<- | [cc Hcc]];
    [now repeat constructor | now rewrite Hnone |].
  rewrite Hcc. simpl.
  repeat (rewrite lookup_insert_eq || rewrite lookup_insert_ne by done).
  destruct (Hgroups "match_template_result") as [<- | [g Hg]];
    [now repeat constructor | now rewrite Hnone |].
  exfalso. repeat (apply elem_of_cons in Hkey as [-> | Hkey]); try congruence.
  inversion Hkey.
Qed.

(** X5.  A calibration line that is read but holds a field that is
    no number makes [float] raise [ValueError] outside every [try]
    statement: the exception leaves the loop of [main], and the items
    after it are not processed. *)
Theorem bad_calibration_number_stops_run (a : args) (n i successful : Z)
    (micrograph_file : string) (rest : list string) (w : world) (number text : string)
    (skipped more : list string) (line p0 p1 p2 p3 p4 : string) (tail : list string) :
  extract_micrograph_number (basename micrograph_file) = Some number ->
  fs w !! join (ctfs_dir a) ("xenon_" +:+ number +:+ "_0.0_diagnostic.txt") = Some text ->
  readlines text = skipped ++ line :: more ->
  Forall (fun l => eligible l = false) skipped ->
  startswith "#" line = false ->
  split (strip line) = p0 :: p1 :: p2 :: p3 :: p4 :: tail ->
  float_of_str p1 = None \/ float_of_str p2 = None \/ float_of_str p3 = None ->
  exists msg : string,
    process_each a n i (micrograph_file :: rest) successful w =
      ({| fs := fs w;
          stdout := stdout w ++
            ["Processing " +:+ str_Z (i + 1) +:+ "/" +:+ str_Z n +:+ ": "
             +:+ basename micrograph_file] |},
       Raise (Exc ValueError msg)).
Proof.
  intros Hnum Hctf Hlines Hskip Hline Hparts Hbad.
  assert (exists msg, scan_ctf_lines float_of_str (readlines text)
                      = Raise (Exc ValueError msg)) as [msg Hscan].
  { rewrite Hlines, MatchFacts.scan_skip_all by exact Hskip.
    simpl. rewrite Hline, Hparts. unfold float, obind.
    destruct (float_of_str p1); [| eauto].
    destruct (float_of_str p2); [| eauto].
    destruct (float_of_str p3); [| eauto].
    destruct Hbad as [? | [? | ?]]; discriminate. }
  exists msg. simpl. unfold bind at 1. unfold print at 1, modify. unfold bind at 1.
  rewrite (MatchFacts.process_micrograph_run float_of_str safe_load dump match_template
             _ _ _ _ _ _ _ number text Hnum) by exact Hctf.
  now rewrite Hscan.
Qed.

Lemma take_chars_free (c : ascii) (n : nat) (s : string) :
  rfind c s = -1 -> rfind c (take_chars n s) = -1.
Proof.
  revert n. induction s as [|a r IH]; intros [|n] H; try reflexivity.
  apply PathFacts.rfind_free_inv in H as [Ha Hr]. simpl. rewrite (IH n Hr). simpl. now rewrite Ha.
Qed.

(** The stem of a file name holds no separator. *)
Lemma stem_free (p : string) : rfind sep (splitext (basename p)).1 = -1.
Proof.
  pose proof (PathFacts.basename_free p) as Hb. unfold splitext.
  destruct (_ && _); [| exact Hb]. simpl. unfold slice_to. now apply take_chars_free.
Qed.

Lemma join_inj (d x y : string) :
  rfind sep x = -1 -> rfind sep y = -1 -> join d x = join d y -> x = y.
Proof.
  intros Hx Hy. unfold join.
  rewrite (PathFacts.free_startswith _ _ Hx), (PathFacts.free_startswith _ _ Hy).
  destruct (is_empty d || endswith sep d); intros H.
  - now apply StringFacts.append_inj_l in H.
  - apply StringFacts.append_inj_l in H. now apply StringFacts.append_inj_l in H.
Qed.

(** X6.  The results tables of two micrographs whose file names
    differ before the extension lie under different paths, so that
    the results of one item never make the other one count as
    processed. *)
Theorem results_of_other_item (files : gmap string string)
    (first second output_dir csv : string) :
  (splitext (basename first)).1 <> (splitext (basename second)).1 ->
  results_path first output_dir <> results_path second output_dir
  /\ is_already_processed (<[results_path first output_dir := csv]> files) second output_dir
     = is_already_processed files second output_dir.
Proof.
  intros Hne.
  assert (results_path first output_dir <> results_path second output_dir) as Hpaths.
  { unfold results_path. intros H. apply Hne.
    apply join_inj in H.
    - now apply StringFacts.append_inj_r in H.
    - apply PathFacts.append_free; [apply stem_free | reflexivity].
    - apply PathFacts.append_free; [apply stem_free | reflexivity]. }
  split; [exact Hpaths |].
  unfold is_already_processed, path_exists. fold (results_path second output_dir).
  now rewrite lookup_insert_ne.
Qed.

End Facts.
End MatchStageFacts.

(** * Decimal numerals *)
Module DigitFacts.
Import PyStr NameProps.
#[local] Open Scope Z_scope.

Lemma digits_of_uint (d : Decimal.uint) :
  forallb is_digit (String.list_ascii_of_string (NilEmpty.string_of_uint d)) = true.
Proof. induction d; simpl; auto. Qed.

Lemma value_of_uint_acc (d : Decimal.uint) (acc : positive) :
  fold_left (fun acc a => 10 * acc + (Z.of_nat (nat_of_ascii a) - 48))
            (String.list_ascii_of_string (NilEmpty.string_of_uint d)) (Z.pos acc)
  = Z.pos (Pos.of_uint_acc d acc).
Proof.
  revert acc. induction d; intros acc; [reflexivity | ..];
    cbn [NilEmpty.string_of_uint String.list_ascii_of_string fold_left Pos.of_uint_acc];
    rewrite <- IHd; f_equal;
    match goal with
    | |- context [nat_of_ascii ?c] =>
        let v := eval compute in (nat_of_ascii c) in change (nat_of_ascii c) with v
    end; lia.
Qed.

Lemma value_of_uint (d : Decimal.uint) :
  int_of_digits (NilEmpty.string_of_uint d) = Z.of_N (Pos.of_uint d).
Proof.
  unfold int_of_digits. induction d; [reflexivity | ..];
    cbn [NilEmpty.string_of_uint String.list_ascii_of_string fold_left Pos.of_uint];
    [exact IHd | ..]; apply (value_of_uint_acc d).
Qed.

(** [str(n)] of a natural number is a numeral, and [int] reads [n] back from it. *)
Lemma str_Z_number (n : Z) : 0 <= n -> is_number (str_Z n) = true /\ int_of_digits (str_Z n) = n.
Proof.
  intros Hn. destruct n as [|p|p]; [split; reflexivity | | lia].
  unfold str_Z. cbn [Z.to_int NilZero.string_of_int].
  pose proof (DecimalPos.Unsigned.to_uint_nonnil p) as Hnil.
  pose proof (DecimalPos.Unsigned.of_to p) as Hval.
  assert (NilZero.string_of_uint (Pos.to_uint p) = NilEmpty.string_of_uint (Pos.to_uint p))
    as -> by (now destruct (Pos.to_uint p)).
  split.
  - unfold is_number. rewrite digits_of_uint, andb_true_r.
    now destruct (Pos.to_uint p).
  - now rewrite value_of_uint, Hval.
Qed.

End DigitFacts.

(** * More about the refine stage *)
Module RefineStageFacts.
Import PyStr PosixPath Py Yaml World RefineStage NameProps.
#[local] Open Scope Z_scope.

(** X8.  Array jobs share the work without gaps or overlaps: the
    selections of the jobs 1 to [m], taken in order, make up the
    whole list of files once [m] jobs of [k] files reach its end. *)
Theorem array_jobs_cover (jobs : Z -> args) (files : list string) (k : Z) (m : nat) :
  0 < k ->
  Z.of_nat (length files) <= Z.of_nat m * k ->
  (forall j, job_idx (jobs j) = Some j /\ jobs_per_array (jobs j) = Some k) ->
  concat (map (fun j => select (jobs (Z.of_nat j)) files) (seq 1 m)) = files.
Proof.
  intros Hk Hm Hjobs.
  rewrite (map_ext_in _ (fun j => take (Z.to_nat k) (drop ((j - 1) * Z.to_nat k) files))).
  - rewrite RangeFacts.blocks_take. apply take_ge. nia.
  - intros j Hj. apply in_seq in Hj. unfold select, job_range.
    destruct (Hjobs (Z.of_nat j)) as [-> ->].
    rewrite RangeFacts.slice_block by nia. f_equal. f_equal. nia.
Qed.


Lemma search_xenon_id_hit (s g : string) :
  match_xenon_id s = Some g -> search_xenon_id s = Some g.
Proof. intros H. destruct s; [discriminate H |]. cbn [search_xenon_id]. now rewrite H. Qed.

Lemma numeric_id_of_numeral (d rest : string) :
  is_number d = true ->
  extract_numeric_micrograph_id ("xenon_" +:+ d +:+ "_" +:+ rest) = Some (int_of_digits d).
Proof.
  intros Hd. apply StringFacts.is_number_inv in Hd as [Hd1 Hd2].
  unfold extract_numeric_micrograph_id.
  rewrite (search_xenon_id_hit _ d); [reflexivity |].
  unfold match_xenon_id. rewrite StringFacts.strip_prefix_append.
  rewrite (StringFacts.span_digits_append d) by (exact Hd2 || reflexivity).
  now rewrite Hd1, StringFacts.strip_prefix_append.
Qed.

(** X9.  The number filter reads the digits after [xenon_] as a
    number: a file whose name starts with [xenon_], a numeral and an
    underscore is kept exactly when the value of the numeral is among
    the numbers asked for, so that leading zeros do not matter; the
    name written with [str(n)] is kept exactly when [n] is asked for. *)
Theorem filter_keeps_numbered_file (numbers : list Z) (files : list string)
    (file rest : string) :
  (forall d : string,
     is_number d = true ->
     basename file = "xenon_" +:+ d +:+ "_" +:+ rest ->
     file ∈ filter_by_numbers numbers files <-> file ∈ files /\ int_of_digits d ∈ numbers)
  /\ (forall n : Z,
        0 <= n ->
        basename file = "xenon_" +:+ str_Z n +:+ "_" +:+ rest ->
        file ∈ filter_by_numbers numbers files <-> file ∈ files /\ n ∈ numbers).
Proof.
  assert (forall d : string,
             is_number d = true ->
             basename file = "xenon_" +:+ d +:+ "_" +:+ rest ->
             file ∈ filter_by_numbers numbers files
             <-> file ∈ files /\ int_of_digits d ∈ numbers) as Hd.
  { intros d Hnum Hname. unfold filter_by_numbers.
    rewrite !list_elem_of_In, filter_In, Hname, (numeric_id_of_numeral d rest Hnum).
    now rewrite bool_decide_eq_true, list_elem_of_In. }
  split; [exact Hd |].
  intros n Hn Hname. destruct (DigitFacts.str_Z_number n Hn) as [Hnum Hval].
  rewrite (Hd (str_Z n) Hnum Hname). now rewrite Hval.
Qed.

(** Where [splitext] splits, the root is not empty. *)
Lemma splitext_root_empty (p : string) : is_empty (splitext p).1 = true -> p = EmptyString.
Proof.
  unfold splitext.
  destruct (rfind sep p <? rfind extsep p) eqn:Elt; [| now apply PathFacts.is_empty_true].
  destruct (all_char extsep (PyStr.slice p (rfind sep p + 1) (rfind extsep p))) eqn:Edots;
    [now apply PathFacts.is_empty_true |].
  cbn [andb negb fst]. apply Z.ltb_lt in Elt.
  pose proof (PathFacts.rfind_range sep p) as Hs.
  pose proof (PathFacts.rfind_range extsep p) as Hd.
  destruct (Z.eq_dec (rfind extsep p) 0) as [H0 | H0].
  - exfalso. assert (rfind sep p = -1) as Hm by lia.
    rewrite Hm, H0 in Edots. unfold PyStr.slice, bound in Edots.
    destruct (len p <? 0) eqn:E; simpl in Edots;
      destruct p; simpl in Edots; discriminate.
  - unfold slice_to, bound.
    destruct (rfind extsep p <? 0) eqn:E; [apply Z.ltb_lt in E; lia |].
    rewrite Z.min_l by lia.
    destruct p as [|a r]; [reflexivity |].
    destruct (Z.to_nat (rfind extsep (String a r))) eqn:En; [lia |]. discriminate.
Qed.

(** X10.  The micrograph number of the refine stage is the file name
    without its extension, and it is empty for the empty name only:
    no file that the pattern finds is turned away for its name. *)
Theorem micrograph_number_empty (filename : string) :
  is_empty (extract_micrograph_number filename) = true <-> filename = EmptyString.
Proof.
  unfold extract_micrograph_number. split.
  - apply splitext_root_empty.
  - now intros ->.
Qed.

(** X11.  The wall time is printed as a time of day: the hours wrap
    at 24, so that a run and a run a whole day longer are reported
    alike; below one day the three fields are the hours, minutes and
    seconds of the time. *)
Theorem wall_time_wraps (t : Z) :
  strftime_HMS (t + 86400) = strftime_HMS t
  /\ forall h m s : Z,
       0 <= h < 24 -> 0 <= m < 60 -> 0 <= s < 60 ->
       strftime_HMS (3600 * h + 60 * m + s)
       = two_digits h +:+ ":" +:+ two_digits m +:+ ":" +:+ two_digits s.
Proof.
  split.
  - unfold strftime_HMS.
    replace ((t + 86400) / 3600) with (t / 3600 + 1 * 24)
      by (replace (t + 86400) with (t + 24 * 3600) by lia; rewrite Z.div_add by lia; lia).
    replace ((t + 86400) / 60) with (t / 60 + 24 * 60)
      by (replace (t + 86400) with (t + 1440 * 60) by lia; rewrite Z.div_add by lia; lia).
    replace ((t + 86400) mod 60) with (t mod 60)
      by (replace (t + 86400) with (t + 1440 * 60) by lia; now rewrite Z.mod_add by lia).
    now rewrite !Z.mod_add by lia.
  - intros h m s Hh Hm Hs. unfold strftime_HMS.
    replace ((3600 * h + 60 * m + s) / 3600 mod 24) with h.
    2:{ replace (3600 * h + 60 * m + s) with (60 * m + s + h * 3600) by lia.
        rewrite Z.div_add, (Z.div_small (60 * m + s)) by lia.
        rewrite Z.mod_small; lia. }
    replace ((3600 * h + 60 * m + s) / 60 mod 60) with m.
    2:{ replace (3600 * h + 60 * m + s) with (s + (60 * h + m) * 60) by lia.
        rewrite Z.div_add, (Z.div_small s) by lia.
        replace (0 + (60 * h + m)) with (m + h * 60) by lia.
        rewrite Z.mod_add by lia. rewrite Z.mod_small; lia. }
    replace ((3600 * h + 60 * m + s) mod 60) with s.
    2:{ replace (3600 * h + 60 * m + s) with (s + (60 * h + m) * 60) by lia.
        rewrite Z.mod_add by lia. rewrite Z.mod_small; lia. }
    reflexivity.
Qed.

Section Config.
Context {F : Type}.
Variable safe_load : string -> outcome (yaml F).
Variable dump : yaml F -> string.



End Config.
End RefineStageFacts.

(** * More about the constrained search *)
Module ConstrainedStageFacts.
Import PyStr PosixPath Py Yaml ConstrainedStage ConstrainedProps ConstrainedInvariants.
#[local] Open Scope Z_scope.

(** ** Code that keeps the log handle *)

Lemma steady_ret {A} (x : A) : steady (ret x).
Proof. intros w. now split. Qed.

Lemma steady_raise {A} (e : exn) : steady (raise (A := A) e).
Proof. intros w. now split. Qed.

Lemma steady_lift {A} (o : outcome A) : steady (lift o).
Proof. intros w. now split. Qed.

Lemma steady_gets {A} (f : world -> A) : steady (gets f).
Proof. intros w. now split. Qed.

Lemma steady_bind {A B} (m : M world A) (k : A -> M world B) :
  steady m -> (forall x, steady (k x)) -> steady (bind m k).
Proof.
  intros Hm Hk w. unfold bind. specialize (Hm w).
  destruct (m w) as [w1 [x|e]]; simpl in Hm.
  - destruct (Hk x w1) as [H1 H2]. destruct Hm as [H3 H4].
    split; [congruence | now transitivity (stdout w1)].
  - exact Hm.
Qed.

Lemma steady_try {A} (body : M world A) (handler : exn -> M world A) :
  steady body -> (forall e, steady (handler e)) -> steady (try_except_Exception body handler).
Proof.
  intros Hb Hh w. unfold try_except_Exception. specialize (Hb w).
  destruct (body w) as [w1 [x|e]]; simpl in Hb; [exact Hb |].
  destruct (is_Exception e); [| exact Hb].
  destruct (Hh e w1) as [H1 H2]. destruct Hb as [H3 H4].
  split; [congruence | now transitivity (stdout w1)].
Qed.

Lemma steady_for_each {A} (xs : list A) (body : A -> M world unit) :
  (forall x, steady (body x)) -> steady (for_each xs body).
Proof.
  intros Hbody. induction xs as [|x xs IH]; simpl.
  - apply steady_ret.
  - apply steady_bind; [apply Hbody | intros _; exact IH].
Qed.

Lemma steady_print (msg : string) : steady (print msg).
Proof. intros w. split; [reflexivity | now apply prefix_app_r]. Qed.

Lemma steady_exists (p : string) : steady (exists_ p).
Proof. intros w. now split. Qed.

Lemma steady_read_file (p : string) : steady (read_file p).
Proof. intros w. unfold read_file. now destruct (fs w !! p). Qed.

Lemma steady_write_file (p text : string) : steady (write_file p text).
Proof. intros w. now split. Qed.

Lemma steady_call {A} (f : gmap string string -> gmap string string * outcome A) :
  steady (call f).
Proof. intros w. unfold call. now destruct (f (fs w)). Qed.

Lemma steady_file_write (f : log_file) (text : string) : steady (file_write f text).
Proof. intros w. unfold file_write. now destruct (closed f). Qed.

Create HintDb steady_steps.
#[local] Hint Resolve steady_ret steady_raise steady_lift steady_gets steady_print
  steady_exists steady_read_file steady_write_file steady_call steady_file_write
  : steady_steps.

(** One step of a proof that a piece of the script is steady. *)
Ltac steady_step :=
  match goal with
  | |- steady (bind _ _) => apply steady_bind; [| intros ?]
  | |- steady (try_except_Exception _ _) => apply steady_try; [| intros ?]
  | |- steady (for_each _ _) => apply steady_for_each; intros ?
  | |- steady (if ?b then _ else _) => destruct b
  | |- steady (match ?x with _ => _ end) => destruct x
  | |- steady _ => solve [auto with steady_steps]
  end.

Section Facts.
Context {F Manager : Type}.
Variable safe_load : string -> outcome (yaml F).
Variable key_order : string -> list string.
Variable dump : yaml F -> string.
Variable str_float : F -> string.
Variable now : nat -> string.
Variable read_csv : string -> outcome Z.
Variable read_csv_no_header : string -> outcome Z.
Variable torch_probe : outcome (option Z).
Variable from_yaml : gmap string string -> string -> outcome Manager.
Variable run_constrained_search :
  gmap string string -> Manager -> string -> F -> Z -> gmap string string * outcome Z.
Variable access_W_OK : gmap string string -> string -> bool.
Variable getcwd : string.
Variable type_name : exn -> string.
Variable format_exc : exn -> string.
Variable open_for_writing : gmap string string -> string -> outcome unit.
Variable sorted_glob : gmap string string -> string -> list string.

Abbreviation log_error := (log_error now).
Abbreviation log_info := (log_info now).
Abbreviation on_exception := (on_exception str_float now getcwd type_name format_exc).
Abbreviation preflight :=
  (preflight safe_load key_order now read_csv_no_header torch_probe from_yaml).
Abbreviation search_and_report :=
  (search_and_report str_float now read_csv_no_header run_constrained_search access_W_OK).
Abbreviation run_guarded :=
  (run_guarded safe_load key_order str_float now read_csv_no_header torch_probe from_yaml
               run_constrained_search access_W_OK getcwd type_name format_exc).
Abbreviation process_micrograph_constrained_search :=
  (process_micrograph_constrained_search safe_load key_order dump str_float now read_csv
     read_csv_no_header torch_probe from_yaml run_constrained_search access_W_OK
     getcwd type_name format_exc).
Abbreviation item_head :=
  (item_head safe_load key_order dump str_float now read_csv read_csv_no_header torch_probe from_yaml
             run_constrained_search access_W_OK getcwd type_name format_exc).
Abbreviation process_each :=
  (process_each safe_load key_order dump str_float now read_csv read_csv_no_header torch_probe
                from_yaml run_constrained_search access_W_OK getcwd type_name format_exc).
Abbreviation run_loop :=
  (run_loop safe_load key_order dump str_float now read_csv read_csv_no_header torch_probe
            from_yaml run_constrained_search access_W_OK getcwd type_name format_exc).

Lemma steady_timestamp : steady (timestamp now).
Proof. intros w. now split. Qed.

Lemma steady_log_error (message : string) (also_print : bool) :
  steady (log_error message also_print).
Proof.
  unfold ConstrainedStage.log_error. pose proof steady_timestamp. repeat steady_step.
Qed.

Lemma steady_log_info (message : string) (also_print : bool) :
  steady (log_info message also_print).
Proof.
  unfold ConstrainedStage.log_info. pose proof steady_timestamp. repeat steady_step.
Qed.

#[local] Hint Resolve steady_timestamp steady_log_error steady_log_info : steady_steps.

Lemma steady_create_yaml
    (template_yaml_path large_results_csv small_results_csv output_yaml_path
     template_volume_path : string) (gpus : list Z) :
  steady (create_yaml_for_constrained_search safe_load dump template_yaml_path
            large_results_csv small_results_csv output_yaml_path template_volume_path gpus).
Proof. unfold create_yaml_for_constrained_search. repeat steady_step. Qed.

Lemma steady_preflight (micrograph_basename large_results_csv small_results_csv
                        template_volume_path custom_yaml_path : string) (gpus : list Z) :
  steady (preflight micrograph_basename large_results_csv small_results_csv
            template_volume_path custom_yaml_path gpus).
Proof.
  unfold ConstrainedStage.preflight, require_file, check_csv, check_yaml, check_gpus.
  repeat steady_step.
Qed.

Lemma steady_search_and_report (cs_manager : Manager)
    (micrograph_basename output_dir constrained_output_csv : string)
    (batch : Z) (false_positives : F) :
  steady (search_and_report cs_manager micrograph_basename output_dir
            constrained_output_csv batch false_positives).
Proof. unfold ConstrainedStage.search_and_report. repeat steady_step. Qed.

Lemma steady_on_exception
    (micrograph_basename micrograph_path large_results_csv small_results_csv
     template_yaml custom_yaml_path template_volume_path output_dir : string)
    (gpus : list Z) (batch : Z) (false_positives : F)
    (constrained_output_csv : option string) (e : exn) :
  steady (on_exception micrograph_basename micrograph_path large_results_csv
            small_results_csv template_yaml custom_yaml_path template_volume_path
            output_dir gpus batch false_positives constrained_output_csv e).
Proof. unfold ConstrainedStage.on_exception. repeat steady_step. Qed.


Lemma steady_run_guarded
    (micrograph_basename micrograph_path large_results_csv small_results_csv
     template_yaml custom_yaml_path template_volume_path output_dir : string)
    (gpus : list Z) (batch : Z) (false_positives : F) :
  steady (run_guarded micrograph_basename micrograph_path large_results_csv
            small_results_csv template_yaml custom_yaml_path template_volume_path
            output_dir gpus batch false_positives).
Proof.
  intros w. unfold ConstrainedStage.run_guarded. cbv zeta.
  set (handler := on_exception micrograph_basename micrograph_path large_results_csv
                    small_results_csv template_yaml custom_yaml_path template_volume_path
                    output_dir gpus batch false_positives).
  assert (forall csv e, steady (handler csv e)) as Hh
    by (intros; apply steady_on_exception).
  pose proof (steady_preflight micrograph_basename large_results_csv small_results_csv
                template_volume_path custom_yaml_path gpus w) as [Hp1 Hp2].
  destruct (preflight _ _ _ _ _ _ w) as [w1 [cs_manager|e]]; simpl in Hp1, Hp2.
  - set (csv := join output_dir
                  ((splitext micrograph_basename).1 +:+ "_constrained_results.csv")).
    pose proof (steady_search_and_report cs_manager micrograph_basename output_dir csv
                  batch false_positives w1) as [Hs1 Hs2].
    destruct (search_and_report cs_manager micrograph_basename output_dir csv
                batch false_positives w1) as [w2 [b|e]]; simpl in Hs1, Hs2.
    + simpl. split; [congruence | now transitivity (stdout w1)].
    + destruct (Hh (Some csv) e w2) as [Ho1 Ho2].
      split; [congruence |].
      etransitivity; [exact Hp2 | etransitivity; [exact Hs2 | exact Ho2]].
  - destruct (Hh None e w1) as [Ho1 Ho2].
    split; [congruence | now transitivity (stdout w1)].
Qed.

#[local] Hint Resolve steady_create_yaml steady_run_guarded : steady_steps.

Lemma steady_process_micrograph
    (micrograph_path large_results_csv small_results_csv template_yaml
     output_dir template_volume_path : string)
    (gpus : list Z) (batch : Z) (false_positives : F) :
  steady (process_micrograph_constrained_search micrograph_path large_results_csv
            small_results_csv template_yaml output_dir template_volume_path
            gpus batch false_positives).
Proof. unfold ConstrainedStage.process_micrograph_constrained_search. repeat steady_step. Qed.

#[local] Hint Resolve steady_process_micrograph : steady_steps.

Lemma steady_item_head (a : args) (n i : Z) (micrograph_file : string) :
  steady (item_head a n i micrograph_file).
Proof. unfold ConstrainedStage.item_head. repeat steady_step. Qed.

Lemma steady_item_tail (micrograph_file : string) (ok : bool) :
  steady (item_tail now micrograph_file ok).
Proof. unfold item_tail. repeat steady_step. Qed.

(** X13.  Whatever the items do, the loop of the constrained search
    leaves the log file bound as it found it, neither closed nor
    replaced, and it only adds to what was printed: this holds when
    the loop ends and when an exception leaves it, for every
    behaviour of the engine. *)
Theorem item_loop_keeps_log (a : args) (n i successful : Z) (files : list string) (w : world) :
  error_log_file (process_each a n i files successful w).1 = error_log_file w
  /\ stdout w `prefix_of` stdout (process_each a n i files successful w).1.
Proof.
  revert i successful w. induction files as [|file rest IH]; intros i successful w.
  - now split.
  - cbn [ConstrainedStage.process_each].
    destruct (steady_item_head a n i file w) as [Hh1 Hh2].
    destruct (item_head a n i file w) as [w1 [ok|e]]; simpl in Hh1, Hh2; [| now split].
    destruct (steady_item_tail file ok w1) as [Ht1 Ht2].
    destruct (item_tail now file ok w1) as [w2 [u|e]]; simpl in Ht1, Ht2.
    + destruct (IH (i + 1) (if ok then successful + 1 else successful) w2) as [H1 H2].
      split; [congruence |].
      etransitivity; [exact Hh2 | etransitivity; [exact Ht2 | exact H2]].
    + simpl. split; [congruence | now transitivity (stdout w1)].
Qed.


(** X14.  Once the log is open, the loop of [main] and what follows
    it always end with exit status 0, also when the operator
    interrupts the run or an exception leaves the loop.  The
    exception is reported once in the log and twice on the console;
    the log file is closed before the summary, so that the summary
    never reaches the log: it is printed only. *)
Theorem run_loop_ends (a : args) (error_log_path : string) (selected : list string)
    (w : world) (f : log_file) :
  log_open w f ->
  let n := Z.of_nat (length selected) in
  let r := process_each a n 0 selected 0 w in
  exists w',
    run_loop a error_log_path selected w = (w', Ok 0)
    /\ error_log_file w' = Some {| log_path := log_path f; closed := true |}
    /\ fs w' =
         match r.2.2 with
         | None => fs r.1
         | Some e =>
             <[log_path f := default EmptyString (fs r.1 !! log_path f)
                             +:+ ("[" +:+ now (clock r.1) +:+ "] " +:+ escape_message e) +:+ NL]>
               (fs r.1)
         end
    /\ stdout w' =
         stdout r.1
         ++ match r.2.2 with
            | None => []
            | Some e => [escape_message e; escape_message e]
            end
         ++ [ "Successfully completed constrained search for " +:+ str_Z r.2.1
                +:+ "/" +:+ str_Z n +:+ " micrographs";
              "Detailed error log saved to: " +:+ error_log_path ].
Proof.
  intros [Hlog Hopen] n r. unfold ConstrainedStage.run_loop. fold n.
  pose proof (item_loop_keeps_log a n 0 0 selected w) as [Hkeep _].
  fold r in Hkeep |- *. destruct r as [w1 [successful escaped]]. simpl in Hkeep.
  rewrite Hlog in Hkeep. cbn [fst snd].
  assert (forall w2 : world,
             error_log_file w2 = Some {| log_path := log_path f; closed := true |} ->
             final_summary now error_log_path successful n w2 =
               ({| fs := fs w2;
                   stdout := stdout w2 ++
                     [ "Successfully completed constrained search for " +:+ str_Z successful
                         +:+ "/" +:+ str_Z n +:+ " micrographs";
                       "Detailed error log saved to: " +:+ error_log_path ];
                   error_log_file := error_log_file w2;
                   clock := clock w2 |}, Ok 0)) as Hsummary.
  { intros w2 H2. apply ConstrainedFacts.final_summary_silent. now rewrite H2. }
  destruct escaped as [[|c m]|]; cbv beta iota.
  - unfold bind at 1, try_finally, bind at 1, ConstrainedStage.log_error.
    unfold bind, timestamp, print, gets, ret, close_log, file_write, modify.
    cbn [error_log_file fs stdout clock]. rewrite Hkeep.
    cbv beta iota. rewrite Hopen. cbn [error_log_file fs stdout clock].
    rewrite Hsummary by reflexivity.
    eexists. split; [reflexivity |]. cbn [error_log_file fs stdout clock].
    repeat split. now rewrite <- !app_assoc.
  - unfold bind at 1, try_finally, bind at 1, ConstrainedStage.log_error.
    unfold bind, timestamp, print, gets, ret, close_log, file_write, modify.
    cbn [error_log_file fs stdout clock]. rewrite Hkeep.
    cbv beta iota. rewrite Hopen. cbn [error_log_file fs stdout clock].
    rewrite Hsummary by reflexivity.
    eexists. split; [reflexivity |]. cbn [error_log_file fs stdout clock].
    repeat split. now rewrite <- !app_assoc.
  - unfold bind at 1, try_finally, ret, close_log, modify. cbn [fst snd].
    rewrite Hsummary by (cbn [error_log_file]; now rewrite Hkeep).
    eexists. split; [reflexivity |]. cbn [error_log_file fs stdout clock].
    rewrite Hkeep. repeat split.
Qed.


(** ** Failures before the search *)

Lemma fails_raise {A} (e : exn) (P : exn -> Prop) : P e -> fails (raise (A := A) e) P.
Proof. intros HP w _. exists w, e. now split. Qed.

Lemma fails_bind {A B} (m : M world A) (k : A -> M world B)
    (Q : A -> Prop) (P : exn -> Prop) :
  safe m Q -> (forall x, Q x -> fails (k x) P) -> fails (bind m k) P.
Proof.
  intros Hm Hk w Hw. destruct (Hm w Hw) as (w1 & x & Em & HQ & Hlog & _).
  assert (log_writable w1) as Hw1 by (unfold log_writable; now rewrite Hlog).
  destruct (Hk x HQ w1 Hw1) as (w2 & e & Ek & HP).
  exists w2, e. unfold bind. rewrite Em. now split.
Qed.

Ltac safe_steps :=
  repeat (apply ConstrainedFacts.safe_bind with (Q := fun _ => True);
          [ solve [ apply ConstrainedFacts.safe_log_error
                  | apply ConstrainedFacts.safe_log_info
                  | apply ConstrainedFacts.safe_print ]
          | intros ? _ ]).

Ltac fails_steps :=
  repeat (apply fails_bind with (Q := fun _ => True);
          [ solve [ apply ConstrainedFacts.safe_log_error
                  | apply ConstrainedFacts.safe_log_info
                  | apply ConstrainedFacts.safe_print ]
          | intros ? _ ]).

(** The first line of every [except] clause is the header of its class. *)
Lemma on_exception_header
    (micrograph_basename micrograph_path large_results_csv small_results_csv
     template_yaml custom_yaml_path template_volume_path output_dir : string)
    (gpus : list Z) (batch : Z) (false_positives : F)
    (constrained_output_csv : option string) (cls : exc_class) (msg : string) :
  exists rest : M world bool,
    on_exception micrograph_basename micrograph_path large_results_csv small_results_csv
      template_yaml custom_yaml_path template_volume_path output_dir gpus batch
      false_positives constrained_output_csv (Exc cls msg)
    = bind (log_error (failure_header cls micrograph_basename) true) (fun _ => rest)
    /\ steady rest
    /\ (named_class cls = true -> safe rest (fun b => b = false))
    /\ (named_class cls = false -> constrained_output_csv = None ->
        fails rest (fun e => exists m, e = Exc OtherException m)).
Proof.
  destruct cls; cbn [ConstrainedStage.on_exception failure_header named_class];
    eexists; (split; [reflexivity |]); (split; [repeat steady_step |]);
    (split; [intros Hn; try discriminate Hn | intros Hn Hcsv; try discriminate Hn]).
  1-4: safe_steps; now apply ConstrainedFacts.safe_ret.
  all: subst constrained_output_csv; fails_steps;
    (apply fails_bind with (Q := fun _ => True);
     [ apply ConstrainedFacts.safe_for_each; intros line;
       destruct (is_empty (strip line));
       [now apply ConstrainedFacts.safe_ret | apply ConstrainedFacts.safe_log_error]
     | intros ? _ ]);
    fails_steps; apply fails_raise; eauto.
Qed.

(** X15.  An exception that the checks before the search raise is
    contained at the item only when it belongs to one of the four
    classes with a clause of their own.  For any other class the last
    clause logs its report and then itself raises, because it reads
    [constrained_output_csv] before that name is bound: the exception
    leaves the per-item function. *)
Theorem failure_before_search
    (micrograph_basename micrograph_path large_results_csv small_results_csv
     template_yaml custom_yaml_path template_volume_path output_dir : string)
    (gpus : list Z) (batch : Z) (false_positives : F)
    (w w1 : world) (cls : exc_class) (msg : string) :
  preflight micrograph_basename large_results_csv small_results_csv template_volume_path
    custom_yaml_path gpus w = (w1, Raise (Exc cls msg)) ->
  log_writable w1 ->
  exists w',
    failure_header cls micrograph_basename ∈ stdout w'
    /\ (named_class cls = true ->
        run_guarded micrograph_basename micrograph_path large_results_csv small_results_csv
          template_yaml custom_yaml_path template_volume_path output_dir gpus batch
          false_positives w = (w', Ok false))
    /\ (named_class cls = false ->
        exists m : string,
          run_guarded micrograph_basename micrograph_path large_results_csv small_results_csv
            template_yaml custom_yaml_path template_volume_path output_dir gpus batch
            false_positives w = (w', Raise (Exc OtherException m))).
Proof.
  intros Hpre Hw1. unfold ConstrainedStage.run_guarded. rewrite Hpre.
  destruct (on_exception_header micrograph_basename micrograph_path large_results_csv
              small_results_csv template_yaml custom_yaml_path template_volume_path
              output_dir gpus batch false_positives None cls msg)
    as (rest & -> & Hsteady & Hnamed & Hother).
  destruct (ConstrainedFacts.log_error_run now (failure_header cls micrograph_basename)
              true w1 Hw1) as (w2 & E2 & Hlog2 & Hout2).
  assert (log_writable w2) as Hw2 by (unfold log_writable; now rewrite Hlog2).
  unfold bind. rewrite E2.
  destruct (Hsteady w2) as [_ Hprefix].
  exists (rest w2).1. split.
  - destruct Hprefix as [extra ->]. rewrite Hout2.
    apply elem_of_app. left. apply elem_of_app. right. now left.
  - split.
    + intros Hn. destruct (Hnamed Hn w2 Hw2) as (w3 & b & E3 & -> & _). now rewrite E3.
    + intros Hn. destruct (Hother Hn eq_refl w2 Hw2) as (w3 & e & E3 & m & ->).
      exists m. now rewrite E3.
Qed.

(** X16.  The check of an input table turns every exception that
    derives from [Exception] into a [ValueError] that names the
    table; this holds for its own complaint about an empty table,
    whose message is wrapped once more. *)
Theorem check_csv_reraises (label Label path : string) (w : world) :
  (forall (w' : world) (e : exn),
     check_csv now read_csv_no_header label Label path w = (w', Raise e) ->
     e = KeyboardInterrupt
     \/ exists reason : string,
          e = Exc ValueError ("Error reading " +:+ label +:+ " results CSV " +:+ path
                              +:+ ": " +:+ reason))
  /\ (forall text : string,
        fs w !! path = Some text -> read_csv_no_header text = Ok 0 -> log_writable w ->
        (check_csv now read_csv_no_header label Label path w).2
        = Raise (Exc ValueError
                   ("Error reading " +:+ label +:+ " results CSV " +:+ path +:+ ": "
                    +:+ Label +:+ " results CSV is empty: " +:+ path))).
Proof.
  split.
  - intros w' e. unfold check_csv, try_except_Exception.
    match goal with
    | |- (match ?body w with _ => _ end) = _ -> _ => destruct (body w) as [w1 [u|e1]]
    end; [discriminate |].
    destruct e1 as [|c m]; simpl.
    + intros [= _ <-]. now left.
    + unfold raise. intros [= _ <-]. right. eauto.
  - intros text Hfile Hread Hw. unfold check_csv, try_except_Exception.
    unfold bind at 1, read_file. rewrite Hfile.
    unfold bind at 1, lift. rewrite Hread.
    unfold bind at 1.
    destruct (ConstrainedFacts.log_info_run now
                ("DEBUG: " +:+ Label +:+ " results CSV has " +:+ str_Z 0 +:+ " rows")
                false w Hw) as (w1 & E1 & _).
    rewrite E1. reflexivity.
Qed.


(** ** The derived configuration *)



End Facts.

(** ** The explicit range *)

(** X18.  Without an array job, [--start-idx] and [--end-idx] select
    a slice of the list: with bounds that are not negative, exactly
    the items from the start index up to, not including, the end
    index, where a missing start index is 0 and a missing end index
    is the length of the list; a negative start index counts from
    the end of the list, as in every Python slice. *)
Theorem explicit_range {F : Type} (a : args (F := F)) (files : list string) :
  job_idx a = None \/ jobs_per_array a = None ->
  is_Some (start_idx a) \/ is_Some (end_idx a) ->
  let n := Z.of_nat (length files) in
  let lo := default 0 (start_idx a) in
  let hi := default n (end_idx a) in
  (0 <= lo -> 0 <= hi ->
   forall (i : nat) (x : string),
     select a files !! i = Some x <->
     files !! (Z.to_nat lo + i)%nat = Some x /\ lo + Z.of_nat i < hi)
  /\ (forall c : Z,
        start_idx a = Some (- c) -> end_idx a = None -> 0 < c <= n ->
        select a files = drop (Z.to_nat (n - c)) files).
Proof.
  intros Hmode Hgiven n lo hi.
  assert (select a files = Py.slice files lo hi) as Hsel.
  { unfold select, job_range.
    assert (match job_idx a, jobs_per_array a with
            | Some j, Some k =>
                Some ((j - 1) * k, Z.min ((j - 1) * k + k) (Z.of_nat (length files)))
            | _, _ =>
                match start_idx a, end_idx a with
                | None, None => None
                | s, e => Some (default 0 s, default (Z.of_nat (length files)) e)
                end
            end = Some (lo, hi)) as ->; [| reflexivity].
    assert (match start_idx a, end_idx a with
            | None, None => None
            | s, e => Some (default 0 s, default (Z.of_nat (length files)) e)
            end = Some (lo, hi)) as Hse.
    { unfold lo, hi, n.
      destruct Hgiven as [[s Hs] | [e He]].
      - rewrite Hs. now destruct (end_idx a).
      - rewrite He. now destruct (start_idx a). }
    destruct Hmode as [-> | Hk]; [exact Hse |].
    rewrite Hk. now destruct (job_idx a). }
  split.
  - intros Hlo Hhi i x. rewrite Hsel. now apply SliceFacts.slice_lookup.
  - intros c Hs He Hc. rewrite Hsel. unfold lo, hi. rewrite Hs, He. simpl.
    unfold Py.slice, bound. fold n.
    destruct (- c <? 0) eqn:E1; [| apply Z.ltb_ge in E1; lia].
    destruct (n <? 0) eqn:E2; [apply Z.ltb_lt in E2; lia |].
    rewrite Z.max_l, Z.min_l by lia.
    replace (- c + n) with (n - c) by lia.
    apply take_ge. rewrite length_drop. lia.
Qed.

End ConstrainedStageFacts.

(** * What the constrained search reports of a failed item *)
Module ReportFacts.
Import PyStr PosixPath Py Yaml ConstrainedStage ConstrainedProps ConstrainedInvariants.
#[local] Open Scope Z_scope.
#[local] Open Scope py_scope.

Section Facts.
Context {F Manager : Type}.
Variable safe_load : string -> outcome (yaml F).
Variable key_order : string -> list string.
Variable dump : yaml F -> string.
Variable str_float : F -> string.
Variable now : nat -> string.
Variable read_csv : string -> outcome Z.
Variable read_csv_no_header : string -> outcome Z.
Variable torch_probe : outcome (option Z).
Variable from_yaml : gmap string string -> string -> outcome Manager.
Variable run_constrained_search :
  gmap string string -> Manager -> string -> F -> Z -> gmap string string * outcome Z.
Variable access_W_OK : gmap string string -> string -> bool.
Variable getcwd : string.
Variable type_name : exn -> string.
Variable format_exc : exn -> string.

Abbreviation log_error := (log_error now).
Abbreviation log_info := (log_info now).
Abbreviation on_exception := (on_exception str_float now getcwd type_name format_exc).
Abbreviation preflight :=
  (preflight safe_load key_order now read_csv_no_header torch_probe from_yaml).
Abbreviation search_and_report :=
  (search_and_report str_float now read_csv_no_header run_constrained_search access_W_OK).
Abbreviation run_guarded :=
  (run_guarded safe_load key_order str_float now read_csv_no_header torch_probe from_yaml
               run_constrained_search access_W_OK getcwd type_name format_exc).
Abbreviation item_head :=
  (item_head safe_load key_order dump str_float now read_csv read_csv_no_header torch_probe from_yaml
             run_constrained_search access_W_OK getcwd type_name format_exc).
Abbreviation process_each :=
  (process_each safe_load key_order dump str_float now read_csv read_csv_no_header torch_probe
                from_yaml run_constrained_search access_W_OK getcwd type_name format_exc).
















End Facts.
End ReportFacts.

(** * The claims that span the stages, and the concrete runs *)
Module Pipeline.
Import PyStr PosixPath Py Yaml.
#[local] Open Scope Z_scope.

Section Containment.
Context {F Manager : Type}.
Variable float_of_str : string -> option F.
Variable safe_load : string -> outcome (yaml F).
Variable key_order : string -> list string.
Variable dump : yaml F -> string.
Variable match_template : gmap string string -> string -> Z -> gmap string string * outcome string.
Variable read_csv : string -> outcome Z.
Variable refine_template :
  gmap string string -> string -> string -> Z -> gmap string string * outcome Z.
Variable str_float : F -> string.
Variable now : nat -> string.
Variable read_csv_no_header : string -> outcome Z.
Variable torch_probe : outcome (option Z).
Variable from_yaml : gmap string string -> string -> outcome Manager.
Variable run_constrained_search :
  gmap string string -> Manager -> string -> F -> Z -> gmap string string * outcome Z.
Variable access_W_OK : gmap string string -> string -> bool.
Variable getcwd : string.
Variable type_name : exn -> string.
Variable format_exc : exn -> string.
Variable open_for_writing : gmap string string -> string -> outcome unit.
Variable sorted_glob : gmap string string -> string -> list string.

Abbreviation preflight :=
  (ConstrainedStage.preflight safe_load key_order now read_csv_no_header torch_probe
     from_yaml).
Abbreviation search_and_report :=
  (ConstrainedStage.search_and_report str_float now read_csv_no_header
     run_constrained_search access_W_OK).
Abbreviation run_guarded :=
  (ConstrainedStage.run_guarded safe_load key_order str_float now read_csv_no_header
     torch_probe from_yaml run_constrained_search access_W_OK getcwd type_name format_exc).
Abbreviation item_head :=
  (ConstrainedStage.item_head safe_load key_order dump str_float now read_csv
     read_csv_no_header torch_probe from_yaml run_constrained_search access_W_OK getcwd
     type_name format_exc).
Abbreviation process_each :=
  (ConstrainedStage.process_each safe_load key_order dump str_float now read_csv
     read_csv_no_header torch_probe from_yaml run_constrained_search access_W_OK getcwd
     type_name format_exc).


End Containment.
End Pipeline.

(** * Concrete runs *)
Module Runs.
Import PyStr PosixPath Py Yaml Scenarios.
#[local] Open Scope Z_scope.


(** C3 as stated does not hold for the refine stage, which has no
    resume filter: the refined results of the only micrograph exist
    already, and the run refines it again. *)
Lemma refine_reprocesses_finished_item :
  World.path_exists RefinedBefore.files "/out/a_DWS_refined_results.csv" = true
  /\ (RefinedBefore.run RefinedBefore.arguments RefinedBefore.start).2 = Ok 0
  /\ World.stdout (RefinedBefore.run RefinedBefore.arguments RefinedBefore.start).1
     = [ "Found 1 micrograph files";
         "Processing 1/1: a_DWS.mrc";
         "Running refine template for a_DWS.mrc results with GPUs [0]";
         "Refinement wall time: 00:00:07";
         "Successfully refined matches for a_DWS.mrc";
         "Successfully refined matches for 1/1 micrographs" ].
Proof. repeat split; vm_compute; reflexivity. Qed.


(** C5 fails on the code.  Two distinct micrographs of one directory
    whose names agree up to the first dot get the same rewritten
    result path, while their results files, named after the whole
    stem, stay apart. *)
Theorem shared_prefix_collision :
  SharedPrefix.first_micrograph <> SharedPrefix.second_micrograph
  /\ SharedPrefix.mip_path (SharedPrefix.derive SharedPrefix.first_micrograph)
     = Some (YStr "/out/xenon_1_2_0_mip.mrc")
  /\ SharedPrefix.mip_path (SharedPrefix.derive SharedPrefix.second_micrograph)
     = Some (YStr "/out/xenon_1_2_0_mip.mrc")
  /\ MatchProps.results_path SharedPrefix.first_micrograph "/out"
     = "/out/xenon_1_2_0.0_DWS_results.csv"
  /\ MatchProps.results_path SharedPrefix.second_micrograph "/out"
     = "/out/xenon_1_2_0.5_DWS_results.csv".
Proof. split; [discriminate |]. repeat split; vm_compute; reflexivity. Qed.

(** C7 as stated does not hold: the first line that is no comment
    has four fields, so that the fields 1, 2 and 3 are there, and the
    parser passes it over and answers from the next line. *)
Lemma short_line_skipped :
  let lines := readlines "# defocus values
7 1 2 3
7 10 20 30 5
" in
  MatchStage.scan_ctf_lines TestEnv.float_of_str lines = Ok (Some 10, Some 20, Some 30)
  /\ MatchProps.described_ctf_parameters TestEnv.float_of_str lines
     = Ok (Some 1, Some 2, Some 3).
Proof. split; vm_compute; reflexivity. Qed.

(** C8 fails on the code.  For a particle at the top left corner the
    box reaches out of the image above and to the left, and the code
    puts the clamped pixels into the top left corner of the buffer:
    the zeros stand below and to the right.  At the bottom right
    corner the buffer is the centred box; a region without width is
    skipped with a warning. *)
Theorem corner_crop_is_not_centred :
  ExportRelion.crop_particle 0 SmallImage.micrograph 4 0 0
  = inr [ [1; 2; 0; 0]; [5; 6; 0; 0]; [0; 0; 0; 0]; [0; 0; 0; 0] ]
  /\ ExportRelion.centred_box 0 SmallImage.micrograph 4 0 0
     = [ [0; 0; 0; 0]; [0; 0; 0; 0]; [0; 0; 1; 2]; [0; 0; 5; 6] ]
  /\ ExportRelion.crop_particle 0 SmallImage.micrograph 4 4 4
     = inr (ExportRelion.centred_box 0 SmallImage.micrograph 4 4 4)
  /\ ExportRelion.crop_particle 0 SmallImage.micrograph 4 (-2) 2
     = inl "Warning: Invalid box coordinates for particle at (-2, 2)".
Proof. repeat split; vm_compute; reflexivity. Qed.

(** C9 fails on the code.  The search of the third item is
    interrupted after one success and one failure.  The interrupt is
    caught and logged, the log is closed, and the run ends with exit
    status 0; but the log is closed before the summary is reached, so
    that the log ends with the interrupt and holds no summary, and
    the console only gets the count of successes out of all selected
    items. *)
Theorem interrupted_run_loses_summary :
  let final := (Interrupted.run Interrupted.arguments Interrupted.start).1 in
  (Interrupted.run Interrupted.arguments Interrupted.start).2 = Ok 0
  /\ ConstrainedStage.error_log_file final
     = Some {| ConstrainedStage.log_path := "/out/constrained_search_errors.log";
               ConstrainedStage.closed := true |}
  /\ (exists log,
        ConstrainedStage.fs final !! "/out/constrained_search_errors.log" = Some log
        /\ last (split_char LF log) = Some ""
        /\ last (removelast (split_char LF log))
           = Some "[t46] Processing interrupted by user (Ctrl+C)"
        /\ ConstrainedProps.contains "Processing complete!" log = false
        /\ ConstrainedProps.contains "Failed: " log = false
        /\ ConstrainedProps.contains "Successfully completed constrained search for 1/3" log
           = false)
  /\ drop 28 (ConstrainedStage.stdout final)
     = [ "Processing interrupted by user (Ctrl+C)";
         "Processing interrupted by user (Ctrl+C)";
         "Successfully completed constrained search for 1/3 micrographs";
         "Detailed error log saved to: /out/constrained_search_errors.log" ].
Proof.
  cbv zeta. split; [vm_compute; reflexivity |]. split; [vm_compute; reflexivity |].
  split; [| vm_compute; reflexivity].
  eexists. split; [vm_compute; reflexivity |].
  repeat split; vm_compute; reflexivity.
Qed.


(** ** The theorems at concrete inputs *)

(** The fourth of the array jobs over ten files, three files per job. *)
Lemma job_partition_witness :
  (1 <= 4 /\ 0 <= 3)
  /\ (MatchStage.select ArrayJob.arguments ArrayJob.files !! 0%nat = Some "m9"
      <-> ArrayJob.files !! (Z.to_nat 9 + 0)%nat = Some "m9"
          /\ 9 + Z.of_nat 0 < Z.min 12 10).
Proof.
  split; [lia |].
  exact (proj1 (MatchFacts.job_partition TestEnv.float_of_str (TestEnv.safe_load [])
                  TestEnv.dump (fun files _ _ => (files, Ok "rows"))
                  (TestEnv.sorted_glob []) ArrayJob.arguments ArrayJob.files 4 3
                  eq_refl eq_refl ltac:(lia) ltac:(lia)) 0%nat "m9").
Defined.

(** Both micrographs of the catalog have their results. *)
Lemma resume_filter_witness :
  let files : gmap string string :=
    list_to_map [ ("/out/xenon_1_1_DWS_results.csv", "rows");
                  ("/out/xenon_2_1_DWS_results.csv", "rows") ] in
  MatchStage.unprocessed files "/out" MissingTemplate.catalog = [].
Proof.
  cbv zeta.
  refine (proj1 (proj2 (proj2 (MatchFacts.resume_filter TestEnv.float_of_str
                                 (TestEnv.safe_load []) TestEnv.dump
                                 (fun files _ _ => (files, Ok "rows"))
                                 (TestEnv.sorted_glob MissingTemplate.catalog)
                                 _ "/out" MissingTemplate.catalog)) _)).
  intros x Hx. unfold MissingTemplate.catalog in Hx.
  apply elem_of_cons in Hx as [-> | Hx]; [vm_compute; eauto |].
  apply elem_of_cons in Hx as [-> | Hx]; [vm_compute; eauto |].
  inversion Hx.
Defined.


(** Deriving twice in a row for the first micrograph of the match runs. *)
Lemma derivation_idempotent_witness :
  let derive :=
    MatchStage.create_yaml_for_micrograph
      (TestEnv.safe_load [("template", EngineFailure.template)]) TestEnv.dump
      "/cfg/match.yaml" "/mg/xenon_1_1_DWS.mrc" (Some 10) (Some 20) (Some 30)
      "/out/xenon_1_1_DWS_config.yaml" [0] in
  "/cfg/match.yaml" <> "/out/xenon_1_1_DWS_config.yaml"
  /\ (derive (derive EngineFailure.start).1).2 = (derive EngineFailure.start).2
  /\ World.fs (derive (derive EngineFailure.start).1).1
     = World.fs (derive EngineFailure.start).1.
Proof.
  cbv zeta. split; [discriminate |].
  exact (proj2 (MatchFacts.derivation_idempotent
                  (TestEnv.safe_load [("template", EngineFailure.template)]) TestEnv.dump
                  "/cfg/match.yaml" "/mg/xenon_1_1_DWS.mrc"
                  "/out/xenon_1_1_DWS_config.yaml" (Some 10) (Some 20) (Some 30) [0])
               EngineFailure.start ltac:(discriminate)).
Defined.

(** A comment, a line of four fields, and a line of five fields. *)
Lemma ctf_parameters_parsed_witness :
  MatchStage.scan_ctf_lines TestEnv.float_of_str
    ([ "# defocus values" +:+ String LF ""; "7 1 2 3" +:+ String LF "" ]
     ++ ("7 10 20 30 5" +:+ String LF "") :: [])
  = Ok (Some 10, Some 20, Some 30).
Proof.
  refine (proj1 (MatchFacts.ctf_parameters_parsed TestEnv.float_of_str
                   (TestEnv.safe_load []) TestEnv.dump (fun files _ _ => (files, Ok "rows")))
                _ [] _ "7" "10" "20" "30" "5" [] 10 20 30 _ _ _ _ _ _).
  - repeat constructor.
  - reflexivity.
  - reflexivity.
  - reflexivity.
  - reflexivity.
  - reflexivity.
Defined.




End Runs.

(** * Lists read by index *)
Module IndexFacts.
#[local] Open Scope Z_scope.

Lemma lookup_map {A B} (f : A -> B) (l : list A) (i : nat) :
  map f l !! i = f <$> (l !! i).
Proof. revert i. induction l as [|x l IH]; intros [|i]; simpl; auto. Qed.


Lemma length_slice {A} (xs : list A) (lo hi : Z) :
  0 <= lo -> lo <= hi -> hi <= Z.of_nat (length xs) ->
  length (Py.slice xs lo hi) = Z.to_nat (hi - lo).
Proof.
  intros Hlo Hhi Hlen. unfold Py.slice, PyStr.bound.
  destruct (lo <? 0) eqn:E1; [apply Z.ltb_lt in E1; lia |].
  destruct (hi <? 0) eqn:E2; [apply Z.ltb_lt in E2; lia |].
  rewrite length_take, length_drop. lia.
Qed.

Lemma slice_all {A} (xs : list A) (hi : Z) :
  Z.of_nat (length xs) <= hi -> Py.slice xs 0 hi = xs.
Proof.
  intros Hhi. unfold Py.slice, PyStr.bound.
  destruct (hi <? 0) eqn:E2; [apply Z.ltb_lt in E2; lia |].
  change (0 <? 0) with false. cbv iota.
  rewrite (Z.min_l 0), (Z.min_r hi) by lia. rewrite Z.sub_0_r, Nat2Z.id.
  change (Z.to_nat 0) with 0%nat. rewrite drop_0. now apply take_ge.
Qed.

End IndexFacts.

(** * More about the particle export *)
Module ExportRelionFacts.
Import PyStr ExportRelion ExportProps.
#[local] Open Scope Z_scope.

Section Crop.
Context {Px : Type}.
Variable zero : Px.

Lemma assign_rows_length (dst src : list (list Px)) (h : nat) (w : Z) :
  length (assign_rows dst src h w) = length dst.
Proof.
  revert dst src. induction h as [|h IH]; intros [|drow dst] [|srow src]; simpl; auto.
Qed.

Lemma assign_rows_lookup_lt (dst src : list (list Px)) (h : nat) (w : Z) (r : nat)
    (drow srow : list Px) :
  (r < h)%nat -> dst !! r = Some drow -> src !! r = Some srow ->
  assign_rows dst src h w !! r = Some (Py.slice srow 0 w ++ drop (Z.to_nat w) drow).
Proof.
  revert dst src r. induction h as [|h IH]; intros [|d dst] [|s src] [|r] Hr Hd Hs;
    try discriminate; try lia; simpl in *.
  - now injection Hd as ->; injection Hs as ->.
  - apply IH; [lia | assumption | assumption].
Qed.

Lemma assign_rows_lookup_ge (dst src : list (list Px)) (h : nat) (w : Z) (r : nat) :
  (h <= r)%nat -> assign_rows dst src h w !! r = dst !! r.
Proof.
  revert dst src r. induction h as [|h IH]; intros [|d dst] [|s src] [|r] Hr;
    try reflexivity; try lia; simpl.
  apply IH. lia.
Qed.

(** The clamped region of a rectangular image and its shape. *)
Lemma region_rows (micrograph : list (list Px)) (y0 y1 x0 x1 : Z) (r : nat) :
  rectangular micrograph ->
  0 <= y0 -> y0 <= y1 -> y1 <= height micrograph ->
  0 <= x0 -> x0 <= x1 -> x1 <= width micrograph ->
  (Z.of_nat r < y1 - y0) ->
  exists row : list Px,
    micrograph !! (Z.to_nat y0 + r)%nat = Some row
    /\ Z.of_nat (length row) = width micrograph
    /\ slice2 micrograph y0 y1 x0 x1 !! r = Some (Py.slice row x0 x1)
    /\ length (Py.slice row x0 x1) = Z.to_nat (x1 - x0).
Proof.
  intros Hrect Hy0 Hy01 Hy1 Hx0 Hx01 Hx1 Hr. unfold height in Hy1.
  destruct (lookup_lt_is_Some_2 micrograph (Z.to_nat y0 + r)) as [row Hrow]; [lia |].
  exists row. split; [exact Hrow |].
  assert (Z.of_nat (length row) = width micrograph) as Hw.
  { unfold rectangular in Hrect. rewrite Forall_forall in Hrect. apply Hrect.
    eapply list_elem_of_lookup_2. exact Hrow. }
  split; [exact Hw |]. split.
  - unfold slice2, array. rewrite IndexFacts.lookup_map.
    assert (Py.slice micrograph y0 y1 !! r = Some row) as ->; [| reflexivity].
    apply SliceFacts.slice_lookup; [lia | lia |]. split; [exact Hrow | lia].
  - apply IndexFacts.length_slice; lia.
Qed.

Lemma region_shape (micrograph : list (list Px)) (y0 y1 x0 x1 : Z) :
  rectangular micrograph ->
  0 <= y0 -> y0 < y1 -> y1 <= height micrograph ->
  0 <= x0 -> x0 <= x1 -> x1 <= width micrograph ->
  height (slice2 micrograph y0 y1 x0 x1) = y1 - y0
  /\ width (slice2 micrograph y0 y1 x0 x1) = x1 - x0.
Proof.
  intros Hrect Hy0 Hy01 Hy1 Hx0 Hx01 Hx1.
  assert (height (slice2 micrograph y0 y1 x0 x1) = y1 - y0) as Hh.
  { unfold height, slice2. rewrite length_map, IndexFacts.length_slice by (unfold height in Hy1; lia).
    lia. }
  split; [exact Hh |].
  destruct (region_rows micrograph y0 y1 x0 x1 0 Hrect) as (row & _ & _ & Hrow & Hlen);
    try lia.
  unfold width. destruct (slice2 micrograph y0 y1 x0 x1) as [|first rest]; [discriminate |].
  injection Hrow as ->. rewrite Hlen. lia.
Qed.


(** What the crop of a particle that is not skipped consists of. *)
Lemma crop_run (micrograph : list (list Px)) (box_size center_x center_y : Z)
    (padded_img : list (list Px)) :
  rectangular micrograph ->
  crop_particle zero micrograph box_size center_x center_y = inr padded_img ->
  let half_box := box_size / 2 in
  let x_start := Z.max 0 (center_x - half_box) in
  let y_start := Z.max 0 (center_y - half_box) in
  let x_end := Z.min (width micrograph) (center_x + half_box) in
  let y_end := Z.min (height micrograph) (center_y + half_box) in
  x_start < x_end /\ y_start < y_end /\ 0 < half_box /\ 2 * half_box <= box_size
  /\ padded_img =
       assign_rows (zeros zero box_size box_size)
         (slice2 micrograph y_start y_end x_start x_end)
         (Z.to_nat (y_end - y_start)) (x_end - x_start).
Proof.
  intros Hrect H half_box x_start y_start x_end y_end.
  unfold crop_particle in H. fold half_box x_start y_start x_end y_end in H.
  destruct ((x_end <=? x_start) || (y_end <=? y_start)) eqn:E; [discriminate |].
  apply orb_false_iff in E as [Ex Ey]. apply Z.leb_gt in Ex, Ey.
  assert (0 < half_box) as Hhalf by (unfold x_start, x_end in Ex; lia).
  assert (2 * half_box <= box_size) as Hbox.
  { unfold half_box. pose proof (Z.mul_div_le box_size 2). lia. }
  repeat (split; [assumption |]).
  injection H as <-.
  destruct (region_shape micrograph y_start y_end x_start x_end Hrect) as [Hh Hw];
    try (unfold x_start, y_start, x_end, y_end; lia).
  rewrite Hh, Hw. f_equal.
  - f_equal. unfold x_start, y_start, x_end, y_end in *. lia.
  - unfold x_start, y_start, x_end, y_end in *. lia.
Qed.

(** X19.  Every image that joins the stack of a rectangular
    micrograph is a square of [box_size] rows of [box_size] pixels,
    wherever the particle lies. *)
Theorem crop_is_square (micrograph : list (list Px)) (box_size center_x center_y : Z)
    (padded_img : list (list Px)) :
  rectangular micrograph ->
  crop_particle zero micrograph box_size center_x center_y = inr padded_img ->
  square (Z.to_nat box_size) padded_img.
Proof.
  intros Hrect H.
  destruct (crop_run micrograph box_size center_x center_y padded_img Hrect H)
    as (Hx & Hy & Hhalf & Hbox & ->).
  set (half_box := box_size / 2) in *.
  set (x_start := Z.max 0 (center_x - half_box)) in *.
  set (y_start := Z.max 0 (center_y - half_box)) in *.
  set (x_end := Z.min (width micrograph) (center_x + half_box)) in *.
  set (y_end := Z.min (height micrograph) (center_y + half_box)) in *.
  split.
  - rewrite assign_rows_length. unfold zeros. apply length_replicate.
  - apply Forall_lookup. intros r row Hrow.
    destruct (decide (r < Z.to_nat (y_end - y_start))%nat) as [Hlt | Hge].
    + destruct (region_rows micrograph y_start y_end x_start x_end r Hrect)
        as (mrow & _ & _ & Hsrc & Hlen); try (unfold x_start, y_start, x_end, y_end; lia).
      assert (r < Z.to_nat box_size)%nat as Hr by lia.
      rewrite (assign_rows_lookup_lt _ _ _ _ r (replicate (Z.to_nat box_size) zero)
                 (Py.slice mrow x_start x_end)) in Hrow;
        [| exact Hlt | unfold zeros; now apply lookup_replicate_2 | exact Hsrc].
      injection Hrow as <-.
      rewrite length_app, length_drop, length_replicate.
      rewrite IndexFacts.slice_all by lia. rewrite Hlen.
      unfold x_start, y_start, x_end, y_end in *. lia.
    + rewrite assign_rows_lookup_ge in Hrow by lia. unfold zeros in Hrow.
      apply lookup_replicate_1 in Hrow as [-> _]. apply length_replicate.
Qed.


(** X21.  Every particle of a micrograph either joins the stack or
    is reported with a warning, so that the two lists together are as
    long as the list of particles; the stack is empty exactly when
    every particle was skipped. *)
Theorem crop_particles_accounting (micrograph : list (list Px)) (box_size : Z)
    (centers : list (Z * Z)) :
  let result := crop_particles zero micrograph box_size centers in
  (length result.1 + length result.2 = length centers)%nat
  /\ (result.1 = [] <->
      forall center, center ∈ centers ->
        exists warning,
          crop_particle zero micrograph box_size center.1 center.2 = inl warning).
Proof.
  induction centers as [|[cx cy] rest [IHlen IHnil]]; cbn zeta.
  - split; [reflexivity |]. split; [| reflexivity]. intros _ c Hc. inversion Hc.
  - cbn [crop_particles]. cbn zeta in IHlen, IHnil.
    destruct (crop_particles zero micrograph box_size rest) as [stack printed].
    simpl in IHlen, IHnil.
    destruct (crop_particle zero micrograph box_size cx cy) as [warning | img] eqn:E; simpl.
    + split; [lia |]. rewrite IHnil. split.
      * intros Hrest c Hc. apply elem_of_cons in Hc as [-> | Hc]; [eauto | now apply Hrest].
      * intros Hall c Hc. apply Hall. now right.
    + split; [lia |]. split; [discriminate |].
      intros Hall. destruct (Hall (cx, cy)) as [warning Hw]; [now left |].
      simpl in Hw. congruence.
Qed.

End Crop.
End ExportRelionFacts.

(** * The replacement of paths in the result tables *)
Module ReplacePathsFacts.
Import PyStr PosixPath Py World ReplacePaths ConstrainedProps.
#[local] Open Scope Z_scope.

Lemma contains_cons (needle : string) (a : ascii) (rest : string) :
  contains needle (String a rest) = false ->
  strip_prefix needle (String a rest) = None /\ contains needle rest = false.
Proof.
  cbn [contains]. destruct (strip_prefix needle (String a rest)); [discriminate | auto].
Qed.

(** A string without an occurrence of [old] is left as it is. *)
Lemma str_replace_absent (s old new : string) :
  contains old s = false -> str_replace s old new = s.
Proof.
  unfold str_replace. induction s as [|a r IH]; [reflexivity |].
  intros H. apply contains_cons in H as [Hp Hr].
  cbn [replace_from]. rewrite Hp. now rewrite (IH Hr).
Qed.

Lemma replace_from_skip (old new x rest : string) :
  replace_from old new (String.length x) (x +:+ rest) = replace_from old new 0 rest.
Proof.
  induction x as [|a x IH]; [now rewrite PathFacts.append_nil |].
  rewrite PathFacts.append_cons. exact IH.
Qed.

(** An occurrence at the start is replaced, and the search goes on after it. *)
Lemma str_replace_prefix (a : ascii) (old new rest : string) :
  str_replace (String a old +:+ rest) (String a old) new = new +:+ str_replace rest (String a old) new.
Proof.
  unfold str_replace. rewrite PathFacts.append_cons.
  cbn [replace_from]. rewrite <- PathFacts.append_cons, StringFacts.strip_prefix_append.
  replace (String.length (String a old) - 1)%nat with (String.length old) by (simpl; lia).
  now rewrite replace_from_skip.
Qed.

(** X22.  The replacement leaves a cell without any of the three
    texts as it is, and it moves a path under the old data directory
    to the new one; a missing value of a string column becomes the
    text [nan]. *)
Theorem replace_cell_cases :
  (forall s : string,
     contains old_path s = false -> contains old_string1 s = false ->
     contains old_string2 s = false ->
     replace_cell (Some s) = s)
  /\ (forall rest : string,
        contains old_path rest = false ->
        contains old_string1 (new_path +:+ rest) = false ->
        contains old_string2 (new_path +:+ rest) = false ->
        replace_cell (Some (old_path +:+ rest)) = new_path +:+ rest)
  /\ replace_cell None = "nan".
Proof.
  split; [| split].
  - intros s H0 H1 H2. unfold replace_cell, astype_str.
    rewrite (str_replace_absent s old_path) by exact H0.
    rewrite (str_replace_absent s old_string1) by exact H1.
    now apply str_replace_absent.
  - intros rest H0 H1 H2. unfold replace_cell, astype_str.
    unfold old_path at 1 2. rewrite str_replace_prefix. fold old_path.
    rewrite (str_replace_absent rest) by exact H0.
    rewrite (str_replace_absent _ old_string1) by exact H1.
    now apply str_replace_absent.
  - reflexivity.
Qed.

Section Script.
Context {Other : Type}.
Variable read_csv : string -> outcome (list (column Other)).
Variable to_csv : list (column Other) -> string.
Variable glob : gmap string string -> string -> list string.
Variable isdir : gmap string string -> string -> bool.

Abbreviation replace_in_file := (replace_in_file read_csv to_csv).
Abbreviation replace_paths_in_csv := (replace_paths_in_csv read_csv to_csv glob).

(** One turn of the loop, case by case. *)
Lemma replace_in_file_run (csv_file : string) (w : world) :
  (forall text, read_csv text <> Raise KeyboardInterrupt) ->
  exists w',
    replace_in_file csv_file w = (w', Ok tt)
    /\ stdout w `prefix_of` stdout w'
    /\ (forall p, p <> csv_file -> fs w' !! p = fs w !! p)
    /\ match fs w !! csv_file with
       | None => fs w' = fs w
       | Some text =>
           match read_csv text with
           | Ok df => fs w' = <[csv_file := to_csv (map replace_column df)]> (fs w)
           | Raise _ => fs w' = fs w
           end
       end.
Proof.
  intros Hread. unfold ReplacePaths.replace_in_file, try_except_Exception.
  unfold bind, print, read_file, lift, write_file, modify. cbn [fs stdout].
  destruct (fs w !! csv_file) as [text|] eqn:Ef.
  - specialize (Hread text). destruct (read_csv text) as [df|[|c m]]; [| congruence |].
    + eexists. split; [reflexivity |]. cbn [fs stdout]. split; [| split; [| reflexivity]].
      * rewrite <- app_assoc. now apply prefix_app_r.
      * intros p Hp. now rewrite lookup_insert_ne by (now apply not_eq_sym).
    + cbn [is_Exception]. eexists. split; [reflexivity |]. cbn [fs stdout].
      split; [| split; [| reflexivity]]; [| reflexivity].
      rewrite <- app_assoc. now apply prefix_app_r.
  - cbn [is_Exception]. eexists. split; [reflexivity |]. cbn [fs stdout].
    split; [| split; [| reflexivity]]; [| reflexivity].
    rewrite <- app_assoc. now apply prefix_app_r.
Qed.

(** X23.  A table that cannot be read does not stop the others:
    [replace_paths_in_csv] always returns, every file that the
    pattern did not find keeps its content, and so does every file
    found whose reading raises.  When files were found, the last
    line printed is the closing line. *)
Theorem replacement_contains_failures (input_dir : string) (w : world) :
  (forall text, read_csv text <> Raise KeyboardInterrupt) ->
  let csv_files := glob (fs w) (join input_dir "**/*_results.csv") in
  exists w',
    replace_paths_in_csv input_dir w = (w', Ok tt)
    /\ (forall p, p ∉ csv_files -> fs w' !! p = fs w !! p)
    /\ (forall p text c m,
          fs w !! p = Some text -> read_csv text = Raise (Exc c m) ->
          fs w' !! p = Some text)
    /\ (csv_files <> [] -> last (stdout w') = Some "Path replacement completed!").
Proof.
  intros Hread csv_files.
  assert (forall (files : list string) (w0 : world),
             exists w1,
               for_each files replace_in_file w0 = (w1, Ok tt)
               /\ (forall p, p ∉ files -> fs w1 !! p = fs w0 !! p)
               /\ (forall p text c m,
                     fs w0 !! p = Some text -> read_csv text = Raise (Exc c m) ->
                     fs w1 !! p = Some text)) as Hloop.
  { induction files as [|file rest IH]; intros w0.
    - exists w0. now repeat split.
    - destruct (replace_in_file_run file w0 Hread) as (w1 & E1 & _ & Hother & Hfile).
      destruct (IH w1) as (w2 & E2 & Hother2 & Hkeep2).
      exists w2. cbn [for_each]. unfold bind. rewrite E1, E2.
      split; [reflexivity |]. split.
      + intros p Hp. apply not_elem_of_cons in Hp as [Hne Hp].
        rewrite (Hother2 p Hp). now apply Hother.
      + intros p text c m Hp Hfail. apply (Hkeep2 p text c m); [| exact Hfail].
        destruct (decide (p = file)) as [-> | Hne]; [| now rewrite Hother].
        rewrite Hp, Hfail in Hfile. now rewrite Hfile. }
  unfold ReplacePaths.replace_paths_in_csv. unfold bind at 1, gets. fold csv_files.
  destruct (bool_decide (csv_files = [])) eqn:E.
  - apply bool_decide_eq_true in E. eexists. split; [reflexivity |].
    cbn [fs]. now repeat split.
  - unfold bind at 1, print at 1, modify. unfold bind at 1.
    match goal with
    | |- context [for_each csv_files _ ?w0] => destruct (Hloop csv_files w0) as (w1 & E1 & Ho & Hk)
    end.
    rewrite E1. unfold print, modify. eexists. split; [reflexivity |].
    cbn [fs stdout] in *. split; [exact Ho |]. split; [exact Hk |].
    intros _. apply last_snoc.
Qed.

End Script.
End ReplacePathsFacts.

(** * The particle stacks and the star file *)
Module ExportScriptFacts.
Import PyStr PosixPath Py World ExportRelion ExportScript ExportScriptProps.
#[local] Open Scope Z_scope.

Lemma filter_split {A} (P : A -> bool) (l : list A) :
  List.filter P l ++ List.filter (fun x => negb (P x)) l ≡ₚ l.
Proof.
  induction l as [|x l IH]; [reflexivity |]. simpl.
  destruct (P x); simpl.
  - now constructor.
  - rewrite <- Permutation_middle. now constructor.
Qed.

Lemma filter_other_key {A} (key : A -> string) (k k' : string) (l : list A) :
  k' <> k ->
  List.filter (fun row => String.eqb (key row) k')
              (List.filter (fun row => negb (String.eqb (key row) k)) l)
  = List.filter (fun row => String.eqb (key row) k') l.
Proof.
  intros Hne. induction l as [|x l IH]; [reflexivity |]. simpl.
  destruct (String.eqb_spec (key x) k) as [Hk | Hk]; simpl.
  - rewrite IH. destruct (String.eqb_spec (key x) k') as [Hk' | Hk']; [congruence | reflexivity].
  - now rewrite IH.
Qed.

(** The groups of a table by a key, taken over a list of distinct
    keys that holds every key of the table, are the table rearranged. *)
Lemma groups_permutation {A} (key : A -> string) (keys : list string) (l : list A) :
  NoDup keys -> (forall row, row ∈ l -> key row ∈ keys) ->
  concat (map (fun k => List.filter (fun row => String.eqb (key row) k) l) keys) ≡ₚ l.
Proof.
  revert l. induction keys as [|k ks IH]; intros l Hnd Hcover.
  - destruct l as [|x l]; [reflexivity |].
    exfalso. specialize (Hcover x ltac:(now left)). inversion Hcover.
  - apply NoDup_cons in Hnd as [Hk Hnd]. simpl.
    rewrite (map_ext_in _ (fun k' => List.filter (fun row => String.eqb (key row) k')
                                      (List.filter (fun row => negb (String.eqb (key row) k)) l))).
    + rewrite IH; [apply filter_split | exact Hnd |].
      intros row Hrow. apply list_elem_of_In, filter_In in Hrow as [Hrow Hne].
      apply list_elem_of_In, Hcover in Hrow.
      apply elem_of_cons in Hrow as [Heq | Hin]; [| exact Hin].
      rewrite Heq, String.eqb_refl in Hne. discriminate.
    + intros k' Hk'. symmetry. apply filter_other_key.
      intros ->. apply Hk. now apply list_elem_of_In.
Qed.

Lemma length_concat_map {A B C} (f : A -> list B) (g : A -> list C) (l : list A) :
  (forall x, length (f x) = length (g x)) ->
  length (concat (map f l)) = length (concat (map g l)).
Proof.
  intros H. induction l as [|x l IH]; [reflexivity |].
  simpl. now rewrite !length_app, H, IH.
Qed.

(** Zeros in front of a numeral do not change its value. *)
Lemma int_of_zeros (k : nat) (d : string) :
  int_of_digits (String.concat EmptyString (replicate k "0") +:+ d) = int_of_digits d.
Proof.
  induction k as [|k IH]; [now rewrite PathFacts.append_nil |].
  assert (String.concat EmptyString (replicate (S k) "0")
          = String "0" (String.concat EmptyString (replicate k "0"))) as ->.
  { simpl. destruct (replicate k "0"); [reflexivity |].
    now rewrite PathFacts.append_cons, !PathFacts.append_nil. }
  rewrite PathFacts.append_cons. unfold int_of_digits in *. exact IH.
Qed.

Lemma format_06d_value (n : Z) : 0 <= n -> int_of_digits (format_06d n) = n.
Proof.
  intros Hn. unfold format_06d.
  destruct (n <? 0) eqn:E; [apply Z.ltb_lt in E; lia |].
  rewrite PathFacts.append_nil, int_of_zeros.
  rewrite Z.abs_eq by lia. now apply DigitFacts.str_Z_number.
Qed.

(** *** The name of a stack *)

Lemma split_free (c : ascii) (cur s : string) :
  rfind c s = -1 -> split_char_from c cur s = [cur +:+ s].
Proof.
  revert cur. induction s as [|a r IH]; intros cur H.
  - simpl. now rewrite PathFacts.append_empty.
  - apply PathFacts.rfind_free_inv in H as [Ha Hr]. simpl. rewrite Ha, IH by exact Hr.
    now rewrite PathFacts.append_assoc, PathFacts.append_cons, PathFacts.append_nil.
Qed.

Lemma split_last (c : ascii) (s name cur : string) :
  rfind c name = -1 -> last (split_char_from c cur (s +:+ String c name)) = Some name.
Proof.
  intros H. revert cur. induction s as [|a r IH]; intros cur.
  - rewrite PathFacts.append_nil. simpl. rewrite Ascii.eqb_refl, split_free by exact H.
    now rewrite PathFacts.append_nil.
  - rewrite PathFacts.append_cons. simpl. destruct (Ascii.eqb a c); [| apply IH].
    specialize (IH EmptyString).
    destruct (split_char_from c EmptyString (r +:+ String c name)); [discriminate IH |].
    exact IH.
Qed.

Lemma last_filter {A} (P : A -> bool) (l : list A) (x : A) :
  last l = Some x -> P x = true -> last (List.filter P l) = Some x.
Proof.
  intros Hl HP. apply last_Some in Hl as [l' ->].
  rewrite List.filter_app. simpl. rewrite HP. apply last_snoc.
Qed.

Lemma proper_name (name : string) :
  name <> EmptyString -> name <> "." ->
  negb (is_empty name) && negb (String.eqb name ".") = true.
Proof.
  intros Hne Hdot. destruct name as [|a r]; [congruence |].
  cbn [is_empty]. destruct (String.eqb_spec (String a r) "."); [congruence | reflexivity].
Qed.

Lemma path_name_of_file (dir name : string) :
  rfind sep name = -1 -> name <> EmptyString -> name <> "." ->
  path_name (dir +:+ String sep name) = name.
Proof.
  intros Hfree Hne Hdot. unfold path_name, split_char.
  rewrite (last_filter _ _ name); [reflexivity | now apply split_last | now apply proper_name].
Qed.

Lemma path_name_of_name (name : string) :
  rfind sep name = -1 -> name <> EmptyString -> name <> "." -> path_name name = name.
Proof.
  intros Hfree Hne Hdot. unfold path_name, split_char.
  rewrite split_free, PathFacts.append_nil by exact Hfree.
  cbn [List.filter]. now rewrite proper_name.
Qed.

(** X28.  The stack of a micrograph is named by the file name of the
    micrograph alone: the directories of its path play no part, so
    that two micrographs with one file name in two directories get
    the same stack path, and the same path in the image names of the
    star file. *)
Theorem stack_named_by_file (output_dir dir1 dir2 name : string) :
  rfind sep name = -1 -> name <> EmptyString -> name <> "." ->
  stem (dir1 +:+ String sep name) = stem name
  /\ stack_path output_dir (dir1 +:+ String sep name)
     = stack_path output_dir (dir2 +:+ String sep name).
Proof.
  intros Hfree Hne Hdot.
  assert (Hstem : forall dir, stem (dir +:+ String sep name) = stem name).
  { intros dir. unfold stem.
    now rewrite path_name_of_file, path_name_of_name. }
  split; [apply Hstem |]. unfold stack_path. now rewrite !Hstem.
Qed.

Section Script.
Context {F Px : Type}.
Variable zero : Px.
Variable add : F -> F -> F.
Variable int : F -> outcome Z.
Variable read_csv : string -> outcome (list (particle (F := F))).
Variable read_mrc : string -> outcome (list (list Px)).
Variable write_mrcs : list (list (list Px)) -> F -> string.
Variable write_star : star_optics (F := F) -> list (star_particle (F := F)) -> string.
Variable glob : gmap string string -> string -> list string.

Lemma group_keys_spec (df : list (@particle F)) :
  NoDup (group_keys df) /\ forall row, row ∈ df -> micrograph_path row ∈ group_keys df.
Proof.
  unfold group_keys. split.
  - rewrite merge_sort_Permutation. apply NoDup_remove_dups.
  - intros row Hrow. rewrite merge_sort_Permutation, elem_of_remove_dups.
    apply list_elem_of_In, in_map. now apply list_elem_of_In.
Qed.

Lemma groupby_permutation (df : list (@particle F)) :
  concat (map snd (groupby df)) ≡ₚ df.
Proof.
  unfold groupby. rewrite map_map. cbn [snd].
  destruct (group_keys_spec df) as [Hnd Hcover].
  now apply groups_permutation.
Qed.

Lemma groupby_rows (df : list (@particle F)) (group : string * list (@particle F)) (row : @particle F) :
  group ∈ groupby df -> row ∈ group.2 -> row ∈ df /\ micrograph_path row = group.1.
Proof.
  unfold groupby. intros Hg Hrow.
  apply list_elem_of_In, in_map_iff in Hg as (key & <- & _). cbn [fst snd] in *.
  apply list_elem_of_In, filter_In in Hrow as [Hrow Hkey].
  split; [now apply list_elem_of_In | now apply String.eqb_eq].
Qed.

(** X24.  The star file lists every row of the tables, whether or
    not its particle joined a stack.  The rows of one micrograph are
    numbered from 1 in the order of the table; the image name of a
    row is this number in at least six digits, [@], and the path of
    the stack of the micrograph, and the number reads back from its
    digits. *)
Theorem star_rows_of_tables (output_dir : string) (df : list (@particle F)) :
  length (concat (map (star_rows add output_dir) (groupby df))) = length df
  /\ forall (group : string * list (@particle F)) (position : nat) (r : star_particle),
       group ∈ groupby df ->
       star_rows add output_dir group !! position = Some r ->
       exists row : @particle F,
         group.2 !! position = Some row
         /\ row ∈ df
         /\ micrograph_path row = group.1
         /\ rlnMicrographName r = group.1
         /\ rlnCoordinateX r = pos_x_img row
         /\ rlnCoordinateY r = pos_y_img row
         /\ rlnImageName r
            = format_06d (Z.of_nat position + 1) +:+ "@" +:+ stack_path output_dir group.1
         /\ int_of_digits (format_06d (Z.of_nat position + 1)) = Z.of_nat position + 1.
Proof.
  split.
  - rewrite (length_concat_map _ snd).
    + apply Permutation_length, groupby_permutation.
    + intros group. unfold star_rows. apply length_imap.
  - intros group position r Hgroup Hr. unfold star_rows in Hr.
    apply list_lookup_imap_Some in Hr as (row & Hrow & ->).
    exists row. cbn.
    destruct (groupby_rows df group row Hgroup) as [Hin Hkey];
      [eapply list_elem_of_lookup_2; exact Hrow |].
    repeat (split; [assumption || reflexivity |]).
    apply format_06d_value. lia.
Qed.


(** *** The stack of one micrograph *)




(** *** The files that the export leaves behind *)

Lemma writes_only_ret {A} (P : string -> Prop) (a : A) : writes_only P (ret a).
Proof. intros w p. now left. Qed.

Lemma writes_only_raise {A} (P : string -> Prop) (e : exn) : writes_only P (@raise world A e).
Proof. intros w p. now left. Qed.

Lemma writes_only_lift {A} (P : string -> Prop) (o : outcome A) : writes_only P (lift o).
Proof. intros w p. now left. Qed.

Lemma writes_only_gets {A} (P : string -> Prop) (f : world -> A) : writes_only P (gets f).
Proof. intros w p. now left. Qed.

Lemma writes_only_print (P : string -> Prop) (msg : string) : writes_only P (print msg).
Proof. intros w p. now left. Qed.

Lemma writes_only_read_file (P : string -> Prop) (path : string) :
  writes_only P (read_file path).
Proof. intros w p. unfold read_file. destruct (fs w !! path); now left. Qed.

Lemma writes_only_write_file (P : string -> Prop) (path text : string) :
  P path -> writes_only P (write_file path text).
Proof.
  intros HP w p. unfold write_file, modify. cbn [fst fs].
  destruct (decide (p = path)) as [-> | Hne].
  - right. split; [exact HP |]. rewrite lookup_insert_eq. eauto.
  - left. now rewrite lookup_insert_ne.
Qed.

Lemma writes_only_bind {A B} (P : string -> Prop) (m : M world A) (k : A -> M world B) :
  writes_only P m -> (forall a, writes_only P (k a)) -> writes_only P (bind m k).
Proof.
  intros Hm Hk w p. unfold bind. specialize (Hm w p).
  destruct (m w) as [w1 [a | e]]; cbn [fst] in *; [| exact Hm].
  specialize (Hk a w1 p).
  destruct Hk as [Hk | Hk]; [| now right].
  rewrite Hk. exact Hm.
Qed.

Lemma writes_only_for_each {A} (P : string -> Prop) (xs : list A) (body : A -> M world unit) :
  (forall x, writes_only P (body x)) -> writes_only P (for_each xs body).
Proof.
  intros Hbody. induction xs as [|x xs IH]; cbn [for_each].
  - apply writes_only_ret.
  - apply writes_only_bind; [apply Hbody | intros _; exact IH].
Qed.

Lemma crop_loop_writes_nothing (P : string -> Prop) (micrograph : list (list Px))
    (box_size : Z) (particles : list (@particle F)) (particle_stack : list (list (list Px))) :
  writes_only P (crop_loop zero int micrograph box_size particles particle_stack).
Proof.
  revert particle_stack. induction particles as [|row rest IH]; intros particle_stack;
    cbn [crop_loop].
  - apply writes_only_ret.
  - apply writes_only_bind; [apply writes_only_lift | intros center_x].
    apply writes_only_bind; [apply writes_only_lift | intros center_y].
    destruct (crop_particle zero micrograph box_size center_x center_y).
    + apply writes_only_bind; [apply writes_only_print | intros _; apply IH].
    + apply IH.
Qed.

Lemma process_group_writes (output_dir : string) (box_size : Z)
    (group : string * list (@particle F)) :
  writes_only (export_output output_dir)
    (process_group zero int read_mrc write_mrcs output_dir box_size group).
Proof.
  unfold process_group.
  apply writes_only_bind; [apply writes_only_print | intros _].
  destruct group.2 as [|first rest]; [apply writes_only_raise |].
  apply writes_only_bind; [apply writes_only_read_file | intros bytes].
  apply writes_only_bind; [apply writes_only_lift | intros micrograph].
  apply writes_only_bind; [apply crop_loop_writes_nothing | intros particle_stack].
  destruct (bool_decide (particle_stack = [])); [apply writes_only_print |].
  apply writes_only_write_file. right. exists group.1. reflexivity.
Qed.

Lemma process_tables_writes (output_dir : string) (box_size : Z) (csv_files : list string) :
  writes_only (export_output output_dir)
    (process_tables zero int read_csv read_mrc write_mrcs output_dir box_size csv_files).
Proof.
  induction csv_files as [|csv_path rest IH]; cbn [process_tables].
  - apply writes_only_ret.
  - apply writes_only_bind.
    + unfold process_csv.
      apply writes_only_bind; [apply writes_only_print | intros _].
      apply writes_only_bind; [apply writes_only_read_file | intros text].
      apply writes_only_bind; [apply writes_only_lift | intros df].
      apply writes_only_bind; [| intros _; apply writes_only_ret].
      apply writes_only_for_each. intros group. apply process_group_writes.
    + intros df. apply writes_only_bind; [exact IH | intros all_particles].
      apply writes_only_ret.
Qed.

(** X26.  Whatever the tables hold and however the run ends, the
    export deletes no file, and the only files it creates or
    overwrites are the star file [particles.star] of the output
    directory and stacks named by the stem of a micrograph with the
    suffix [.mrcs] in the output directory; every other path, the
    tables and the micrographs among them, is left as it was. *)
Theorem export_writes_only (input_dir output_dir : string) (box_size : Z)
    (csv_suffix : string) (w : world) (p : string) :
  let after :=
    (create_particle_stacks zero add int read_csv read_mrc write_mrcs write_star glob
       input_dir output_dir box_size csv_suffix w).1 in
  (is_Some (fs w !! p) -> is_Some (fs after !! p))
  /\ (fs after !! p <> fs w !! p ->
      p = join output_dir "particles.star"
      \/ exists micrograph_path : string,
           p = join output_dir (stem micrograph_path +:+ ".mrcs")).
Proof.
  assert (H : writes_only (export_output output_dir)
                (create_particle_stacks zero add int read_csv read_mrc write_mrcs write_star
                   glob input_dir output_dir box_size csv_suffix)).
  { unfold create_particle_stacks.
    apply writes_only_bind; [apply writes_only_gets | intros csv_files].
    destruct (bool_decide (csv_files = [])); [apply writes_only_print |].
    apply writes_only_bind; [apply writes_only_print | intros _].
    apply writes_only_bind; [apply process_tables_writes | intros all_particles].
    unfold create_star_file.
    destruct (concat all_particles) as [|first rest]; [apply writes_only_raise |].
    apply writes_only_bind; [| intros _; apply writes_only_print].
    apply writes_only_write_file. now left. }
  cbv zeta. destruct (H w p) as [Heq | [Hout Hsome]].
  - rewrite Heq. split; [tauto | congruence].
  - split; [intros _; exact Hsome | intros _; exact Hout].
Qed.

(** *** Tables without rows *)

Lemma process_tables_empty (output_dir : string) (box_size : Z) (csv_files : list string)
    (w : world) :
  Forall (fun csv_path => exists text, fs w !! csv_path = Some text /\ read_csv text = Ok [])
         csv_files ->
  process_tables zero int read_csv read_mrc write_mrcs output_dir box_size csv_files w
  = ({| fs := fs w;
        stdout := stdout w
                  ++ map (fun csv_path =>
                            String LF EmptyString +:+ "Processing CSV file: " +:+ csv_path)
                         csv_files |},
     Ok (map (fun _ => []) csv_files)).
Proof.
  revert w. induction csv_files as [|csv_path rest IH]; intros w Hall.
  - destruct w. cbn. now rewrite app_nil_r.
  - apply Forall_cons in Hall as [(text & Hfile & Hread) Hrest].
    cbn [process_tables]. unfold bind at 1. unfold process_csv.
    unfold bind at 1, print at 1, modify at 1.
    unfold bind at 1, read_file at 1. cbn [fs stdout]. rewrite Hfile.
    unfold bind at 1, lift at 1. rewrite Hread.
    unfold bind at 1. change (groupby []) with (@nil (string * list (@particle F))).
    cbn [for_each]. unfold ret at 1. unfold ret at 1.
    unfold bind at 1. rewrite IH by exact Hrest.
    unfold ret. cbn [fs stdout map]. now rewrite <- app_assoc.
Qed.

Lemma concat_empty {A B} (xs : list A) : concat (map (fun _ => @nil B) xs) = [].
Proof. induction xs; [reflexivity | exact IHxs]. Qed.

(** X27.  When tables are found and none of them has a row, the
    export does not end normally: after the tables are read, the run
    ends with the [IndexError] of the first row that is missing.  No
    file is changed, so that no star file is written, and nothing is
    printed after the lines that name the tables. *)
Theorem export_of_empty_tables (input_dir output_dir : string) (box_size : Z)
    (csv_suffix : string) (w : world) :
  glob (fs w) (join input_dir ("*" +:+ csv_suffix)) <> [] ->
  Forall (fun csv_path => exists text, fs w !! csv_path = Some text /\ read_csv text = Ok [])
         (glob (fs w) (join input_dir ("*" +:+ csv_suffix))) ->
  let csv_files := glob (fs w) (join input_dir ("*" +:+ csv_suffix)) in
  let run := create_particle_stacks zero add int read_csv read_mrc write_mrcs write_star glob
               input_dir output_dir box_size csv_suffix w in
  run.2 = Raise (Exc OtherException "single positional indexer is out-of-bounds")
  /\ fs run.1 = fs w
  /\ stdout run.1
     = stdout w
       ++ ("Found " +:+ str_Z (Z.of_nat (length csv_files)) +:+ " CSV files to process")
          :: map (fun csv_path =>
                    String LF EmptyString +:+ "Processing CSV file: " +:+ csv_path)
                 csv_files.
Proof.
  intros Hfound Hempty csv_files run. fold csv_files in Hfound, Hempty.
  assert (Hrun : run
    = ({| fs := fs w;
          stdout := stdout w
            ++ ("Found " +:+ str_Z (Z.of_nat (length csv_files)) +:+ " CSV files to process")
               :: map (fun csv_path =>
                         String LF EmptyString +:+ "Processing CSV file: " +:+ csv_path)
                      csv_files |},
       Raise (Exc OtherException "single positional indexer is out-of-bounds"))).
  { subst run. unfold create_particle_stacks.
    unfold bind at 1, gets at 1. fold csv_files.
    rewrite bool_decide_eq_false_2 by exact Hfound.
    unfold bind at 1, print at 1, modify at 1.
    unfold bind at 1. rewrite process_tables_empty by exact Hempty.
    rewrite concat_empty. unfold create_star_file, raise. cbn [fs stdout].
    now rewrite <- app_assoc. }
  rewrite Hrun. cbn [fst snd fs stdout]. now repeat split.
Qed.

End Script.
End ExportScriptFacts.

(** * Instances of the facts above *)
Module Instances.
Import PyStr PosixPath Py Yaml Scenarios Examples.
#[local] Open Scope Z_scope.

Lemma micrograph_number_of_name_witness :
  MatchStage.extract_micrograph_number
    ("xenon_" +:+ "219" +:+ "_" +:+ "000" +:+ "_" +:+ "0.0_DWS.mrc")
  = Some ("219" +:+ "_" +:+ "000").
Proof.
  exact (MatchStageFacts.micrograph_number_of_name "219" "000" "0.0_DWS.mrc" eq_refl eq_refl).
Defined.

(** The second micrograph of the run in which the engine fails on the first. *)
Lemma success_leaves_results_witness :
  let w' :=
    (MatchStage.process_micrograph TestEnv.float_of_str
       (TestEnv.safe_load [("template", EngineFailure.template)]) TestEnv.dump
       EngineFailure.match_template "/mg/xenon_2_1_DWS.mrc" "/cfg/match.yaml" "/ctf" "/out"
       [0] 8 EngineFailure.start).1 in
  exists csv : string,
    World.fs w' !! MatchProps.results_path "/mg/xenon_2_1_DWS.mrc" "/out" = Some csv
    /\ MatchStage.is_already_processed (World.fs w') "/mg/xenon_2_1_DWS.mrc" "/out" = true.
Proof.
  cbv zeta.
  destruct (MatchStage.process_micrograph TestEnv.float_of_str
              (TestEnv.safe_load [("template", EngineFailure.template)]) TestEnv.dump
              EngineFailure.match_template "/mg/xenon_2_1_DWS.mrc" "/cfg/match.yaml" "/ctf"
              "/out" [0] 8 EngineFailure.start) as [w' [[|]|e]] eqn:Hrun;
    [| vm_compute in Hrun; discriminate | vm_compute in Hrun; discriminate].
  exact (MatchStageFacts.success_leaves_results _ _ _ _ _ _ _ _ _ _ _ _ Hrun).
Defined.

Lemma exit_status_of_main_witness :
  exists w' : World.world,
    EngineFailure.run MissingTemplate.arguments EngineFailure.start = (w', Ok 0)
    /\ TestEnv.sorted_glob MissingTemplate.catalog (World.fs EngineFailure.start)
         (join "/mg" "*DWS.mrc") <> [].
Proof.
  destruct (EngineFailure.run MissingTemplate.arguments EngineFailure.start)
    as [w' [status|e]] eqn:Hrun; [| vm_compute in Hrun; discriminate].
  destruct (MatchStageFacts.exit_status_of_main _ _ _ _ _ _ _ _ _ Hrun)
    as [(-> & Hnone & _) | (-> & Hfound)].
  - vm_compute in Hnone. discriminate.
  - exists w'. split; [reflexivity | exact Hfound].
Defined.

Lemma derived_config_assigned_witness :
  let derive :=
    MatchStage.create_yaml_for_micrograph
      (TestEnv.safe_load [("template", EngineFailure.template)]) TestEnv.dump
      "/cfg/match.yaml" "/mg/xenon_1_1_DWS.mrc" (Some 10) (Some 20) (Some 30)
      "/out/xenon_1_1_DWS_config.yaml" [0] in
  exists config' : yaml Z,
    (derive EngineFailure.start).2 = Ok config'
    /\ lookup_path ["optics_group"; "defocus_u"] config' = Some (YFloat 10)
    /\ lookup_path ["micrograph_path"] config' = Some (YStr "/mg/xenon_1_1_DWS.mrc").
Proof.
  cbv zeta.
  destruct (MatchStage.create_yaml_for_micrograph _ _ _ _ _ _ _ _ _ EngineFailure.start)
    as [w' [config'|e]] eqn:Hderive; [| vm_compute in Hderive; discriminate].
  exists config'. split; [reflexivity |].
  destruct (MatchStageFacts.derived_config_assigned _ _ _ _ _ _ _ _ _ _ _ _ Hderive)
    as (Hpath & Hu & _).
  split; [exact Hu | exact Hpath].
Defined.

Lemma template_missing_group_witness :
  MatchStage.create_yaml_for_micrograph IncompleteTemplate.safe_load TestEnv.dump
    "/cfg/match.yaml" "/mg/xenon_1_1_DWS.mrc" (Some 10) (Some 20) (Some 30)
    "/out/xenon_1_1_DWS_config.yaml" [0] IncompleteTemplate.start
  = (IncompleteTemplate.start, Raise (Exc KeyError ("'" +:+ "computational_config" +:+ "'"))).
Proof.
  apply (MatchStageFacts.template_missing_group IncompleteTemplate.safe_load TestEnv.dump
           "/cfg/match.yaml" "/mg/xenon_1_1_DWS.mrc" "/out/xenon_1_1_DWS_config.yaml"
           (Some 10) (Some 20) (Some 30) [0] IncompleteTemplate.start "template"
           IncompleteTemplate.top "computational_config").
  - vm_compute; reflexivity.
  - reflexivity.
  - unfold MatchGroups.required_groups. now repeat constructor.
  - vm_compute; reflexivity.
  - intros k Hk Hne. unfold MatchGroups.required_groups in Hk.
    apply elem_of_cons in Hk as [-> | Hk]; [eexists; vm_compute; reflexivity |].
    apply elem_of_cons in Hk as [-> | Hk]; [congruence |].
    apply elem_of_cons in Hk as [-> | Hk]; [eexists; vm_compute; reflexivity |].
    inversion Hk.
Defined.

Lemma bad_calibration_number_stops_run_witness :
  exists msg : string,
    MatchStage.process_each TestEnv.float_of_str (TestEnv.safe_load []) TestEnv.dump
      (fun files _ _ => (files, Ok "rows")) MissingTemplate.arguments 2 0
      ["/mg/xenon_1_1_DWS.mrc"; "/mg/xenon_2_1_DWS.mrc"] 0 BadCalibration.start
    = ({| World.fs := World.fs BadCalibration.start;
          World.stdout := World.stdout BadCalibration.start ++
            ["Processing " +:+ str_Z (0 + 1) +:+ "/" +:+ str_Z 2 +:+ ": "
             +:+ basename "/mg/xenon_1_1_DWS.mrc"] |},
       Raise (Exc ValueError msg)).
Proof.
  apply (MatchStageFacts.bad_calibration_number_stops_run TestEnv.float_of_str
           (TestEnv.safe_load []) TestEnv.dump (fun files _ _ => (files, Ok "rows"))
           MissingTemplate.arguments 2 0 0 "/mg/xenon_1_1_DWS.mrc" ["/mg/xenon_2_1_DWS.mrc"]
           BadCalibration.start "1_1" BadCalibration.calibration
           [] [] BadCalibration.calibration "1" "n/a" "20" "30" "5" []).
  - vm_compute; reflexivity.
  - vm_compute; reflexivity.
  - vm_compute; reflexivity.
  - constructor.
  - reflexivity.
  - vm_compute; reflexivity.
  - left. reflexivity.
Defined.

(** The two micrographs whose rewritten result paths collide. *)
Lemma results_of_other_item_witness :
  MatchProps.results_path SharedPrefix.first_micrograph "/out"
  <> MatchProps.results_path SharedPrefix.second_micrograph "/out"
  /\ MatchStage.is_already_processed
       (<[MatchProps.results_path SharedPrefix.first_micrograph "/out" := "rows"]> ∅)
       SharedPrefix.second_micrograph "/out"
     = MatchStage.is_already_processed ∅ SharedPrefix.second_micrograph "/out".
Proof.
  apply (MatchStageFacts.results_of_other_item ∅ SharedPrefix.first_micrograph
           SharedPrefix.second_micrograph "/out" "rows").
  intros H. vm_compute in H. discriminate H.
Defined.

Lemma array_jobs_cover_witness :
  concat (map (fun j => RefineStage.select (Jobs.arguments (Z.of_nat j)) ArrayJob.files)
              (seq 1 4))
  = ArrayJob.files.
Proof.
  apply (RefineStageFacts.array_jobs_cover Jobs.arguments ArrayJob.files 3 4).
  - lia.
  - simpl. lia.
  - intros j. split; reflexivity.
Defined.

Lemma filter_keeps_numbered_file_witness :
  "/mg/xenon_007_DWS.mrc"
  ∈ RefineStage.filter_by_numbers [7; 12] ["/mg/xenon_007_DWS.mrc"; "/mg/xenon_8_DWS.mrc"].
Proof.
  apply (proj1 (RefineStageFacts.filter_keeps_numbered_file [7; 12]
                  ["/mg/xenon_007_DWS.mrc"; "/mg/xenon_8_DWS.mrc"]
                  "/mg/xenon_007_DWS.mrc" "DWS.mrc") "007" eq_refl eq_refl).
  split; [now left |]. vm_compute. now left.
Defined.



(** The interrupted run, from the state in which the log was opened. *)
Lemma run_loop_ends_witness :
  let w :=
    {| ConstrainedStage.fs := Interrupted.files; ConstrainedStage.stdout := [];
       ConstrainedStage.error_log_file := Some BrokenManager.log;
       ConstrainedStage.clock := 0 |} in
  exists w' : ConstrainedStage.world,
    ConstrainedStage.run_loop Interrupted.safe_load Interrupted.key_order TestEnv.dump str_Z
      (fun n => "t" +:+ str_Z (Z.of_nat n)) (fun _ => Ok 3) (fun _ => Ok 4)
      (Raise (Exc ImportError "No module named 'torch'")) (fun _ path => Ok path)
      Interrupted.run_constrained_search (fun _ _ => true) "/work" TestEnv.type_name
      (fun _ => "Traceback")
      Interrupted.arguments "/out/constrained_search_errors.log" Interrupted.catalog w
    = (w', Ok 0)
    /\ ConstrainedStage.error_log_file w'
       = Some {| ConstrainedStage.log_path := "/out/constrained_search_errors.log";
                 ConstrainedStage.closed := true |}.
Proof.
  cbv zeta.
  destruct (ConstrainedStageFacts.run_loop_ends Interrupted.safe_load Interrupted.key_order TestEnv.dump str_Z
              (fun n => "t" +:+ str_Z (Z.of_nat n)) (fun _ => Ok 3) (fun _ => Ok 4)
              (Raise (Exc ImportError "No module named 'torch'")) (fun _ path => Ok path)
              Interrupted.run_constrained_search (fun _ _ => true) "/work"
              TestEnv.type_name (fun _ => "Traceback")
              Interrupted.arguments "/out/constrained_search_errors.log" Interrupted.catalog
              {| ConstrainedStage.fs := Interrupted.files; ConstrainedStage.stdout := [];
                 ConstrainedStage.error_log_file := Some BrokenManager.log;
                 ConstrainedStage.clock := 0 |}
              BrokenManager.log (conj eq_refl eq_refl))
    as (w' & Hrun & Hlog & _).
  exists w'. split; [exact Hrun | exact Hlog].
Defined.

(** The manager of the first micrograph cannot be built. *)
Lemma failure_before_search_witness :
  exists (w' : ConstrainedStage.world) (m : string),
    ConstrainedStage.run_guarded Interrupted.safe_load Interrupted.key_order str_Z
      (fun n => "t" +:+ str_Z (Z.of_nat n)) (fun _ => Ok 4)
      (Raise (Exc ImportError "No module named 'torch'")) BrokenManager.from_yaml
      Interrupted.run_constrained_search (fun _ _ => true) "/work" TestEnv.type_name
      (fun _ => "Traceback")
      "xenon_1_1_DWS.mrc" "/mg/xenon_1_1_DWS.mrc"
      "/large/xenon_1_1_DWS_refined_results.csv" "/small/xenon_1_1_DWS_results.csv"
      "/cfg/constrained.yaml" BrokenManager.custom_yaml_path "/vol/small.mrc" "/out"
      [0] 80 0 BrokenManager.start
    = (w', Raise (Exc OtherException m)).
Proof.
  destruct (ConstrainedStageFacts.failure_before_search Interrupted.safe_load Interrupted.key_order str_Z
              (fun n => "t" +:+ str_Z (Z.of_nat n)) (fun _ => Ok 4)
              (Raise (Exc ImportError "No module named 'torch'")) BrokenManager.from_yaml
              Interrupted.run_constrained_search (fun _ _ => true) "/work"
              TestEnv.type_name (fun _ => "Traceback")
              "xenon_1_1_DWS.mrc" "/mg/xenon_1_1_DWS.mrc"
              "/large/xenon_1_1_DWS_refined_results.csv" "/small/xenon_1_1_DWS_results.csv"
              "/cfg/constrained.yaml" BrokenManager.custom_yaml_path "/vol/small.mrc" "/out"
              [0] 80 0 BrokenManager.start
              (ConstrainedStage.preflight Interrupted.safe_load Interrupted.key_order
                 (fun n => "t" +:+ str_Z (Z.of_nat n)) (fun _ => Ok 4)
                 (Raise (Exc ImportError "No module named 'torch'")) BrokenManager.from_yaml
                 "xenon_1_1_DWS.mrc" "/large/xenon_1_1_DWS_refined_results.csv"
                 "/small/xenon_1_1_DWS_results.csv" "/vol/small.mrc"
                 BrokenManager.custom_yaml_path [0] BrokenManager.start).1
              KeyError "'preload_mrc_files'")
    as (w' & _ & _ & Hother).
  - vm_compute; reflexivity.
  - vm_compute; reflexivity.
  - destruct (Hother eq_refl) as [m Hm]. exists w', m. exact Hm.
Defined.


Lemma explicit_range_witness :
  ConstrainedStage.select LastTwo.arguments ArrayJob.files = ["m8"; "m9"].
Proof.
  pose proof (ConstrainedStageFacts.explicit_range LastTwo.arguments ArrayJob.files
                (or_introl eq_refl) (or_introl (mk_is_Some _ _ eq_refl))) as H.
  cbv zeta in H. destruct H as [_ H].
  rewrite (H 2 eq_refl eq_refl); [reflexivity | simpl; lia].
Defined.

(** A particle at the top left corner of the small micrograph. *)
Lemma crop_is_square_witness :
  exists padded_img : list (list Z),
    ExportRelion.crop_particle 0 SmallImage.micrograph 4 0 0 = inr padded_img
    /\ ExportProps.square (Z.to_nat 4) padded_img.
Proof.
  eexists. split; [vm_compute; reflexivity |].
  apply (ExportRelionFacts.crop_is_square 0 SmallImage.micrograph 4 0 0).
  - unfold ExportProps.rectangular. now repeat constructor.
  - vm_compute; reflexivity.
Defined.


(** The first table cannot be read; the second one is rewritten. *)
Lemma replacement_contains_failures_witness :
  exists w' : World.world,
    ReplacePaths.replace_paths_in_csv Tables.read_csv Tables.to_csv Tables.glob "/r"
      Tables.start = (w', Ok tt)
    /\ World.fs w' !! "/r/a_results.csv" = Some "broken"
    /\ last (World.stdout w') = Some "Path replacement completed!".
Proof.
  destruct (ReplacePathsFacts.replacement_contains_failures Tables.read_csv Tables.to_csv
              Tables.glob "/r" Tables.start) as (w' & Hrun & _ & Hkeep & Hlast).
  - intros text. unfold Tables.read_csv. destruct (String.eqb text "broken"); discriminate.
  - exists w'. split; [exact Hrun |]. split.
    + apply (Hkeep "/r/a_results.csv" "broken" ValueError "No columns to parse from file");
        reflexivity.
    + apply Hlast. discriminate.
Defined.

Lemma replace_cell_cases_witness :
  ReplacePaths.replace_cell (Some (ReplacePaths.old_path +:+ "mg/xenon_1_1_DWS.mrc"))
  = ReplacePaths.new_path +:+ "mg/xenon_1_1_DWS.mrc".
Proof.
  apply (proj1 (proj2 ReplacePathsFacts.replace_cell_cases) "mg/xenon_1_1_DWS.mrc");
    vm_compute; reflexivity.
Defined.



(** A directory whose one table has a header and no rows. *)
Lemma export_of_empty_tables_witness :
  let run := ExportScript.create_particle_stacks 0 Z.add Examples.Stacks.int
               Examples.Stacks.read_csv Examples.Stacks.read_mrc Examples.Stacks.write_mrcs
               Examples.Stacks.write_star Examples.Stacks.glob
               "/in" "/out" 4 "_results.csv" Examples.Stacks.empty_start in
  run.2 = Raise (Exc OtherException "single positional indexer is out-of-bounds")
  /\ World.fs run.1 = World.fs Examples.Stacks.empty_start
  /\ World.stdout run.1
     = World.stdout Examples.Stacks.empty_start
       ++ ("Found " +:+ PyStr.str_Z (Z.of_nat (length ["/in/empty_results.csv"]))
           +:+ " CSV files to process")
          :: map (fun csv_path =>
                    String PyStr.LF EmptyString +:+ "Processing CSV file: " +:+ csv_path)
                 ["/in/empty_results.csv"].
Proof.
  apply (ExportScriptFacts.export_of_empty_tables 0 Z.add Examples.Stacks.int
           Examples.Stacks.read_csv Examples.Stacks.read_mrc Examples.Stacks.write_mrcs
           Examples.Stacks.write_star Examples.Stacks.glob
           "/in" "/out" 4 "_results.csv" Examples.Stacks.empty_start).
  - discriminate.
  - constructor; [| constructor]. exists "header". split; reflexivity.
Defined.

(** Two micrographs of one name in two directories. *)
Lemma stack_named_by_file_witness :
  ExportScript.stem ("/data/day1" +:+ String sep "xenon_1_DWS.mrc")
  = ExportScript.stem "xenon_1_DWS.mrc"
  /\ ExportScript.stack_path "/out" ("/data/day1" +:+ String sep "xenon_1_DWS.mrc")
     = ExportScript.stack_path "/out" ("/data/day2" +:+ String sep "xenon_1_DWS.mrc").
Proof.
  apply (ExportScriptFacts.stack_named_by_file "/out" "/data/day1" "/data/day2"
           "xenon_1_DWS.mrc"); [reflexivity | discriminate | discriminate].
Defined.

End Instances.
